(** * The protocol engine of the OAuth2 authorization server

    A shallow embedding of [server/server.go]: request validation, grant
    dispatch, redirect construction, token response data, error mapping and
    bearer-token extraction, followed by the properties of the engine.

    Conventions of the embedding:
    - Go strings are byte strings and are embedded as [string]; Go maps are
      finite maps ([gmap]); [time.Duration] and the integer types are
      embedded as [Z].
    - A Go function that returns [(T, error)] returns a [result T].
    - The collaborators (the handler fields of [Server], the token manager
      and the response writer) act on an abstract world.  Every invocation
      is recorded, with its arguments, in a log of calls, so that "was not
      invoked" is a statement about the log.  A collaborator that is called
      returns; the call of a handler field that is nil panics.
    - What the engine takes from files that are not part of it is a
      parameter: the constants of the grant and response types, the error
      texts and tables, the URL parser and printer, the default client-info
      handler and the default configuration.  The [String] methods of the
      grant and response types are modelled from the spec.
    - An error value is comparable or not, by its dynamic type.  The lookup
      of an error that is not comparable in a table keyed by errors
      panics.
    - Logging has no effect on the results and is left out.
    - The JSON encoder of a token response writes the body through the
      response writer: it is a parameter that acts on the world and may
      fail, and the log does not record it.  The order in which a loop
      visits the keys of a header map is a parameter as well. *)

From stdpp Require Import gmap strings list fin_maps sorting pretty.
From Stdlib Require Import Ascii ZArith Lia.

Open Scope string_scope.

(** Header maps: [net/textproto.MIMEHeader], the representation of
    [http.Header]. *)
Abbreviation MIMEHeader := (gmap string (list string)) (only parsing).

(** ** Errors: [gopkg.in/oauth2.v3/errors] and [github.com/pkg/errors] *)

Module errors.

(** Go's [error] values.  The first thirteen constructors are the
    package-level error values the engine names; they are compared by
    identity in Go, and so are distinct from any error a collaborator builds
    itself, even one with the same text. *)
Inductive error : Type :=
| ErrInvalidRequest
| ErrUnauthorizedClient
| ErrAccessDenied
| ErrUnsupportedResponseType
| ErrInvalidScope
| ErrServerError
| ErrUnsupportedGrantType
| ErrInvalidGrant
| ErrInvalidClient
| ErrInvalidAuthorizeCode
| ErrInvalidRefreshToken
| ErrExpiredRefreshToken
| ErrInvalidAccessToken
| errorString (text : string)          (* any other root error *)
| EscapeError (s : string)             (* net/url *)
| withMessage (cause : error) (msg : string)
| withStack (cause : error)
| uncomparable (text : string).        (* a value that cannot be a map key *)

#[global] Instance error_eq_dec : EqDecision error.
Proof. solve_decision. Defined.

(** [perrors.Cause]: follow the chain of causes to the root error. *)
Fixpoint Cause (err : error) : error :=
  match err with
  | withMessage cause _ => Cause cause
  | withStack cause => Cause cause
  | _ => err
  end.

(** Whether the dynamic type of an error value is comparable.  The error
    values of the package and the wrappers of [pkg/errors] are pointers and
    [EscapeError] is a string type; a collaborator may also return an error
    whose type is a slice, or a struct or an array that holds one, and such a
    value is not comparable. *)
Definition comparable (err : error) : bool :=
  match err with
  | uncomparable _ => false
  | _ => true
  end.

(** Whether an error can be the key of a map: the nil error can, and so can
    every error whose dynamic type is comparable. *)
Definition hashable (err : option error) : bool :=
  match err with
  | Some e => comparable e
  | None => true
  end.

(** [perrors.WithStack], [perrors.Wrap] and [perrors.Wrapf] on a non-nil
    error (the engine only calls them on non-nil errors). *)
Definition WithStack (err : error) : error := withStack err.
Definition Wrap (err : error) (message : string) : error :=
  withStack (withMessage err message).
Definition Wrapf (err : error) (message : string) : error :=
  Wrap err message.

(** [errors.Response] *)
Record Response : Type := mkResponse {
  Error : option error;
  ErrorCode : Z;
  Description : string;
  URI : string;
  StatusCode : Z;
  Header : MIMEHeader
}.

(** The zero value [var re errors.Response]. *)
Definition zeroResponse : Response :=
  mkResponse None 0 "" "" 0 ∅.

(** The parts of the package that are data: the [Error()] text of every
    error value and the two package-level tables, keyed by error values
    (a nil key is [None]). *)
Class Tables : Type := {
  ErrorText : error → string;
  Descriptions : option error → option string;
  StatusCodes : option error → option Z
}.

End errors.
Export errors.

(** A Go result [(T, error)]: either a value with a nil error, or an error. *)
Inductive result (T : Type) : Type :=
| Ok (v : T)
| Err (err : error).
Arguments Ok {T} v.
Arguments Err {T} err.

(** [strings.HasPrefix] and [strings.Contains] *)
Definition strings_HasPrefix (s prefix : string) : bool :=
  String.prefix prefix s.

(** The slice [s[n:]], for [n] within the length of [s]. *)
Fixpoint string_from (n : nat) (s : string) : string :=
  match n, s with
  | S n', String _ s' => string_from n' s'
  | _, _ => s
  end.

Fixpoint strings_Contains (s substr : string) : bool :=
  strings_HasPrefix s substr ||
  match s with
  | EmptyString => false
  | String _ s' => strings_Contains s' substr
  end.

(** ** Query strings and URLs: [net/url] *)

Module url.

(** [url.Values], a map from keys to lists of values. *)
Abbreviation Values := (gmap string (list string)) (only parsing).

(** [Values.Set]: replace whatever values the key has by the single value. *)
Definition Values_Set (key value : string) (v : Values) : Values :=
  <[key := [value]]> v.

Definition byte_in (lo hi c : ascii) : bool :=
  ((N_of_ascii lo <=? N_of_ascii c) && (N_of_ascii c <=? N_of_ascii hi))%N.

(** [shouldEscape(c, encodeQueryComponent)]: only the unreserved characters
    of RFC 3986 are left alone. *)
Definition shouldEscape (c : ascii) : bool :=
  if byte_in "a" "z" c || byte_in "A" "Z" c || byte_in "0" "9" c then false
  else if bool_decide (c ∈ ["-"; "_"; "."; "~"]%char) then false
  else true.

Definition upperhex : list ascii :=
  ["0"; "1"; "2"; "3"; "4"; "5"; "6"; "7"; "8"; "9";
   "A"; "B"; "C"; "D"; "E"; "F"]%char.

Definition hexdigit (n : N) : ascii :=
  nth (N.to_nat n) upperhex "0"%char.

(** [escape(s, encodeQueryComponent)] *)
Fixpoint escape (s : string) : string :=
  match s with
  | EmptyString => EmptyString
  | String c s' =>
      if bool_decide (c = " "%char) then String "+" (escape s')
      else if shouldEscape c then
        String "%" (String (hexdigit (N.shiftr (N_of_ascii c) 4))
                   (String (hexdigit (N.land (N_of_ascii c) 15)) (escape s')))
      else String c (escape s')
  end.

Definition QueryEscape (s : string) : string := escape s.

Definition ishex (c : ascii) : bool :=
  byte_in "0" "9" c || byte_in "a" "f" c || byte_in "A" "F" c.

Definition unhex (c : ascii) : N :=
  if byte_in "0" "9" c then N_of_ascii c - N_of_ascii "0"
  else if byte_in "a" "f" c then N_of_ascii c - N_of_ascii "a" + 10
  else if byte_in "A" "F" c then N_of_ascii c - N_of_ascii "A" + 10
  else 0.

Definition prepend (c : ascii) (r : result string) : result string :=
  match r with
  | Ok t => Ok (String c t)
  | Err e => Err e
  end.

(** [unescape(s, encodeQueryComponent)].  Go checks every [%] in a first
    pass and converts in a second; the error of the first ill-formed escape
    and the converted text are the same when both are done in one pass. *)
Fixpoint unescape (s : string) : result string :=
  match s with
  | EmptyString => Ok EmptyString
  | String c s' =>
      if bool_decide (c = "%"%char) then
        match s' with
        | String h (String l s'') =>
            if ishex h && ishex l then
              prepend (ascii_of_N (N.lor (N.shiftl (unhex h) 4) (unhex l)))
                      (unescape s'')
            else Err (EscapeError (String c (String h (String l EmptyString))))
        | _ => Err (EscapeError s)
        end
      else if bool_decide (c = "+"%char) then prepend " " (unescape s')
      else prepend c (unescape s')
  end.

Definition QueryUnescape (s : string) : result string := unescape s.

(** One [key=value] pair written to the buffer of [Values.Encode], after
    an ampersand when the buffer is not empty.  [esc] is the escaping
    applied to keys and values. *)
Definition write_pair (esc : string → string) (key : string)
    (buf value : string) : string :=
  (if bool_decide (buf = "") then buf else buf +:+ "&")
    +:+ esc key +:+ "=" +:+ esc value.

Definition encode_with (esc : string → string) (v : Values) : string :=
  foldl (λ buf key, foldl (write_pair esc key) buf (default [] (v !! key)))
        "" (merge_sort String.le (elements (dom v))).

(** [Values.Encode]: the pairs in the order of the sorted keys, keys and
    values query-escaped. *)
Definition Encode (v : Values) : string := encode_with QueryEscape v.

(** [url.URL] *)
Record URL : Type := mkURL {
  Scheme : string;
  Opaque : string;
  User : option (string * option string);
  Host : string;
  Path : string;
  RawPath : string;
  OmitHost : bool;
  ForceQuery : bool;
  RawQuery : string;
  Fragment : string;
  RawFragment : string
}.

(** The assignments [u.RawQuery = q] and [u.Fragment = f]. *)
Definition set_RawQuery (q : string) (u : URL) : URL :=
  mkURL (Scheme u) (Opaque u) (User u) (Host u) (Path u) (RawPath u)
        (OmitHost u) (ForceQuery u) q (Fragment u) (RawFragment u).

Definition set_Fragment (f : string) (u : URL) : URL :=
  mkURL (Scheme u) (Opaque u) (User u) (Host u) (Path u) (RawPath u)
        (OmitHost u) (ForceQuery u) (RawQuery u) f (RawFragment u).

(** The parser and the printer of URLs belong to Go's library; the engine
    is parametric in them: [url.Parse], [URL.String] and [URL.Query]. *)
Class Package : Type := {
  Parse : string → result URL;
  URL_String : URL → string;
  URL_Query : URL → Values
}.

End url.

(** ** Requests: [net/http] *)

Module http.

Definition Header_Get (h : MIMEHeader) (key : string) : string :=
  match h !! key with
  | Some (v :: _) => v
  | _ => ""
  end.

(** [http.Request], with its form already parsed. *)
Record Request : Type := mkRequest {
  Method : string;
  Header : MIMEHeader;
  Form : url.Values
}.

(** [Request.FormValue]: the first value of the key, or the empty
    string. *)
Definition FormValue (r : Request) (key : string) : string :=
  match Form r !! key with
  | Some (v :: _) => v
  | _ => ""
  end.

End http.

(** ** The interface package: [gopkg.in/oauth2.v3] *)

Module oauth2.

(** [GrantType] and [ResponseType] are string types: a request may carry
    any string. *)
Abbreviation GrantType := string (only parsing).
Abbreviation ResponseType := string (only parsing).

(** The constants of the package.  The file that declares them is not part
    of the engine, which compares against them and calls the [String]
    methods of the two types. *)
Class Constants : Type := {
  AuthorizationCode : GrantType;
  PasswordCredentials : GrantType;
  ClientCredentials : GrantType;
  Refreshing : GrantType;
  Implicit : GrantType;
  Code : ResponseType;
  Token : ResponseType
}.

(** Modelled from the spec: the [String] method of [ResponseType], which is
    declared with the constants in a file that is missing.  The spec gives
    the response type as "one of {code, token}" and has the validation
    refuse a response type that is "missing/unparseable": the method gives
    the text of a response type that is one of the two, and the empty
    string for every other. *)
Definition ResponseType_String `{Constants} (rt : ResponseType) : string :=
  if bool_decide (rt = Code ∨ rt = Token) then rt else "".

(** Modelled from the spec: the [String] method of [GrantType], which is
    declared with the constants in a file that is missing.  The spec gives
    the grant type as "one of the four supported OAuth2 flows"
    (authorization code, password credentials, client credentials,
    refresh): the method gives the text of a grant type that is one of the
    four, and the empty string for every other, the implicit grant
    included. *)
Definition GrantType_String `{Constants} (gt : GrantType) : string :=
  if bool_decide (gt = AuthorizationCode ∨ gt = PasswordCredentials
                  ∨ gt = ClientCredentials ∨ gt = Refreshing)
  then gt else "".

(** One second of [time.Duration], which counts nanoseconds. *)
Definition time_Second : Z := 1000000000.

End oauth2.
Export oauth2.

(** [oauth2.TokenGenerateRequest] *)
Module TokenGenerateRequest.

Record t : Type := mk {
  ClientID : string;
  ClientSecret : string;
  UserID : string;
  RedirectURI : string;
  Code : string;
  Refresh : string;
  Scope : string;
  AccessTokenExp : Z;
  Request : option http.Request
}.

Definition set_UserID (x : string) (r : t) : t :=
  mk (ClientID r) (ClientSecret r) x (RedirectURI r) (Code r) (Refresh r)
     (Scope r) (AccessTokenExp r) (Request r).

Definition set_RedirectURI (x : string) (r : t) : t :=
  mk (ClientID r) (ClientSecret r) (UserID r) x (Code r) (Refresh r)
     (Scope r) (AccessTokenExp r) (Request r).

Definition set_Code (x : string) (r : t) : t :=
  mk (ClientID r) (ClientSecret r) (UserID r) (RedirectURI r) x (Refresh r)
     (Scope r) (AccessTokenExp r) (Request r).

Definition set_Refresh (x : string) (r : t) : t :=
  mk (ClientID r) (ClientSecret r) (UserID r) (RedirectURI r) (Code r) x
     (Scope r) (AccessTokenExp r) (Request r).

Definition set_Scope (x : string) (r : t) : t :=
  mk (ClientID r) (ClientSecret r) (UserID r) (RedirectURI r) (Code r)
     (Refresh r) x (AccessTokenExp r) (Request r).

End TokenGenerateRequest.

(** [oauth2.TokenInfo]: the accessors the engine reads. *)
Module TokenInfo.

Record t : Type := mk {
  GetAccess : string;
  GetRefresh : string;
  GetScope : string;
  GetAccessExpiresIn : Z;
  GetCode : string
}.

End TokenInfo.

(** [oauth2.ClientInfo] *)
Module ClientInfo.

Record t : Type := mk {
  GetDomain : string
}.

End ClientInfo.

(** ** The server package *)

(** [server.Config] *)
Module Config.

Record t : Type := mk {
  TokenType : string;
  AllowedResponseTypes : list ResponseType;
  AllowedGrantTypes : list GrantType;
  AllowGetAccessRequest : bool
}.

End Config.

(** [server.AuthorizeRequest] *)
Module AuthorizeRequest.

Record t : Type := mk {
  ResponseType : oauth2.ResponseType;
  ClientID : string;
  Scope : string;
  RedirectURI : string;
  State : string;
  UserID : string;
  AccessTokenExp : Z;
  Request : option http.Request
}.

Definition set_Scope (x : string) (r : t) : t :=
  mk (ResponseType r) (ClientID r) x (RedirectURI r) (State r) (UserID r)
     (AccessTokenExp r) (Request r).

Definition set_RedirectURI (x : string) (r : t) : t :=
  mk (ResponseType r) (ClientID r) (Scope r) x (State r) (UserID r)
     (AccessTokenExp r) (Request r).

Definition set_UserID (x : string) (r : t) : t :=
  mk (ResponseType r) (ClientID r) (Scope r) (RedirectURI r) (State r) x
     (AccessTokenExp r) (Request r).

Definition set_AccessTokenExp (x : Z) (r : t) : t :=
  mk (ResponseType r) (ClientID r) (Scope r) (RedirectURI r) (State r)
     (UserID r) x (Request r).

End AuthorizeRequest.

(** The values stored in a [map[string]interface{}]: strings and integers,
    and [fmt.Sprint] on them. *)
Inductive value : Type :=
| VString (s : string)
| VInt (n : Z).

Definition Sprint (v : value) : string :=
  match v with
  | VString s => s
  | VInt n => pretty n
  end.

(** *** Calls to collaborators

    Every invocation of a handler, of the token manager or of the response
    writer is recorded with its arguments. *)
Inductive Call : Type :=
| call_ClientInfoHandler (r : http.Request)
| call_ClientAuthorizedHandler (clientID : string) (gt : GrantType)
| call_ClientScopeHandler (clientID scope : string)
| call_UserAuthorizationHandler (r : http.Request)
| call_PasswordAuthorizationHandler (username password : string)
| call_RefreshingScopeHandler (newScope oldScope : string)
| call_ResponseErrorHandler (re : Response)
| call_InternalErrorHandler (err : option error)
| call_ExtensionFieldsHandler (ti : TokenInfo.t)
| call_AccessTokenExpHandler (r : http.Request)
| call_AuthorizeScopeHandler (r : http.Request)
| call_CheckUserPermHandler (userID clientID : string)
| call_GenerateAuthToken (rt : ResponseType) (tgr : TokenGenerateRequest.t)
| call_GenerateAccessToken (gt : GrantType) (tgr : TokenGenerateRequest.t)
| call_RefreshAccessToken (tgr : TokenGenerateRequest.t)
| call_LoadRefreshToken (refresh : string)
| call_LoadAccessToken (access : string)
| call_GetClient (clientID : string)
| call_Header_Set (key val : string)
| call_WriteHeader (statusCode : Z).


(** [oauth2.Manager]: the operations of the token manager the engine
    uses, acting on the world. *)
Module Manager.

Record t (World : Type) : Type := mk {
  GenerateAuthToken :
    ResponseType → TokenGenerateRequest.t → World → result TokenInfo.t * World;
  GenerateAccessToken :
    GrantType → TokenGenerateRequest.t → World → result TokenInfo.t * World;
  RefreshAccessToken :
    TokenGenerateRequest.t → World → result TokenInfo.t * World;
  LoadRefreshToken : string → World → result TokenInfo.t * World;
  LoadAccessToken : string → World → result TokenInfo.t * World;
  GetClient : string → World → result ClientInfo.t * World
}.
Arguments mk {World}.
Arguments GenerateAuthToken {World}.
Arguments GenerateAccessToken {World}.
Arguments RefreshAccessToken {World}.
Arguments LoadRefreshToken {World}.
Arguments LoadAccessToken {World}.
Arguments GetClient {World}.

End Manager.

(** [server.Server].  A handler field is a function value and may be nil
    ([None]). *)
Module Server.

Record t (World : Type) : Type := mk {
  Config : Config.t;
  Manager : Manager.t World;
  ClientInfoHandler :
    option (http.Request → World → result (string * string) * World);
  ClientAuthorizedHandler :
    option (string → GrantType → World → result bool * World);
  ClientScopeHandler :
    option (string → string → World → result bool * World);
  UserAuthorizationHandler :
    option (http.Request → World → result string * World);
  PasswordAuthorizationHandler :
    option (string → string → World → result string * World);
  RefreshingScopeHandler :
    option (string → string → World → result bool * World);
  ResponseErrorHandler : option (Response → World → Response * World);
  InternalErrorHandler :
    option (option error → World → option Response * World);
  ExtensionFieldsHandler :
    option (TokenInfo.t → World → gmap string value * World);
  AccessTokenExpHandler : option (http.Request → World → result Z * World);
  AuthorizeScopeHandler :
    option (http.Request → World → result string * World);
  CheckUserPermHandler :
    option (string → string → World → option error * World)
}.
Arguments mk {World}.
Arguments Config {World}.
Arguments Manager {World}.
Arguments ClientInfoHandler {World}.
Arguments ClientAuthorizedHandler {World}.
Arguments ClientScopeHandler {World}.
Arguments UserAuthorizationHandler {World}.
Arguments PasswordAuthorizationHandler {World}.
Arguments RefreshingScopeHandler {World}.
Arguments ResponseErrorHandler {World}.
Arguments InternalErrorHandler {World}.
Arguments ExtensionFieldsHandler {World}.
Arguments AccessTokenExpHandler {World}.
Arguments AuthorizeScopeHandler {World}.
Arguments CheckUserPermHandler {World}.

End Server.

(** *** Control flow of a Go function body

    A statement runs on the state of the world and the log of calls.  It
    goes on to the next statement with a value, leaves the function through
    [return], or panics (the call of a nil function value). *)

Record St (World : Type) : Type := mkSt {
  world : World;
  calls : list Call
}.
Arguments mkSt {World}.
Arguments world {World}.
Arguments calls {World}.

Inductive flow (R A : Type) : Type :=
| Next (a : A)
| Return (r : R)
| Panic.
Arguments Next {R A} a.
Arguments Return {R A} r.
Arguments Panic {R A}.

Inductive outcome (R : Type) : Type :=
| Returns (r : R)
| Panics.
Arguments Returns {R} r.
Arguments Panics {R}.

Definition Body (World R A : Type) : Type := St World → flow R A * St World.
Definition M (World R : Type) : Type := St World → outcome R * St World.

Section Control.

Context {World : Type}.

Definition next {R A : Type} (a : A) : Body World R A :=
  λ st, (Next a, st).

Definition ret {R A : Type} (r : R) : Body World R A :=
  λ st, (Return r, st).

Definition bind {R A B : Type} (m : Body World R A)
    (k : A → Body World R B) : Body World R B :=
  λ st,
    match m st with
    | (Next a, st') => k a st'
    | (Return r, st') => (Return r, st')
    | (Panic, st') => (Panic, st')
    end.

(** A function: its body runs until it returns. *)
Definition func {R : Type} (body : Body World R Empty_set) : M World R :=
  λ st,
    match body st with
    | (Next a, _) => match a with end
    | (Return r, st') => (Returns r, st')
    | (Panic, st') => (Panics, st')
    end.

(** The call of a function of the engine from a body. *)
Definition call {R A : Type} (f : M World A) : Body World R A :=
  λ st,
    match f st with
    | (Returns a, st') => (Next a, st')
    | (Panics, st') => (Panic, st')
    end.

(** The call of a collaborator: it acts on the world and the call is
    logged. *)
Definition invoke {R A : Type} (c : Call) (f : World → A * World)
    : Body World R A :=
  λ st,
    let (a, w) := f (world st) in
    (Next a, mkSt w (calls st ++ [c])).

(** A run-time panic. *)
Definition panic {R A : Type} : Body World R A :=
  λ st, (Panic, st).

(** The call of a handler field without a nil check. *)
Definition invoke_field {R A : Type} (c : Call)
    (f : option (World → A * World)) : Body World R A :=
  match f with
  | Some fn => invoke c fn
  | None => λ st, (Panic, st)
  end.

(** [if cond { body }] *)
Definition when {R : Type} (cond : bool) (body : Body World R unit)
    : Body World R unit :=
  if cond then body else next tt.

End Control.

Declare Scope go_scope.
Delimit Scope go_scope with go.
Notation "x <- m ;; k" := (bind m (λ x, k))
  (at level 100, m at next level, right associativity) : go_scope.
Notation "m ;; k" := (bind m (λ _, k))
  (at level 100, right associativity) : go_scope.
Open Scope go_scope.

(** ** The engine: [server/server.go] *)

Section Engine.

Context {World : Type}.
Context {consts : oauth2.Constants} {tables : errors.Tables}
  {net_url : url.Package}.

(** [ClientBasicHandler], the default client-info handler, is declared in
    another file of the package. *)
Variable ClientBasicHandler :
  http.Request → World → result (string * string) * World.

(** The response writer belongs to the HTTP layer: [w.Header().Set] and
    [w.WriteHeader] act on the world. *)
Variable ResponseWriter_Header_Set : string → string → World → World.
Variable ResponseWriter_WriteHeader : Z → World → World.

Abbreviation Server := (Server.t World) (only parsing).

(** [NewServer] *)
Definition NewServer (cfg : Config.t) (manager : Manager.t World) : Server :=
  Server.mk cfg manager
    (Some ClientBasicHandler)
    None
    None
    (Some (λ r w, (Err ErrAccessDenied, w)))
    (Some (λ username password w, (Err ErrAccessDenied, w)))
    None None None None None None None.

(** The loop of [CheckResponseType] and [CheckGrantType] over the slice of
    allowed types. *)
Fixpoint allowed_in (l : list string) (x : string) : bool :=
  match l with
  | [] => false
  | a :: l' => if bool_decide (a = x) then true else allowed_in l' x
  end.

(** [GetRedirectURI].  The keys of a Go map are distinct, so the order in
    which the loop over [data] sets them does not matter. *)
Definition GetRedirectURI (s : Server) (req : AuthorizeRequest.t)
    (data : gmap string value) : result string :=
  match url.Parse (AuthorizeRequest.RedirectURI req) with
  | Err err => Err err
  | Ok u =>
      let hasFragment :=
        strings_Contains (AuthorizeRequest.RedirectURI req) "#" in
      let q := url.URL_Query u in
      let q : url.Values := if hasFragment then ∅ else q in
      let q :=
        if bool_decide (AuthorizeRequest.State req ≠ "")
        then url.Values_Set "state" (AuthorizeRequest.State req) q else q in
      let q := map_fold (λ k v q, url.Values_Set k (Sprint v) q) q data in
      if bool_decide (AuthorizeRequest.ResponseType req = Code) then
        let u := url.set_RawQuery (url.Encode q) u in
        if hasFragment
        then Ok (AuthorizeRequest.RedirectURI req +:+ "?" +:+ url.Encode q)
        else Ok (url.URL_String u)
      else if bool_decide (AuthorizeRequest.ResponseType req = Token) then
        let u := url.set_RawQuery "" u in
        match url.QueryUnescape (url.Encode q) with
        | Err err => Err err
        | Ok fragment => Ok (url.URL_String (url.set_Fragment fragment u))
        end
      else Ok (url.URL_String u)
  end.

(** [CheckResponseType] *)
Definition CheckResponseType (s : Server) (rt : ResponseType) : bool :=
  allowed_in (Config.AllowedResponseTypes (Server.Config s)) rt.

(** [ValidationAuthorizeRequest] *)
Definition ValidationAuthorizeRequest (s : Server) (r : http.Request)
    : result AuthorizeRequest.t :=
  let redirectURI := http.FormValue r "redirect_uri" in
  let clientID := http.FormValue r "client_id" in
  if negb (bool_decide (http.Method r = "GET")
           || bool_decide (http.Method r = "POST"))
     || bool_decide (clientID = "")
  then Err ErrInvalidRequest
  else
    let resType : ResponseType := http.FormValue r "response_type" in
    if bool_decide (ResponseType_String resType = "")
    then Err ErrUnsupportedResponseType
    else if negb (CheckResponseType s resType) then Err ErrUnauthorizedClient
    else
      Ok (AuthorizeRequest.mk resType clientID (http.FormValue r "scope")
            redirectURI (http.FormValue r "state") "" 0 (Some r)).

(** [GetAuthorizeToken] *)
Definition GetAuthorizeToken (s : Server) (req : AuthorizeRequest.t)
    : M World (result TokenInfo.t) :=
  func (
    match Server.ClientAuthorizedHandler s with
    | Some fn =>
        let gt :=
          if bool_decide (AuthorizeRequest.ResponseType req = Token)
          then Implicit else AuthorizationCode in
        r <- invoke (call_ClientAuthorizedHandler
                       (AuthorizeRequest.ClientID req) gt)
                    (fn (AuthorizeRequest.ClientID req) gt) ;;
        match r with
        | Err err => ret (Err err)
        | Ok allowed => when (negb allowed) (ret (Err ErrUnauthorizedClient))
        end
    | None => next tt
    end ;;
    match Server.ClientScopeHandler s with
    | Some fn =>
        r <- invoke (call_ClientScopeHandler (AuthorizeRequest.ClientID req)
                       (AuthorizeRequest.Scope req))
                    (fn (AuthorizeRequest.ClientID req)
                        (AuthorizeRequest.Scope req)) ;;
        match r with
        | Err err => ret (Err err)
        | Ok allowed => when (negb allowed) (ret (Err ErrInvalidScope))
        end
    | None => next tt
    end ;;
    let tgr :=
      TokenGenerateRequest.mk (AuthorizeRequest.ClientID req) ""
        (AuthorizeRequest.UserID req) (AuthorizeRequest.RedirectURI req)
        "" "" (AuthorizeRequest.Scope req)
        (AuthorizeRequest.AccessTokenExp req) (AuthorizeRequest.Request req) in
    r <- invoke (call_GenerateAuthToken (AuthorizeRequest.ResponseType req) tgr)
                (Manager.GenerateAuthToken (Server.Manager s)
                   (AuthorizeRequest.ResponseType req) tgr) ;;
    ret r).

(** [GetTokenData].  The loop over the extension fields adds the keys
    that are not yet in [data]; the keys being distinct, their order does
    not matter. *)
Definition GetTokenData (s : Server) (ti : TokenInfo.t)
    : M World (gmap string value) :=
  func (
    let data : gmap string value :=
      <["access_token" := VString (TokenInfo.GetAccess ti)]>
      (<["token_type" := VString (Config.TokenType (Server.Config s))]>
      (<["expires_in" :=
           VInt (Z.quot (TokenInfo.GetAccessExpiresIn ti) time_Second)]> ∅)) in
    let data :=
      if bool_decide (TokenInfo.GetScope ti ≠ "")
      then <["scope" := VString (TokenInfo.GetScope ti)]> data else data in
    let data :=
      if bool_decide (TokenInfo.GetRefresh ti ≠ "")
      then <["refresh_token" := VString (TokenInfo.GetRefresh ti)]> data
      else data in
    data <- match Server.ExtensionFieldsHandler s with
            | Some fn =>
                ext <- invoke (call_ExtensionFieldsHandler ti) (fn ti) ;;
                next (map_fold
                        (λ k v (data : gmap string value),
                           match data !! k with
                           | Some _ => data
                           | None => <[k := v]> data
                           end)
                        data ext)
            | None => next data
            end ;;
    ret data).

(** [GetAuthorizeData] *)
Definition GetAuthorizeData (s : Server) (rt : ResponseType)
    (ti : TokenInfo.t) : M World (gmap string value) :=
  func (
    when (bool_decide (rt = Code))
      (ret ({[ "code" := VString (TokenInfo.GetCode ti) ]}
              : gmap string value)) ;;
    data <- call (GetTokenData s ti) ;;
    ret data).

(** The index expression [m[err]] on a table keyed by errors.  The key is
    hashed, and hashing an error whose dynamic type is not comparable
    panics; the nil error is a key like another. *)
Definition map_index {R V : Type} (m : option error → option V)
    (key : option error) : Body World R (option V) :=
  if hashable key then next (m key) else panic.

(** [GetErrorData].  The two lookups of [ErrServerError] have a key that is
    comparable. *)
Definition GetErrorData (s : Server) (err : option error)
    : M World (gmap string value * Z * MIMEHeader) :=
  func (
    v <- map_index Descriptions err ;;
    re <- match v with
          | Some v =>
              sc <- map_index StatusCodes err ;;
              next (mkResponse err 0%Z v "" (default 0%Z sc) ∅)
          | None =>
              re <- match Server.InternalErrorHandler s with
                    | Some fn =>
                        v <- invoke (call_InternalErrorHandler err) (fn err) ;;
                        next (match v with
                              | Some v => v
                              | None => zeroResponse
                              end)
                    | None => next zeroResponse
                    end ;;
              next (match errors.Error re with
                    | None =>
                        mkResponse (Some ErrServerError) (ErrorCode re)
                          (default "" (Descriptions (Some ErrServerError)))
                          (URI re)
                          (default 0%Z (StatusCodes (Some ErrServerError)))
                          (errors.Header re)
                    | Some _ => re
                    end)
          end ;;
    re <- match Server.ResponseErrorHandler s with
          | Some fn => invoke (call_ResponseErrorHandler re) (fn re)
          | None => next re
          end ;;
    let data : gmap string value := ∅ in
    let data :=
      match errors.Error re with
      | Some err => <["error" := VString (ErrorText err)]> data
      | None => data
      end in
    let data :=
      if bool_decide (ErrorCode re ≠ 0%Z)
      then <["error_code" := VInt (ErrorCode re)]> data else data in
    let data :=
      if bool_decide (Description re ≠ "")
      then <["error_description" := VString (Description re)]> data
      else data in
    let data :=
      if bool_decide (URI re ≠ "")
      then <["error_uri" := VString (URI re)]> data else data in
    let statusCode :=
      if bool_decide (0 < StatusCode re)%Z then StatusCode re else 500%Z in
    ret (data, statusCode, errors.Header re)).

(** [redirect] *)
Definition redirect (s : Server) (req : AuthorizeRequest.t)
    (data : gmap string value) : M World (option error) :=
  func (
    match GetRedirectURI s req data with
    | Err err => ret (Some err)
    | Ok uri =>
        invoke (call_Header_Set "Location" uri)
               (λ w, (tt, ResponseWriter_Header_Set "Location" uri w)) ;;
        invoke (call_WriteHeader 302)
               (λ w, (tt, ResponseWriter_WriteHeader 302 w)) ;;
        ret None
    end).

(** [redirectError]; [req] is a pointer and may be nil. *)
Definition redirectError (s : Server) (req : option AuthorizeRequest.t)
    (err : error) : M World (option error) :=
  func (
    match req with
    | None => ret (Some err)
    | Some req =>
        r <- call (GetErrorData s (Some err)) ;;
        r <- call (redirect s req r.1.1) ;;
        ret r
    end).

(** [HandleAuthorizeRequest] *)
Definition HandleAuthorizeRequest (s : Server) (r : http.Request)
    : M World (option error) :=
  func (
    match ValidationAuthorizeRequest s r with
    | Err err =>
        e <- call (redirectError s None err) ;;
        ret e
    | Ok req =>
        u <- invoke_field (call_UserAuthorizationHandler r)
               (option_map (λ fn, fn r) (Server.UserAuthorizationHandler s)) ;;
        match u with
        | Err err =>
            when (bool_decide (ErrorText err = "no permission to the app"))
              (invoke (call_Header_Set "Location" ("/ui/403?" +:+ ErrorText err))
                 (λ w, (tt, ResponseWriter_Header_Set "Location"
                              ("/ui/403?" +:+ ErrorText err) w)) ;;
               invoke (call_WriteHeader 302)
                 (λ w, (tt, ResponseWriter_WriteHeader 302 w)) ;;
               ret None) ;;
            e <- call (redirectError s (Some req) err) ;;
            ret e
        | Ok userID =>
            when (bool_decide (userID = "")) (ret None) ;;
            let req := AuthorizeRequest.set_UserID userID req in
            req <- match Server.AuthorizeScopeHandler s with
                   | Some fn =>
                       sc <- invoke (call_AuthorizeScopeHandler r) (fn r) ;;
                       match sc with
                       | Err err => ret (Some err)
                       | Ok scope =>
                           next (if bool_decide (scope ≠ "")
                                 then AuthorizeRequest.set_Scope scope req
                                 else req)
                       end
                   | None => next req
                   end ;;
            req <- match Server.AccessTokenExpHandler s with
                   | Some fn =>
                       ex <- invoke (call_AccessTokenExpHandler r) (fn r) ;;
                       match ex with
                       | Err err => ret (Some err)
                       | Ok exp =>
                           next (AuthorizeRequest.set_AccessTokenExp exp req)
                       end
                   | None => next req
                   end ;;
            t <- call (GetAuthorizeToken s req) ;;
            match t with
            | Err err =>
                e <- call (redirectError s (Some req) err) ;;
                ret e
            | Ok ti =>
                req <- (if bool_decide (AuthorizeRequest.RedirectURI req = "")
                        then
                          c <- invoke (call_GetClient
                                         (AuthorizeRequest.ClientID req))
                                 (Manager.GetClient (Server.Manager s)
                                    (AuthorizeRequest.ClientID req)) ;;
                          match c with
                          | Err err => ret (Some err)
                          | Ok client =>
                              next (AuthorizeRequest.set_RedirectURI
                                      (ClientInfo.GetDomain client) req)
                          end
                        else next req) ;;
                data <- call (GetAuthorizeData s
                                (AuthorizeRequest.ResponseType req) ti) ;;
                e <- call (redirect s req data) ;;
                ret e
            end
        end
    end).

(** [ValidationTokenRequest] *)
Definition ValidationTokenRequest (s : Server) (r : http.Request)
    : M World (result (GrantType * TokenGenerateRequest.t)) :=
  func (
    let v := http.Method r in
    when (negb (bool_decide (v = "POST")
                || (Config.AllowGetAccessRequest (Server.Config s)
                    && bool_decide (v = "GET"))))
      (ret (Err (Wrap ErrInvalidRequest "invalid request method"))) ;;
    let gt : GrantType := http.FormValue r "grant_type" in
    when (bool_decide (GrantType_String gt = ""))
      (ret (Err (Wrap ErrUnsupportedGrantType "no grant type"))) ;;
    ci <- invoke_field (call_ClientInfoHandler r)
            (option_map (λ fn, fn r) (Server.ClientInfoHandler s)) ;;
    match ci with
    | Err err => ret (Err (WithStack err))
    | Ok (clientID, clientSecret) =>
        let tgr :=
          TokenGenerateRequest.mk clientID clientSecret "" "" "" "" "" 0
            (Some r) in
        tgr <-
          (if bool_decide (gt = AuthorizationCode) then
             let tgr :=
               TokenGenerateRequest.set_RedirectURI
                 (http.FormValue r "redirect_uri") tgr in
             let tgr :=
               TokenGenerateRequest.set_Code (http.FormValue r "code") tgr in
             when (bool_decide (TokenGenerateRequest.RedirectURI tgr = "")
                   || bool_decide (TokenGenerateRequest.Code tgr = ""))
               (ret (Err (Wrap ErrInvalidRequest
                            "missing redirect_uri or code"))) ;;
             next tgr
           else if bool_decide (gt = PasswordCredentials) then
             let tgr :=
               TokenGenerateRequest.set_Scope (http.FormValue r "scope") tgr in
             let username := http.FormValue r "username" in
             let password := http.FormValue r "password" in
             when (bool_decide (username = "") || bool_decide (password = ""))
               (ret (Err ErrInvalidRequest)) ;;
             u <- invoke_field
                    (call_PasswordAuthorizationHandler username password)
                    (option_map (λ fn, fn username password)
                       (Server.PasswordAuthorizationHandler s)) ;;
             match u with
             | Err err => ret (Err err)
             | Ok userID =>
                 when (bool_decide (userID = "")) (ret (Err ErrInvalidGrant)) ;;
                 p <- invoke_field
                        (call_CheckUserPermHandler userID
                           (http.FormValue r "client_id"))
                        (option_map
                           (λ fn, fn userID (http.FormValue r "client_id"))
                           (Server.CheckUserPermHandler s)) ;;
                 match p with
                 | Some err => ret (Err err)
                 | None => next (TokenGenerateRequest.set_UserID userID tgr)
                 end
             end
           else if bool_decide (gt = ClientCredentials) then
             next (TokenGenerateRequest.set_Scope
                     (http.FormValue r "scope") tgr)
           else if bool_decide (gt = Refreshing) then
             let tgr :=
               TokenGenerateRequest.set_Refresh
                 (http.FormValue r "refresh_token") tgr in
             let tgr :=
               TokenGenerateRequest.set_Scope (http.FormValue r "scope") tgr in
             when (bool_decide (TokenGenerateRequest.Refresh tgr = ""))
               (ret (Err ErrInvalidRequest)) ;;
             next tgr
           else next tgr) ;;
        ret (Ok (gt, tgr))
    end).

(** [CheckGrantType] *)
Definition CheckGrantType (s : Server) (gt : GrantType) : bool :=
  allowed_in (Config.AllowedGrantTypes (Server.Config s)) gt.

(** [GetAccessToken] *)
Definition GetAccessToken (s : Server) (gt : GrantType)
    (tgr : TokenGenerateRequest.t) : M World (result TokenInfo.t) :=
  func (
    when (negb (CheckGrantType s gt))
      (ret (Err (Wrapf ErrUnauthorizedClient
                   ("check grant type " +:+ GrantType_String gt)))) ;;
    match Server.ClientAuthorizedHandler s with
    | Some fn =>
        r <- invoke (call_ClientAuthorizedHandler
                       (TokenGenerateRequest.ClientID tgr) gt)
                    (fn (TokenGenerateRequest.ClientID tgr) gt) ;;
        match r with
        | Err err => ret (Err (Wrap err "client authorized"))
        | Ok allowed =>
            when (negb allowed) (ret (Err (WithStack ErrUnauthorizedClient)))
        end
    | None => next tt
    end ;;
    if bool_decide (gt = AuthorizationCode) then
      r <- invoke (call_GenerateAccessToken gt tgr)
                  (Manager.GenerateAccessToken (Server.Manager s) gt tgr) ;;
      match r with
      | Err err =>
          if bool_decide (err = ErrInvalidAuthorizeCode)
          then ret (Err (WithStack ErrInvalidGrant))
          else if bool_decide (err = ErrInvalidClient)
          then ret (Err (WithStack ErrInvalidClient))
          else ret (Err (WithStack err))
      | Ok ti => ret (Ok ti)
      end
    else if bool_decide (gt = PasswordCredentials)
            || bool_decide (gt = ClientCredentials) then
      match Server.ClientScopeHandler s with
      | Some fn =>
          r <- invoke (call_ClientScopeHandler
                         (TokenGenerateRequest.ClientID tgr)
                         (TokenGenerateRequest.Scope tgr))
                      (fn (TokenGenerateRequest.ClientID tgr)
                          (TokenGenerateRequest.Scope tgr)) ;;
          match r with
          | Err err => ret (Err err)
          | Ok allowed => when (negb allowed) (ret (Err ErrInvalidScope))
          end
      | None => next tt
      end ;;
      r <- invoke (call_GenerateAccessToken gt tgr)
                  (Manager.GenerateAccessToken (Server.Manager s) gt tgr) ;;
      ret r
    else if bool_decide (gt = Refreshing) then
      match TokenGenerateRequest.Scope tgr, Server.RefreshingScopeHandler s with
      | scope, Some scopeFn =>
          when (bool_decide (scope ≠ ""))
            (l <- invoke (call_LoadRefreshToken
                            (TokenGenerateRequest.Refresh tgr))
                         (Manager.LoadRefreshToken (Server.Manager s)
                            (TokenGenerateRequest.Refresh tgr)) ;;
             match l with
             | Err err =>
                 if bool_decide (err = ErrInvalidRefreshToken)
                    || bool_decide (err = ErrExpiredRefreshToken)
                 then ret (Err ErrInvalidGrant)
                 else ret (Err err)
             | Ok rti =>
                 a <- invoke (call_RefreshingScopeHandler scope
                                (TokenInfo.GetScope rti))
                             (scopeFn scope (TokenInfo.GetScope rti)) ;;
                 match a with
                 | Err err => ret (Err err)
                 | Ok allowed =>
                     when (negb allowed) (ret (Err ErrInvalidScope))
                 end
             end)
      | _, None => next tt
      end ;;
      r <- invoke (call_RefreshAccessToken tgr)
                  (Manager.RefreshAccessToken (Server.Manager s) tgr) ;;
      match r with
      | Err err =>
          if bool_decide (err = ErrInvalidRefreshToken)
             || bool_decide (err = ErrExpiredRefreshToken)
          then ret (Err ErrInvalidGrant)
          else ret (Err err)
      | Ok ti => ret (Ok ti)
      end
    else ret (Err ErrUnsupportedGrantType)).

(** [BearerAuth] *)
Definition BearerAuth (s : Server) (r : http.Request) : string * bool :=
  let auth := http.Header_Get (http.Header r) "Authorization" in
  let prefix := "Bearer " in
  let token :=
    if bool_decide (auth ≠ "") && strings_HasPrefix auth prefix
    then string_from (String.length prefix) auth
    else http.FormValue r "access_token" in
  (token, bool_decide (token ≠ "")).

(** [ValidationBearerToken] *)
Definition ValidationBearerToken (s : Server) (r : http.Request)
    : M World (result TokenInfo.t) :=
  func (
    let (accessToken, ok) := BearerAuth s r in
    when (negb ok) (ret (Err ErrInvalidAccessToken)) ;;
    t <- invoke (call_LoadAccessToken accessToken)
                (Manager.LoadAccessToken (Server.Manager s) accessToken) ;;
    ret t).

End Engine.

(** ** Vocabulary of the properties *)

Section Vocabulary.

Context {World : Type}.

(** The state after a collaborator call [c] that left the world [w]. *)
Definition logged (st : St World) (c : Call) (w : World) : St World :=
  mkSt w (calls st ++ [c]).

(** The client-authorization step of [GetAccessToken] passes from [st]:
    either no handler is configured, or the configured handler is called
    and allows the grant type.  The result is the state after the step. *)
Definition client_authorized (s : Server.t World) (gt : GrantType)
    (tgr : TokenGenerateRequest.t) (st : St World) : option (St World) :=
  match Server.ClientAuthorizedHandler s with
  | None => Some st
  | Some fn =>
      match fn (TokenGenerateRequest.ClientID tgr) gt (world st) with
      | (Ok true, w) =>
          Some (logged st (call_ClientAuthorizedHandler
                             (TokenGenerateRequest.ClientID tgr) gt) w)
      | _ => None
      end
  end.

(** The manager's invalid and expired refresh-token errors are reported as
    an invalid grant; any other error is reported as it is. *)
Definition as_invalid_grant (err : error) : error :=
  if bool_decide (err = ErrInvalidRefreshToken ∨ err = ErrExpiredRefreshToken)
  then ErrInvalidGrant else err.

(** The parameters [GetRedirectURI] collects: the data, then the state of
    the request when it is not empty, then the query of the parsed URL
    unless the redirect URI contains a fragment delimiter. *)
Definition collected_params {net_url : url.Package} (req : AuthorizeRequest.t)
    (u : url.URL) (data : gmap string value)
    (q : gmap string (list string)) : Prop :=
  ∀ k,
    q !! k =
      match data !! k with
      | Some v => Some [Sprint v]
      | None =>
          if bool_decide (k = "state" ∧ AuthorizeRequest.State req ≠ "")
          then Some [AuthorizeRequest.State req]
          else if strings_Contains (AuthorizeRequest.RedirectURI req) "#"
          then None
          else url.URL_Query u !! k
      end.

(** The fields [GetTokenData] sets before the extension fields. *)
Definition core_token_data (tokenType : string) (ti : TokenInfo.t)
    (k : string) : option value :=
  if bool_decide (k = "access_token")
  then Some (VString (TokenInfo.GetAccess ti))
  else if bool_decide (k = "token_type") then Some (VString tokenType)
  else if bool_decide (k = "expires_in")
  then Some (VInt (TokenInfo.GetAccessExpiresIn ti `quot` time_Second))
  else if bool_decide (k = "scope" ∧ TokenInfo.GetScope ti ≠ "")
  then Some (VString (TokenInfo.GetScope ti))
  else if bool_decide (k = "refresh_token" ∧ TokenInfo.GetRefresh ti ≠ "")
  then Some (VString (TokenInfo.GetRefresh ti))
  else None.

(** The extension fields the handler contributes in a world, and the state
    it leaves. *)
Definition extension_fields (s : Server.t World) (ti : TokenInfo.t)
    (st : St World) : gmap string value * St World :=
  match Server.ExtensionFieldsHandler s with
  | Some fn =>
      ((fn ti (world st)).1,
       logged st (call_ExtensionFieldsHandler ti) (fn ti (world st)).2)
  | None => (∅, st)
  end.

(** [ErrServerError] with its description and status from the tables, in
    place of the error, description and status of [re]. *)
Definition as_server_error {tables : errors.Tables} (re : Response) : Response :=
  mkResponse (Some ErrServerError) (ErrorCode re)
    (default "" (Descriptions (Some ErrServerError))) (URI re)
    (default 0%Z (StatusCodes (Some ErrServerError))) (errors.Header re).

(** The response [GetErrorData] resolves for an error, before the
    response-error handler, and the state after the resolution. *)
Definition resolved_response {tables : errors.Tables} (s : Server.t World)
    (err : option error) (st : St World) : Response * St World :=
  match Descriptions err with
  | Some v => (mkResponse err 0 v "" (default 0%Z (StatusCodes err)) ∅, st)
  | None =>
      match Server.InternalErrorHandler s with
      | Some fn =>
          (match (fn err (world st)).1 with
           | Some re =>
               match errors.Error re with
               | Some _ => re
               | None => as_server_error re
               end
           | None => as_server_error zeroResponse
           end,
           logged st (call_InternalErrorHandler err) (fn err (world st)).2)
      | None => (as_server_error zeroResponse, st)
      end
  end.

(** The response after the response-error handler, when one is configured. *)
Definition handled_response (s : Server.t World) (re : Response)
    (st : St World) : Response * St World :=
  match Server.ResponseErrorHandler s with
  | Some fn =>
      ((fn re (world st)).1,
       logged st (call_ResponseErrorHandler re) (fn re (world st)).2)
  | None => (re, st)
  end.

(** What [GetErrorData] returns for a response: the fields that are set,
    the status, 500 unless the status code is positive, and the header. *)
Definition renders {tables : errors.Tables} (re : Response)
    (out : gmap string value * Z * gmap string (list string)) : Prop :=
  (∀ k,
     out.1.1 !! k =
       if bool_decide (k = "error")
       then (λ e, VString (ErrorText e)) <$> errors.Error re
       else if bool_decide (k = "error_code")
       then (if bool_decide (ErrorCode re = 0%Z) then None
             else Some (VInt (ErrorCode re)))
       else if bool_decide (k = "error_description")
       then (if bool_decide (Description re = "") then None
             else Some (VString (Description re)))
       else if bool_decide (k = "error_uri")
       then (if bool_decide (URI re = "") then None
             else Some (VString (URI re)))
       else None)
  ∧ out.1.2 = (if bool_decide (0 < StatusCode re)%Z then StatusCode re
               else 500%Z)
  ∧ out.2 = errors.Header re.

End Vocabulary.

(** ** A concrete instance

    The constants of RFC 6749, a sample of the error tables and a small URL
    package, on which the engine can be run.  The URL package splits a
    reference into scheme, host, path, query and fragment and prints it back
    without further escaping; it stands in for Go's. *)

Module Example.

Definition constants : oauth2.Constants := {|
  AuthorizationCode := "authorization_code";
  PasswordCredentials := "password";
  ClientCredentials := "client_credentials";
  Refreshing := "refresh_token";
  Implicit := "__implicit";
  Code := "code";
  Token := "token"
|}.

Fixpoint error_text (err : error) : string :=
  match err with
  | ErrInvalidRequest => "invalid_request"
  | ErrUnauthorizedClient => "unauthorized_client"
  | ErrAccessDenied => "access_denied"
  | ErrUnsupportedResponseType => "unsupported_response_type"
  | ErrInvalidScope => "invalid_scope"
  | ErrServerError => "server_error"
  | ErrUnsupportedGrantType => "unsupported_grant_type"
  | ErrInvalidGrant => "invalid_grant"
  | ErrInvalidClient => "invalid_client"
  | ErrInvalidAuthorizeCode => "invalid authorize code"
  | ErrInvalidRefreshToken => "invalid refresh token"
  | ErrExpiredRefreshToken => "expired refresh token"
  | ErrInvalidAccessToken => "invalid access token"
  | errorString text => text
  | EscapeError s => "invalid URL escape " +:+ s
  | withMessage cause msg => msg +:+ ": " +:+ error_text cause
  | withStack cause => error_text cause
  | uncomparable text => text
  end.

Definition descriptions (err : option error) : option string :=
  match err with
  | Some ErrInvalidRequest => Some "The request is malformed"
  | Some ErrUnauthorizedClient => Some "The client is not authorized"
  | Some ErrAccessDenied => Some "The request was denied"
  | Some ErrUnsupportedResponseType => Some "Unsupported response type"
  | Some ErrInvalidScope => Some "The requested scope is invalid"
  | Some ErrServerError => Some "Unexpected condition"
  | Some ErrInvalidClient => Some "Client authentication failed"
  | Some ErrInvalidGrant => Some "The provided grant is invalid"
  | Some ErrUnsupportedGrantType => Some "Unsupported grant type"
  | _ => None
  end.

Definition status_codes (err : option error) : option Z :=
  match err with
  | Some ErrInvalidRequest => Some 400
  | Some ErrUnauthorizedClient => Some 401
  | Some ErrAccessDenied => Some 403
  | Some ErrUnsupportedResponseType => Some 401
  | Some ErrInvalidScope => Some 400
  | Some ErrServerError => Some 500
  | Some ErrInvalidClient => Some 401
  | Some ErrInvalidGrant => Some 401
  | Some ErrUnsupportedGrantType => Some 401
  | _ => None
  end%Z.

Definition tables : errors.Tables := {|
  ErrorText := error_text;
  Descriptions := descriptions;
  StatusCodes := status_codes
|}.

(** The text before the first [sep] and, when there is one, the text after
    it. *)
Fixpoint cut (sep : ascii) (s : string) : string * option string :=
  match s with
  | EmptyString => (EmptyString, None)
  | String c s' =>
      if bool_decide (c = sep) then (EmptyString, Some s')
      else let (before, after) := cut sep s' in (String c before, after)
  end.

Fixpoint split (sep : ascii) (s : string) : list string :=
  match s with
  | EmptyString => [EmptyString]
  | String c s' =>
      if bool_decide (c = sep) then EmptyString :: split sep s'
      else match split sep s' with
           | h :: t => String c h :: t
           | [] => [String c EmptyString]
           end
  end.

Fixpoint has_control (s : string) : bool :=
  match s with
  | EmptyString => false
  | String c s' =>
      (N_of_ascii c <? 32)%N || (N_of_ascii c =? 127)%N || has_control s'
  end.

Definition parse (rawURL : string) : result url.URL :=
  if has_control rawURL
  then Err (errorString "net/url: invalid control character in URL")
  else
    let (rest, frag) := cut "#" rawURL in
    let (rest, query) := cut "?" rest in
    let '(scheme, host, path) :=
      match cut ":" rest with
      | (scheme, Some (String "/" (String "/" after))) =>
          match cut "/" after with
          | (host, Some p) => (scheme, host, String "/" p)
          | (host, None) => (scheme, host, EmptyString)
          end
      | _ => (EmptyString, EmptyString, rest)
      end in
    Ok (url.mkURL scheme "" None host path "" false
          (bool_decide (query = Some "")) (default "" query)
          (default "" frag) (default "" frag)).

Definition print (u : url.URL) : string :=
  (if bool_decide (url.Scheme u = "") then ""
   else url.Scheme u +:+ "://" +:+ url.Host u)
  +:+ url.Path u
  +:+ (if url.ForceQuery u || bool_decide (url.RawQuery u ≠ "")
       then "?" +:+ url.RawQuery u else "")
  +:+ (if bool_decide (url.Fragment u = "") then ""
       else "#" +:+ url.Fragment u).

Definition parse_query (query : string) : gmap string (list string) :=
  foldl (λ (m : gmap string (list string)) pair,
           if bool_decide (pair = "") then m
           else
             let (key, value) := cut "=" pair in
             match url.QueryUnescape key,
                   url.QueryUnescape (default "" value) with
             | Ok k, Ok v => <[k := (default [] (m !! k) ++ [v])%list]> m
             | _, _ => m
             end)
        ∅ (split "&" query).

Definition package : url.Package := {|
  url.Parse := parse;
  url.URL_String := print;
  url.URL_Query u := parse_query (url.RawQuery u)
|}.

(** The world of the examples: a counter of the collaborator calls that
    changed something. *)
Definition World : Type := nat.

Definition st0 : St World := mkSt 0%nat [].

Definition hits {A : Type} (a : A) : World → A * World :=
  λ w, (a, S w).

(** A token manager that issues fixed tokens. *)
Definition token1 : TokenInfo.t :=
  TokenInfo.mk "tok1" "" "" 7200000000000 "abc123".

Definition manager : Manager.t World :=
  Manager.mk
    (λ rt tgr, hits (Ok token1))
    (λ gt tgr, hits (Ok token1))
    (λ tgr, hits (Ok token1))
    (λ refresh, hits (Ok (TokenInfo.mk "old" refresh "read" 0 "")))
    (λ access, hits (Ok token1))
    (λ id, hits (Ok (ClientInfo.mk "https://app")))%Z.

Definition config : Config.t :=
  Config.mk "Bearer" ["code"; "token"]
    ["authorization_code"; "password"; "client_credentials"; "refresh_token"]
    false.

Definition basic_handler (r : http.Request)
    : World → result (string * string) * World :=
  λ w, (Ok ("c1", "secret"), w).

Definition header_set (key val : string) (w : World) : World := S w.
Definition write_header (statusCode : Z) (w : World) : World := S w.

(** Servers: the one [NewServer] builds, and variations with handlers
    set. *)
Definition deny (A : Type) : World → result A * World :=
  λ w, (Err ErrAccessDenied, w).

Definition server : Server.t World :=
  NewServer basic_handler config manager.

(** A server that allows the code flow only. *)
Definition code_only : Server.t World :=
  NewServer basic_handler
    (Config.mk "Bearer" ["code"]
       ["authorization_code"; "password"; "client_credentials";
        "refresh_token"] false)
    manager.


Definition with_PasswordAuthorizationHandler
    (fn : string → string → World → result string * World) : Server.t World :=
  Server.mk config manager (Some basic_handler) None None
    (Some (λ r, deny string)) (Some fn) None None None None None None None.

Definition with_ResponseErrorHandler
    (fn : Response → World → Response * World) : Server.t World :=
  Server.mk config manager (Some basic_handler) None None
    (Some (λ r, deny string)) (Some (λ username password, deny string))
    None (Some fn) None None None None None.

Definition with_InternalErrorHandler
    (fn : option error → World → option Response * World) : Server.t World :=
  Server.mk config manager (Some basic_handler) None None
    (Some (λ r, deny string)) (Some (λ username password, deny string))
    None None (Some fn) None None None None.

Definition with_ExtensionFieldsHandler
    (fn : TokenInfo.t → World → gmap string value * World) : Server.t World :=
  Server.mk config manager (Some basic_handler) None None
    (Some (λ r, deny string)) (Some (λ username password, deny string))
    None None None (Some fn) None None None.

(** Requests *)
Definition form (method : string) (fields : list (string * string))
    : http.Request :=
  http.mkRequest method ∅ (list_to_map ((λ kv, (kv.1, [kv.2])) <$> fields)).

Definition authorize (responseType redirectURI state : string)
    : AuthorizeRequest.t :=
  AuthorizeRequest.mk responseType "c1" "" redirectURI state "" 0 None.

Definition refresh_request : TokenGenerateRequest.t :=
  TokenGenerateRequest.mk "c1" "secret" "" "" "" "r1" "admin" 0 None.

Definition code_request : TokenGenerateRequest.t :=
  TokenGenerateRequest.mk "c1" "secret" "" "https://app/cb" "abc123" "" "" 0
    None.

Definition password_request : http.Request :=
  form "POST" [("grant_type", "password"); ("username", "u");
               ("password", "p")].


Definition accept_user (username password : string)
    : World → result string * World :=
  λ w, (Ok "u1", w).

Definition custom_response : Response :=
  mkResponse None 0 "custom" "" 418 ∅.

Definition internal_custom (err : option error)
    : World → option Response * World :=
  λ w, (Some custom_response, w).

Definition rewrite_description (re : Response) : World → Response * World :=
  λ w, (mkResponse (errors.Error re) (ErrorCode re) "rewritten" (URI re)
          (StatusCode re) (errors.Header re), w).

Definition extension_scope (ti : TokenInfo.t)
    : World → gmap string value * World :=
  λ w, ({[ "scope" := VString "all" ]}, w).

(** A token whose lifetime is one nanosecond in the past. *)
Definition expired_token : TokenInfo.t :=
  TokenInfo.mk "tok1" "" "" (-1) "".

End Example.

(** ** The token response: [token], [tokenError], [HandleTokenRequest] *)

Section MoreControl.

Context {World : Type}.

(** An operation on the world that is not a call of a collaborator of the
    engine: the JSON encoder writing the body. *)
Definition effect {R A : Type} (f : World → A * World) : Body World R A :=
  λ st,
    let (a, w) := f (world st) in
    (Next a, mkSt w (calls st)).

(** [for _, a := range l { body }] over the elements in the order of [l]. *)
Fixpoint for_range {R A : Type} (l : list A)
    (body : A → Body World R unit) : Body World R unit :=
  match l with
  | [] => next tt
  | a :: l' => body a ;; for_range l' body
  end.

End MoreControl.

Section TokenResponse.

Context {World : Type}.
Context {consts : oauth2.Constants} {tables : errors.Tables}.

Variable ResponseWriter_Header_Set : string → string → World → World.
Variable ResponseWriter_WriteHeader : Z → World → World.

(** [json.NewEncoder(w).Encode(data)]: the encoder of Go's library writes
    the body through the writer and may fail. *)
Variable json_Encode : gmap string value → World → option error * World.

(** [textproto.CanonicalMIMEHeaderKey], which [Header.Get] applies to its
    key. *)
Variable CanonicalMIMEHeaderKey : string → string.

(** The order in which a [range] loop visits the keys of a header map.  Go
    leaves it unspecified: the properties hold for every order. *)
Variable range_keys : gmap string (list string) → list string.

(** [NewConfig] is declared in another file of the package. *)
Variable NewConfig : Config.t.

Variable ClientBasicHandler :
  http.Request → World → result (string * string) * World.

(** [NewDefaultServer] *)
Definition NewDefaultServer (manager : Manager.t World) : Server.t World :=
  NewServer ClientBasicHandler NewConfig manager.

(** [token]; [statusCode] is the variadic parameter. *)
Definition token (s : Server.t World) (data : gmap string value)
    (header : MIMEHeader) (statusCode : list Z) : M World (option error) :=
  func (
    invoke (call_Header_Set "Content-Type" "application/json;charset=UTF-8")
      (λ w, (tt, ResponseWriter_Header_Set "Content-Type"
                   "application/json;charset=UTF-8" w)) ;;
    invoke (call_Header_Set "Cache-Control" "no-store")
      (λ w, (tt, ResponseWriter_Header_Set "Cache-Control" "no-store" w)) ;;
    invoke (call_Header_Set "Pragma" "no-cache")
      (λ w, (tt, ResponseWriter_Header_Set "Pragma" "no-cache" w)) ;;
    for_range (range_keys header)
      (λ key,
         let v := http.Header_Get header (CanonicalMIMEHeaderKey key) in
         invoke (call_Header_Set key v)
           (λ w, (tt, ResponseWriter_Header_Set key v w))) ;;
    let status :=
      match statusCode with
      | c :: _ => if bool_decide (0 < c)%Z then c else 200%Z
      | [] => 200%Z
      end in
    invoke (call_WriteHeader status)
      (λ w, (tt, ResponseWriter_WriteHeader status w)) ;;
    e <- effect (json_Encode data) ;;
    ret e).

(** [tokenError] *)
Definition tokenError (s : Server.t World) (err : error)
    : M World (option error) :=
  func (
    r <- call (GetErrorData s (Some err)) ;;
    e <- call (token s r.1.1 r.2 [r.1.2]) ;;
    ret e).

(** [HandleTokenRequest] *)
Definition HandleTokenRequest (s : Server.t World) (r : http.Request)
    : M World (string * option error) :=
  func (
    v <- call (ValidationTokenRequest s r) ;;
    match v with
    | Err err =>
        when (bool_decide (ErrorText err = "no permission to the app"))
          (ret ("", Some err)) ;;
        e <- call (tokenError s (Cause err)) ;;
        ret ("", e)
    | Ok (gt, tgr) =>
        t <- call (GetAccessToken s gt tgr) ;;
        match t with
        | Err err =>
            e <- call (tokenError s (Cause err)) ;;
            ret ("", e)
        | Ok ti =>
            data <- call (GetTokenData s ti) ;;
            e <- call (token s data ∅ []) ;;
            ret (TokenInfo.GetAccess ti, e)
        end
    end).

End TokenResponse.

(** ** Vocabulary of the further properties *)

Section MoreVocabulary.

Context {World : Type}.
Context {consts : oauth2.Constants}.

(** The calls that reach the token manager, and those that write to the
    response. *)
Definition is_manager_call (c : Call) : bool :=
  match c with
  | call_GenerateAuthToken _ _ | call_GenerateAccessToken _ _
  | call_RefreshAccessToken _ | call_LoadRefreshToken _
  | call_LoadAccessToken _ | call_GetClient _ => true
  | _ => false
  end.


(** The calls a run added to the log of [st]. *)
Definition new_calls (st st' : St World) : list Call :=
  drop (length (calls st)) (calls st').

(** The grant type [GetAuthorizeToken] asks the client-authorization
    handler about. *)
Definition authorize_grant (req : AuthorizeRequest.t) : GrantType :=
  if bool_decide (AuthorizeRequest.ResponseType req = Token)
  then Implicit else AuthorizationCode.

(** The client-authorization step passes for a client and a grant type:
    no handler, or a handler that allows.  The result is the state after
    the step. *)
Definition client_allowed (s : Server.t World) (clientID : string)
    (gt : GrantType) (st : St World) : option (St World) :=
  match Server.ClientAuthorizedHandler s with
  | None => Some st
  | Some fn =>
      match fn clientID gt (world st) with
      | (Ok true, w) =>
          Some (logged st (call_ClientAuthorizedHandler clientID gt) w)
      | _ => None
      end
  end.

(** The client-scope step passes: no handler, or a handler that allows. *)
Definition scope_allowed (s : Server.t World) (clientID scope : string)
    (st : St World) : option (St World) :=
  match Server.ClientScopeHandler s with
  | None => Some st
  | Some fn =>
      match fn clientID scope (world st) with
      | (Ok true, w) =>
          Some (logged st (call_ClientScopeHandler clientID scope) w)
      | _ => None
      end
  end.

(** The token request passes the checks of the method and of the grant
    type. *)
Definition token_request_admitted (s : Server.t World) (r : http.Request)
    : Prop :=
  (http.Method r = "POST"
   ∨ (Config.AllowGetAccessRequest (Server.Config s) = true
      ∧ http.Method r = "GET"))
  ∧ GrantType_String (http.FormValue r "grant_type") ≠ "".

(** The request of [ValidationTokenRequest] before the fields of the grant
    type are read. *)
Definition client_request (clientID clientSecret : string)
    (r : http.Request) : TokenGenerateRequest.t :=
  TokenGenerateRequest.mk clientID clientSecret "" "" "" "" "" 0 (Some r).

(** The request [GetAuthorizeToken] passes to the token manager. *)
Definition authorize_token_request (req : AuthorizeRequest.t)
    : TokenGenerateRequest.t :=
  TokenGenerateRequest.mk (AuthorizeRequest.ClientID req) ""
    (AuthorizeRequest.UserID req) (AuthorizeRequest.RedirectURI req) "" ""
    (AuthorizeRequest.Scope req) (AuthorizeRequest.AccessTokenExp req)
    (AuthorizeRequest.Request req).

(** The user-authorization step of [HandleAuthorizeRequest] passes: the
    handler is set and gives a user ID that is not empty. *)
Definition user_authorized (s : Server.t World) (r : http.Request)
    (st : St World) : option (string * St World) :=
  match Server.UserAuthorizationHandler s with
  | None => None
  | Some fn =>
      match fn r (world st) with
      | (Ok userID, w) =>
          if bool_decide (userID = "") then None
          else Some (userID, logged st (call_UserAuthorizationHandler r) w)
      | _ => None
      end
  end.

(** The scope step of [HandleAuthorizeRequest] passes: no handler, or a
    handler whose scope, when it is not empty, replaces the scope of the
    request. *)
Definition scope_specified (s : Server.t World) (r : http.Request)
    (req : AuthorizeRequest.t) (st : St World)
    : option (AuthorizeRequest.t * St World) :=
  match Server.AuthorizeScopeHandler s with
  | None => Some (req, st)
  | Some fn =>
      match fn r (world st) with
      | (Ok scope, w) =>
          Some (if bool_decide (scope ≠ "")
                then AuthorizeRequest.set_Scope scope req else req,
                logged st (call_AuthorizeScopeHandler r) w)
      | _ => None
      end
  end.

(** The expiry step of [HandleAuthorizeRequest] passes: no handler, or a
    handler whose duration becomes the expiry of the access token. *)
Definition expiry_specified (s : Server.t World) (r : http.Request)
    (req : AuthorizeRequest.t) (st : St World)
    : option (AuthorizeRequest.t * St World) :=
  match Server.AccessTokenExpHandler s with
  | None => Some (req, st)
  | Some fn =>
      match fn r (world st) with
      | (Ok exp, w) =>
          Some (AuthorizeRequest.set_AccessTokenExp exp req,
                logged st (call_AccessTokenExpHandler r) w)
      | _ => None
      end
  end.

(** The request of [HandleAuthorizeRequest] passed the validation and the
    steps of the user, of the scope and of the expiry: [req] is the request
    they leave and [st'] the state. *)
Definition authorize_request_prepared (s : Server.t World)
    (r : http.Request) (st : St World) (req : AuthorizeRequest.t)
    (st' : St World) : Prop :=
  ∃ req0 userID st1 req1 st2,
    ValidationAuthorizeRequest s r = Ok req0
    ∧ user_authorized s r st = Some (userID, st1)
    ∧ scope_specified s r (AuthorizeRequest.set_UserID userID req0) st1
      = Some (req1, st2)
    ∧ expiry_specified s r req1 st2 = Some (req, st').

(** The state after a redirect to [uri] was written: the Location header
    was set, then the status 302 was written. *)
Definition redirected (header_set : string → string → World → World)
    (write_header : Z → World → World) (st : St World) (uri : string)
    : St World :=
  mkSt (write_header 302%Z (header_set "Location" uri (world st)))
       (calls st ++ [call_Header_Set "Location" uri; call_WriteHeader 302%Z])%list.

(** The headers every JSON response starts with. *)
Definition json_headers : list (string * string) :=
  [("Content-Type", "application/json;charset=UTF-8");
   ("Cache-Control", "no-store");
   ("Pragma", "no-cache")].

(** The headers [token] forwards from [header]: for every key the loop
    visits, the key as it is in the map with the value [Header.Get] finds
    under the canonical form of the key. *)
Definition forwarded_headers (CanonicalMIMEHeaderKey : string → string)
    (range_keys : gmap string (list string) → list string)
    (header : MIMEHeader) : list (string * string) :=
  map (λ key, (key, http.Header_Get header (CanonicalMIMEHeaderKey key)))
      (range_keys header).

(** A JSON response written from [st]: the headers are set in order, then
    the status is written, then [data] is encoded to the body.  The result
    is the error of the encoder and the state that is left. *)
Definition json_response (header_set : string → string → World → World)
    (write_header : Z → World → World)
    (json_Encode : gmap string value → World → option error * World)
    (st : St World) (headers : list (string * string)) (status : Z)
    (data : gmap string value) : option error * St World :=
  let w := foldl (λ w kv, header_set kv.1 kv.2 w) (world st) headers in
  let (e, w') := json_Encode data (write_header status w) in
  (e, mkSt w' (calls st ++ map (λ kv, call_Header_Set kv.1 kv.2) headers
                        ++ [call_WriteHeader status])%list).

End MoreVocabulary.

(** ** Scenarios of the two endpoints

    Servers on the world, the manager and the configuration of the examples
    above, with the handlers of the endpoints set. *)

Module Scenario.

(** A server with the handlers of the authorization endpoint. *)
Definition authorizing
    (clientAuthorized :
       option (string → GrantType → Example.World
               → result bool * Example.World))
    (clientScope :
       option (string → string → Example.World → result bool * Example.World))
    (user : http.Request → Example.World → result string * Example.World)
    (authorizeScope :
       option (http.Request → Example.World → result string * Example.World))
    : Server.t Example.World :=
  Server.mk Example.config Example.manager (Some Example.basic_handler)
    clientAuthorized clientScope (Some user)
    (Some (λ username password, Example.deny string))
    None None None None None authorizeScope None.

(** A server with the handlers of the password grant. *)
Definition with_password
    (password : string → string → Example.World
                → result string * Example.World)
    (perm : string → string → Example.World → option error * Example.World)
    : Server.t Example.World :=
  Server.mk Example.config Example.manager (Some Example.basic_handler)
    None None (Some (λ r, Example.deny string)) (Some password)
    None None None None None None (Some perm).

(** A server whose client-info handler fails. *)
Definition without_client : Server.t Example.World :=
  Server.mk Example.config Example.manager
    (Some (λ r, Example.deny (string * string)))
    None None (Some (λ r, Example.deny string))
    (Some (λ username password, Example.deny string))
    None None None None None None None.

(** A server that allows a grant type the dispatch does not know. *)
Definition with_device_grant : Server.t Example.World :=
  NewServer Example.basic_handler
    (Config.mk "Bearer" ["code"; "token"]
       ["authorization_code"; "device_code"] false)
    Example.manager.

(** Handlers *)
Definition refuse_client (clientID : string) (gt : GrantType)
    : Example.World → result bool * Example.World :=
  Example.hits (Ok false).

Definition refuse_scope (clientID scope : string)
    : Example.World → result bool * Example.World :=
  Example.hits (Ok false).

Definition user (userID : string) (r : http.Request)
    : Example.World → result string * Example.World :=
  Example.hits (Ok userID).

Definition forbid (r : http.Request)
    : Example.World → result string * Example.World :=
  Example.hits (Err (errorString "no permission to the app")).

Definition failing_scope (r : http.Request)
    : Example.World → result string * Example.World :=
  Example.hits (Err (errorString "scope unavailable")).

Definition permit (userID clientID : string)
    : Example.World → option error * Example.World :=
  Example.hits None.

(** The encoder of the examples writes the body and does not fail; the
    header keys are kept as they are and visited in the order of the
    map. *)
Definition json_encode (data : gmap string value)
    : Example.World → option error * Example.World :=
  Example.hits None.

Definition canonical (key : string) : string := key.

Definition range_keys (header : gmap string (list string)) : list string :=
  (map_to_list header).*1.

(** Requests *)
Definition authorize_code : http.Request :=
  Example.form "GET" [("client_id", "c1"); ("response_type", "code");
                      ("redirect_uri", "https://app/cb"); ("state", "xyz")].

Definition authorize_code_default : http.Request :=
  Example.form "GET" [("client_id", "c1"); ("response_type", "code")].

Definition token_code : http.Request :=
  Example.form "POST" [("grant_type", "authorization_code");
                       ("code", "abc123");
                       ("redirect_uri", "https://app/cb")].

Definition token_refresh : http.Request :=
  Example.form "POST" [("grant_type", "refresh_token");
                       ("refresh_token", "r1"); ("scope", "read")].

Definition token_client_credentials : http.Request :=
  Example.form "POST" [("grant_type", "client_credentials");
                       ("scope", "read")].

Definition token_implicit : http.Request :=
  Example.form "POST" [("grant_type", "__implicit")].

End Scenario.

(** ** Facts about strings and lists of allowed types *)

Lemma allowed_in_elem_of (l : list string) (x : string) :
  allowed_in l x = true ↔ x ∈ l.
Proof.
  induction l as [|a l IH]; simpl.
  - split; [discriminate | intros Hin; inversion Hin].
  - case_bool_decide as Ha.
    + subst a. split; [intros _; left | reflexivity].
    + rewrite IH. split; [intros Hin; by right |].
      intros Hin. inversion Hin; subst; [congruence | done].
Qed.

(** The [String] methods give the empty string for the empty type and for
    the types they do not know, and the type itself otherwise. *)
Lemma ResponseType_String_empty {consts : oauth2.Constants} (rt : string) :
  ResponseType_String rt = "" ↔ rt = "" ∨ ¬ (rt = Code ∨ rt = Token).
Proof.
  unfold ResponseType_String. case_bool_decide; [| tauto].
  split; [by left | by intros [|]].
Qed.

Lemma GrantType_String_known {consts : oauth2.Constants} (gt : string) :
  gt ∈ [AuthorizationCode; PasswordCredentials; ClientCredentials;
        Refreshing] →
  GrantType_String gt = gt.
Proof.
  intros Hin. unfold GrantType_String. rewrite bool_decide_true; [done |].
  repeat (apply elem_of_cons in Hin as [-> | Hin]; [tauto |]).
  by apply elem_of_nil in Hin.
Qed.

Lemma GrantType_String_unknown {consts : oauth2.Constants} (gt : string) :
  gt ∉ [AuthorizationCode; PasswordCredentials; ClientCredentials;
        Refreshing] →
  GrantType_String gt = "".
Proof.
  intros Hnot. unfold GrantType_String. rewrite bool_decide_false; [done |].
  intros Hin. apply Hnot.
  destruct Hin as [-> | [-> | [-> | ->]]]; repeat constructor.
Qed.

Lemma strings_HasPrefix_app (p rest : string) :
  strings_HasPrefix (p +:+ rest) p = true.
Proof.
  unfold strings_HasPrefix.
  induction p as [|c p IH]; simpl.
  - by destruct rest.
  - destruct (ascii_dec c c); [exact IH | congruence].
Qed.

Lemma strings_HasPrefix_inv (s p : string) :
  strings_HasPrefix s p = true → ∃ rest, s = p +:+ rest.
Proof.
  unfold strings_HasPrefix. revert s.
  induction p as [|c p IH]; intros s Hp.
  - by exists s.
  - destruct s as [|d s]; simpl in Hp; [discriminate |].
    destruct (ascii_dec c d) as [->|]; [| discriminate].
    destruct (IH s Hp) as [rest ->]. by exists rest.
Qed.

Lemma string_from_app (p rest : string) :
  string_from (String.length p) (p +:+ rest) = rest.
Proof. induction p as [|c p IH]; simpl; [by destruct rest | exact IH]. Qed.

Lemma append_cons (c : ascii) (a b : string) :
  String c a +:+ b = String c (a +:+ b).
Proof. reflexivity. Qed.

Lemma append_empty_l (a : string) : "" +:+ a = a.
Proof. reflexivity. Qed.

Lemma append_assoc (a b c : string) : (a +:+ b) +:+ c = a +:+ (b +:+ c).
Proof.
  induction a as [|x a IH]; [done |].
  by rewrite !append_cons, IH.
Qed.

Lemma append_empty_r (a : string) : a +:+ "" = a.
Proof. induction a as [|x a IH]; [done | by rewrite append_cons, IH]. Qed.

Lemma append_eq_empty (a b : string) : a +:+ b = "" → a = "" ∧ b = "".
Proof. destruct a; [done | rewrite append_cons; discriminate]. Qed.

Module urlfacts.
Import url.

Lemma unescape_escape_cons (c : ascii) (s : string) :
  unescape (escape (String c s)) = prepend c (unescape (escape s)).
Proof. destruct c as [[] [] [] [] [] [] [] []]; reflexivity. Qed.

Lemma unescape_escape (s : string) : unescape (escape s) = Ok s.
Proof.
  induction s as [|c s IH]; [reflexivity |].
  rewrite unescape_escape_cons, IH. reflexivity.
Qed.

Lemma prepend_Ok_inv c r t : prepend c r = Ok t → ∃ t', r = Ok t' ∧ t = String c t'.
Proof. destruct r; simpl; [intros [= <-]; eauto | discriminate]. Qed.

Lemma unescape_app_len (n : nat) :
  ∀ a a' b b', (String.length a ≤ n)%nat →
    unescape a = Ok a' → unescape b = Ok b' →
    unescape (a +:+ b) = Ok (a' +:+ b').
Proof.
  induction n as [n IH] using lt_wf_ind.
  intros a a' b b' Hn Ha Hb.
  destruct a as [|c a]; rewrite ?append_cons, ?append_empty_l; simpl in *.
  - by injection Ha as <-.
  - case_bool_decide as Hc.
    + destruct a as [|h [|l a]]; rewrite ?append_cons; simpl in *; try discriminate.
      destruct (ishex h && ishex l); [| discriminate].
      apply prepend_Ok_inv in Ha as (t & Ht & ->).
      rewrite (IH (String.length a) ltac:(lia) a t b b'); [done | lia | done | done].
    + case_bool_decide as Hp.
      * apply prepend_Ok_inv in Ha as (t & Ht & ->).
        by rewrite (IH (String.length a) ltac:(lia) a t b b').
      * apply prepend_Ok_inv in Ha as (t & Ht & ->).
        by rewrite (IH (String.length a) ltac:(lia) a t b b').
Qed.

Lemma unescape_app (a a' b b' : string) :
  unescape a = Ok a' → unescape b = Ok b' →
  unescape (a +:+ b) = Ok (a' +:+ b').
Proof. by apply (unescape_app_len (String.length a)). Qed.


Lemma write_pair_unescape (key buf buf' value : string) :
  unescape buf = Ok buf' → (buf = "" ↔ buf' = "") →
  unescape (write_pair QueryEscape key buf value)
    = Ok (write_pair id key buf' value)
  ∧ (write_pair QueryEscape key buf value = ""
     ↔ write_pair id key buf' value = "").
Proof.
  intros Hbuf Hempty. unfold write_pair, QueryEscape. split.
  - apply unescape_app.
    + repeat case_bool_decide; try done; try tauto.
      by apply unescape_app.
    + apply unescape_app; [apply unescape_escape |].
      apply (unescape_app "=" "="); [done | apply unescape_escape].
  - split; intros Hnil.
    + apply append_eq_empty in Hnil as [_ Hnil].
      apply append_eq_empty in Hnil as [_ Hnil]. discriminate.
    + apply append_eq_empty in Hnil as [_ Hnil].
      apply append_eq_empty in Hnil as [_ Hnil]. discriminate.
Qed.

Lemma foldl_write_pair_unescape (key : string) (vs : list string) :
  ∀ buf buf', unescape buf = Ok buf' → (buf = "" ↔ buf' = "") →
    unescape (foldl (write_pair QueryEscape key) buf vs)
      = Ok (foldl (write_pair id key) buf' vs)
    ∧ (foldl (write_pair QueryEscape key) buf vs = ""
       ↔ foldl (write_pair id key) buf' vs = "").
Proof.
  induction vs as [|x vs IH]; intros buf buf' Hbuf Hempty; simpl; [done |].
  destruct (write_pair_unescape key buf buf' x Hbuf Hempty) as [Hu He].
  by apply IH.
Qed.

(** Unescaping an encoded query gives back the raw pairs: every pair is
    escaped on its own, so the unescape pass of the token branch cannot
    fail. *)
Lemma QueryUnescape_Encode (v : Values) :
  QueryUnescape (Encode v) = Ok (encode_with id v).
Proof.
  unfold QueryUnescape, Encode, encode_with.
  generalize (merge_sort String.le (elements (dom v))). intros keys.
  assert (∀ buf buf', unescape buf = Ok buf' → (buf = "" ↔ buf' = "") →
    unescape (foldl (λ buf key, foldl (write_pair QueryEscape key) buf
                                  (default [] (v !! key))) buf keys)
      = Ok (foldl (λ buf key, foldl (write_pair id key) buf
                                (default [] (v !! key))) buf' keys)) as Hfold.
  { induction keys as [|k keys IH]; intros buf buf' Hbuf Hempty; simpl;
      [done |].
    destruct (foldl_write_pair_unescape k (default [] (v !! k)) buf buf'
                Hbuf Hempty) as [Hu He].
    by apply IH. }
  by apply Hfold.
Qed.

(** The buffer only grows. *)
Lemma foldl_write_pair_grows (esc : string → string) (key : string)
    (vs : list string) :
  ∀ buf, ∃ suffix, foldl (write_pair esc key) buf vs = buf +:+ suffix.
Proof.
  induction vs as [|x vs IH]; intros buf; simpl.
  - exists "". by rewrite append_empty_r.
  - destruct (IH (write_pair esc key buf x)) as [suffix ->].
    unfold write_pair. case_bool_decide.
    + eexists. by rewrite append_assoc.
    + eexists. by rewrite !append_assoc.
Qed.

Lemma encode_keys_grows (esc : string → string) (v : Values)
    (keys : list string) :
  ∀ buf, ∃ suffix,
    foldl (λ buf key, foldl (write_pair esc key) buf (default [] (v !! key)))
          buf keys = buf +:+ suffix.
Proof.
  induction keys as [|k keys IH]; intros buf; simpl.
  - exists "". by rewrite append_empty_r.
  - destruct (foldl_write_pair_grows esc k (default [] (v !! k)) buf)
      as [s1 ->].
    destruct (IH (buf +:+ s1)) as [s2 ->].
    eexists. by rewrite append_assoc.
Qed.

Lemma foldl_write_pair_contains (esc : string → string) (key x : string)
    (vs : list string) :
  x ∈ vs →
  ∀ buf, ∃ pre post,
    foldl (write_pair esc key) buf vs
      = pre +:+ (esc key +:+ "=" +:+ esc x) +:+ post.
Proof.
  induction 1 as [x vs | x y vs Hin IH]; intros buf; simpl.
  - destruct (foldl_write_pair_grows esc key vs (write_pair esc key buf x))
      as [suffix ->].
    unfold write_pair.
    exists (if bool_decide (buf = "") then buf else buf +:+ "&"), suffix.
    by rewrite !append_assoc.
  - apply IH.
Qed.

(** Every pair of the values shows up in the encoding. *)
Lemma encode_with_contains (esc : string → string) (v : Values)
    (key x : string) (vs : list string) :
  v !! key = Some vs → x ∈ vs →
  ∃ pre post,
    encode_with esc v = pre +:+ (esc key +:+ "=" +:+ esc x) +:+ post.
Proof.
  intros Hkey Hx. unfold encode_with.
  assert (key ∈ merge_sort String.le (elements (dom v))) as Hin.
  { rewrite merge_sort_Permutation. apply elem_of_elements, elem_of_dom.
    by exists vs. }
  revert Hin. generalize (merge_sort String.le (elements (dom v))).
  intros keys. generalize EmptyString at 1.
  induction keys as [|k keys IH]; intros buf Hin.
  - inversion Hin.
  - simpl. apply elem_of_cons in Hin as [<- | Hin].
    + rewrite Hkey. simpl.
      destruct (foldl_write_pair_contains esc key x vs Hx buf)
        as (pre & post & ->).
      destruct (encode_keys_grows esc v keys
                  (pre +:+ (esc key +:+ "=" +:+ esc x) +:+ post))
        as [suffix ->].
      exists pre, (post +:+ suffix). by rewrite !append_assoc.
    + by apply IH.
Qed.

End urlfacts.

(** ** Properties of the grant dispatch *)

Ltac run :=
  unfold func, bind, when, ret, next, panic, invoke, invoke_field, call,
    map_index, logged;
  simpl.

Section GrantDispatch.

Context {World : Type}.
Context {consts : oauth2.Constants}.

Implicit Types (s : Server.t World) (st : St World).

Lemma bind_next {R A B : Type} (m : Body World R A)
    (k : A → Body World R B) st a st' :
  m st = (Next a, st') → bind m k st = k a st'.
Proof. unfold bind. by intros ->. Qed.

(** When the client-authorization step passes, the body of
    [GetAccessToken] goes on in the state after the step. *)
Lemma client_authorized_passes s gt tgr st st1 :
  client_authorized s gt tgr st = Some st1 →
  match Server.ClientAuthorizedHandler s with
  | Some fn =>
      r <- invoke (call_ClientAuthorizedHandler
                     (TokenGenerateRequest.ClientID tgr) gt)
                  (fn (TokenGenerateRequest.ClientID tgr) gt) ;;
      match r with
      | Err err => ret (Err (Wrap err "client authorized"))
      | Ok allowed =>
          when (negb allowed) (ret (Err (WithStack ErrUnauthorizedClient)))
      end
  | None => next tt
  end st = (Next tt, st1 : St World)
         :> flow (result TokenInfo.t) unit * St World.
Proof.
  unfold client_authorized. intros Hauth.
  destruct (Server.ClientAuthorizedHandler s) as [fn|]; run.
  - destruct (fn _ _ _) as [[[]|] w]; try discriminate.
    by injection Hauth as <-.
  - by injection Hauth as <-.
Qed.


(** C1.  A grant type that is not in [Config.AllowedGrantTypes] makes
    [GetAccessToken] return an error whose root cause is
    [ErrUnauthorizedClient]; the state is the initial one: the world is
    untouched and nothing was added to the log of calls, so no handler and
    no operation of the token manager was invoked. *)
Theorem GetAccessToken_grant_type_not_allowed s gt tgr st :
  gt ∉ Config.AllowedGrantTypes (Server.Config s) →
  ∃ err,
    GetAccessToken s gt tgr st = (Returns (Err err), st)
    ∧ Cause err = ErrUnauthorizedClient.
Proof.
  intros Hgt.
  assert (CheckGrantType s gt = false) as Hcheck.
  { unfold CheckGrantType. apply not_true_is_false.
    by rewrite allowed_in_elem_of. }
  exists (Wrapf ErrUnauthorizedClient
            ("check grant type " +:+ GrantType_String gt)).
  split; [| reflexivity].
  unfold GetAccessToken. run. by rewrite Hcheck.
Qed.

Lemma CheckGrantType_allowed s gt :
  gt ∈ Config.AllowedGrantTypes (Server.Config s) → CheckGrantType s gt = true.
Proof. intros Hgt. by apply allowed_in_elem_of. Qed.

(** C3.  The authorization-code grant, once the grant type is allowed and
    the client authorized: the manager's [GenerateAccessToken] is called
    and its token is returned as it is; [ErrInvalidAuthorizeCode] is
    reported with root cause [ErrInvalidGrant], [ErrInvalidClient] with
    root cause [ErrInvalidClient], and any other error is wrapped
    unchanged, so that the root cause of the result is the root cause of
    the manager's error. *)
Theorem GetAccessToken_authorization_code s tgr st st1 :
  AuthorizationCode ∈ Config.AllowedGrantTypes (Server.Config s) →
  client_authorized s AuthorizationCode tgr st = Some st1 →
  let generate :=
    Manager.GenerateAccessToken (Server.Manager s) AuthorizationCode tgr
      (world st1) in
  let st2 :=
    logged st1 (call_GenerateAccessToken AuthorizationCode tgr) generate.2 in
  (∀ ti, generate.1 = Ok ti →
     GetAccessToken s AuthorizationCode tgr st = (Returns (Ok ti), st2))
  ∧ (∀ e, generate.1 = Err e →
       ∃ err,
         GetAccessToken s AuthorizationCode tgr st = (Returns (Err err), st2)
         ∧ (e = ErrInvalidAuthorizeCode → Cause err = ErrInvalidGrant)
         ∧ (e = ErrInvalidClient → Cause err = ErrInvalidClient)
         ∧ (e ≠ ErrInvalidAuthorizeCode →
            err = WithStack e ∧ Cause err = Cause e)).
Proof.
  intros Hallowed Hauth generate st2.
  apply CheckGrantType_allowed in Hallowed.
  unfold client_authorized in Hauth.
  assert (∀ out,
    (let r := generate.1 in
     match r with
     | Err err =>
         if bool_decide (err = ErrInvalidAuthorizeCode)
         then Returns (Err (WithStack ErrInvalidGrant))
         else if bool_decide (err = ErrInvalidClient)
         then Returns (Err (WithStack ErrInvalidClient))
         else Returns (Err (WithStack err))
     | Ok ti => Returns (Ok ti)
     end) = out →
    GetAccessToken s AuthorizationCode tgr st = (out, st2)) as Hrun.
  { intros out <-. unfold GetAccessToken. run. rewrite Hallowed. simpl.
    subst st2 generate. unfold logged.
    destruct (Server.ClientAuthorizedHandler s) as [fn|].
    - destruct (fn _ _ _) as [[[]|] w] eqn:Hfn; try discriminate.
      injection Hauth as <-. simpl. rewrite bool_decide_true by done.
      destruct (Manager.GenerateAccessToken _ _ _ _) as [[ti|e] w2]; simpl;
        [done |].
      by repeat case_bool_decide.
    - injection Hauth as <-. simpl. rewrite bool_decide_true by done.
      destruct (Manager.GenerateAccessToken _ _ _ _) as [[ti|e] w2]; simpl;
        [done |].
      by repeat case_bool_decide. }
  split.
  - intros ti Hti. apply Hrun. by rewrite Hti.
  - intros e He.
    exists (if bool_decide (e = ErrInvalidAuthorizeCode)
            then WithStack ErrInvalidGrant
            else if bool_decide (e = ErrInvalidClient)
            then WithStack ErrInvalidClient else WithStack e).
    split; [| split; [| split]].
    + apply Hrun. rewrite He. simpl. by repeat case_bool_decide.
    + intros ->. by rewrite bool_decide_true.
    + intros ->. by rewrite bool_decide_false, bool_decide_true.
    + intros Hne. rewrite bool_decide_false by done.
      case_bool_decide as Hc; [by subst e |]. done.
Qed.


End GrantDispatch.

(** ** Properties of the request validators *)

Section Validation.

Context {World : Type}.
Context {consts : oauth2.Constants} {tables : errors.Tables}
  {net_url : url.Package}.
Variable ResponseWriter_Header_Set : string → string → World → World.
Variable ResponseWriter_WriteHeader : Z → World → World.

Implicit Types (s : Server.t World) (st : St World) (r : http.Request).

(** C4, as the code has it.  [ValidationAuthorizeRequest] fails with
    [ErrInvalidRequest] when the method is neither GET nor POST or
    [client_id] is empty; otherwise with [ErrUnsupportedResponseType] when
    [response_type] is empty or is neither [Code] nor [Token]; otherwise
    with [ErrUnauthorizedClient] when the response type is not in
    [Config.AllowedResponseTypes]; otherwise it succeeds and the fields of
    the request are the form values.  Whenever it fails,
    [HandleAuthorizeRequest] returns the error in the state it started in:
    nothing was called, in particular not the token manager. *)
Theorem ValidationAuthorizeRequest_spec s r :
  let method_ok := http.Method r = "GET" ∨ http.Method r = "POST" in
  let clientID := http.FormValue r "client_id" in
  let resType := http.FormValue r "response_type" in
  let known := resType = Code ∨ resType = Token in
  (¬ method_ok ∨ clientID = "" →
     ValidationAuthorizeRequest s r = Err ErrInvalidRequest)
  ∧ (method_ok → clientID ≠ "" → resType = "" ∨ ¬ known →
     ValidationAuthorizeRequest s r = Err ErrUnsupportedResponseType)
  ∧ (method_ok → clientID ≠ "" → resType ≠ "" → known →
     resType ∉ Config.AllowedResponseTypes (Server.Config s) →
     ValidationAuthorizeRequest s r = Err ErrUnauthorizedClient)
  ∧ (method_ok → clientID ≠ "" → resType ≠ "" → known →
     resType ∈ Config.AllowedResponseTypes (Server.Config s) →
     ValidationAuthorizeRequest s r =
       Ok (AuthorizeRequest.mk resType clientID (http.FormValue r "scope")
             (http.FormValue r "redirect_uri") (http.FormValue r "state")
             "" 0 (Some r)))
  ∧ (∀ err st,
       ValidationAuthorizeRequest s r = Err err →
       HandleAuthorizeRequest ResponseWriter_Header_Set
         ResponseWriter_WriteHeader s r st = (Returns (Some err), st)).
Proof.
  intros method_ok clientID resType known.
  assert (bool_decide (http.Method r = "GET")
          || bool_decide (http.Method r = "POST") = true ↔ method_ok) as Hm.
  { rewrite orb_true_iff, !bool_decide_eq_true. done. }
  assert (∀ err st,
    ValidationAuthorizeRequest s r = Err err →
    HandleAuthorizeRequest ResponseWriter_Header_Set
      ResponseWriter_WriteHeader s r st = (Returns (Some err), st)) as Hhandle.
  { intros err st Herr. unfold HandleAuthorizeRequest. by rewrite Herr. }
  pose proof (ResponseType_String_empty resType) as Hstring.
  fold known in Hstring.
  unfold ValidationAuthorizeRequest, CheckResponseType.
  fold clientID resType.
  split; [| split; [| split; [| split]]].
  - intros [Hbad | ->].
    + apply not_iff_compat, proj2 in Hm. apply Hm, not_true_is_false in Hbad.
      by rewrite Hbad.
    + by rewrite orb_true_r.
  - intros Hok Hc Hunknown. apply Hm in Hok as ->.
    rewrite (bool_decide_false (clientID = "")) by done.
    by rewrite (bool_decide_true (ResponseType_String resType = ""))
      by by apply Hstring.
  - intros Hok Hc Hr Hknown Hnot. apply Hm in Hok as ->.
    rewrite (bool_decide_false (clientID = "")) by done.
    rewrite (bool_decide_false (ResponseType_String resType = ""))
      by (rewrite Hstring; tauto).
    simpl. destruct (allowed_in _ _) eqn:Ha; [| done].
    by apply allowed_in_elem_of in Ha.
  - intros Hok Hc Hr Hknown Hin. apply Hm in Hok as ->.
    rewrite (bool_decide_false (clientID = "")) by done.
    rewrite (bool_decide_false (ResponseType_String resType = ""))
      by (rewrite Hstring; tauto).
    simpl. apply allowed_in_elem_of in Hin as ->. done.
  - exact Hhandle.
Qed.

(** [NewServer] installs no permission-check handler. *)
Lemma NewServer_CheckUserPermHandler
    (ClientBasicHandler :
       http.Request → World → result (string * string) * World)
    (cfg : Config.t) (manager : Manager.t World) :
  Server.CheckUserPermHandler (NewServer ClientBasicHandler cfg manager)
    = None.
Proof. reflexivity. Qed.

(** C5.  A password-grant request with a user name and a password, a
    client-info handler and a password-authorization handler that succeed:
    when no permission-check handler is configured, [ValidationTokenRequest]
    calls the nil function value and panics, after the two handlers were
    called.  It returns neither a result nor an error. *)
Theorem ValidationTokenRequest_nil_CheckUserPermHandler
    s r st clientInfo passwordAuth client userID w1 w2 :
  http.Method r = "POST" →
  http.FormValue r "grant_type" = PasswordCredentials →
  PasswordCredentials ≠ "" →
  PasswordCredentials ≠ AuthorizationCode →
  http.FormValue r "username" ≠ "" →
  http.FormValue r "password" ≠ "" →
  Server.ClientInfoHandler s = Some clientInfo →
  clientInfo r (world st) = (Ok client, w1) →
  Server.PasswordAuthorizationHandler s = Some passwordAuth →
  passwordAuth (http.FormValue r "username") (http.FormValue r "password") w1
    = (Ok userID, w2) →
  userID ≠ "" →
  Server.CheckUserPermHandler s = None →
  ValidationTokenRequest s r st =
    (Panics,
     mkSt w2 (calls st ++
              [call_ClientInfoHandler r;
               call_PasswordAuthorizationHandler
                 (http.FormValue r "username") (http.FormValue r "password")])).
Proof.
  intros Hpost Hgt Hne Hac Hu Hp Hci Hclient Hpa Hauth Huid Hnil.
  unfold ValidationTokenRequest. run.
  rewrite Hpost, Hgt, Hci, Hpa, Hnil. simpl.
  rewrite (GrantType_String_known PasswordCredentials) by (right; left).
  rewrite (bool_decide_false (PasswordCredentials = "")) by done. run.
  rewrite Hclient. destruct client as [clientID clientSecret]. simpl.
  rewrite (bool_decide_false (PasswordCredentials = AuthorizationCode)) by done.
  rewrite (bool_decide_true (PasswordCredentials = PasswordCredentials))
    by done.
  rewrite (bool_decide_false (http.FormValue r "username" = "")) by done.
  rewrite (bool_decide_false (http.FormValue r "password" = "")) by done.
  run. rewrite Hauth. simpl.
  rewrite (bool_decide_false (userID = "")) by done. simpl.
  by rewrite <- app_assoc.
Qed.

(** C10.  [BearerAuth] returns what follows the prefix when the
    Authorization header starts with "Bearer " (and so is not empty), and
    the [access_token] form value otherwise; the boolean tells whether the
    token is not empty. *)
Theorem BearerAuth_spec s r :
  (∀ rest,
     http.Header_Get (http.Header r) "Authorization" = "Bearer " +:+ rest →
     BearerAuth s r = (rest, bool_decide (rest ≠ "")))
  ∧ ((∀ rest,
        http.Header_Get (http.Header r) "Authorization" ≠ "Bearer " +:+ rest) →
     BearerAuth s r =
       (http.FormValue r "access_token",
        bool_decide (http.FormValue r "access_token" ≠ "")))
  ∧ (∀ token ok, BearerAuth s r = (token, ok) → ok = true ↔ token ≠ "").
Proof.
  unfold BearerAuth. split; [| split].
  - intros rest ->.
    rewrite strings_HasPrefix_app, (string_from_app "Bearer " rest).
    by rewrite bool_decide_true.
  - intros Hno.
    destruct (strings_HasPrefix _ "Bearer ") eqn:Hp.
    + apply strings_HasPrefix_inv in Hp as [rest Hp]. by destruct (Hno rest).
    + by rewrite andb_false_r.
  - intros token ok [= <- <-]. apply bool_decide_eq_true.
Qed.

End Validation.

(** ** Properties of the response builders *)

Section Builders.

Context {World : Type}.
Context {consts : oauth2.Constants} {tables : errors.Tables}
  {net_url : url.Package}.

Implicit Types (s : Server.t World) (st : St World).

(** The loop that sets every key of the data as a parameter. *)
Lemma set_params_lookup (data : gmap string value)
    (q : gmap string (list string)) (k : string) :
  map_fold (λ k v q, url.Values_Set k (Sprint v) q) q data !! k
    = match data !! k with
      | Some v => Some [Sprint v]
      | None => q !! k
      end.
Proof.
  revert k.
  apply (map_fold_weak_ind
           (λ (r : gmap string (list string)) (m : gmap string value),
              ∀ k, r !! k = match m !! k with
                            | Some v => Some [Sprint v]
                            | None => q !! k
                            end)).
  - intros k. by rewrite lookup_empty.
  - intros i x m r Hi IH k. unfold url.Values_Set.
    destruct (decide (i = k)) as [->|Hne].
    + by rewrite !lookup_insert_eq.
    + rewrite !lookup_insert_ne by done. apply IH.
Qed.

(** The loop that merges the extension fields: a key that is present
    keeps its value. *)
Lemma merge_extension_lookup (data ext : gmap string value) (k : string) :
  map_fold (λ k v (data : gmap string value),
              match data !! k with
              | Some _ => data
              | None => <[k := v]> data
              end) data ext !! k
    = match data !! k with
      | Some v => Some v
      | None => ext !! k
      end.
Proof.
  revert k.
  apply (map_fold_weak_ind
           (λ (r m : gmap string value),
              ∀ k, r !! k = match data !! k with
                            | Some v => Some v
                            | None => m !! k
                            end)).
  - intros k. rewrite lookup_empty. by destruct (data !! k).
  - intros i x m r Hi IH k.
    destruct (r !! i) as [y|] eqn:Hr.
    + rewrite IH. destruct (data !! k) as [v|] eqn:Hk; [done |].
      destruct (decide (i = k)) as [->|Hne].
      * rewrite IH, Hk, Hi in Hr. discriminate.
      * by rewrite lookup_insert_ne.
    + destruct (decide (i = k)) as [->|Hne].
      * rewrite !lookup_insert_eq. rewrite IH, Hi in Hr.
        by destruct (data !! k).
      * rewrite !lookup_insert_ne by done. apply IH.
Qed.

(** [GetTokenData] returns the core fields merged with the extension
    fields, the core fields first. *)
Lemma GetTokenData_lookup s ti st :
  ∃ data,
    GetTokenData s ti st = (Returns data, (extension_fields s ti st).2)
    ∧ ∀ k,
        data !! k =
          match core_token_data (Config.TokenType (Server.Config s)) ti k with
          | Some v => Some v
          | None => (extension_fields s ti st).1 !! k
          end.
Proof.
  unfold GetTokenData, extension_fields. run.
  set (core :=
         (if bool_decide (TokenInfo.GetRefresh ti ≠ "") then _ else _)
         : gmap string value).
  assert (∀ k, core !! k
               = core_token_data (Config.TokenType (Server.Config s)) ti k)
    as Hcore.
  { intros k. subst core. unfold core_token_data.
    repeat case_bool_decide; destruct_and?; simplify_map_eq;
      first [done | tauto]. }
  destruct (Server.ExtensionFieldsHandler s) as [fn|]; simpl.
  - destruct (fn ti (world st)) as [ext w]. simpl.
    eexists. split; [done |]. intros k.
    by rewrite merge_extension_lookup, Hcore.
  - exists core. split; [done |]. intros k.
    rewrite Hcore, lookup_empty. by destruct (core_token_data _ _ _).
Qed.

(** C9, as the code has it.  The data of [GetTokenData] hold the access
    token, the configured token type and the lifetime divided by one second
    and rounded toward zero, which is the floor when the lifetime is not
    negative; a non-empty scope and a non-empty refresh token are held
    under [scope] and [refresh_token].  The extension fields never replace
    one of these: they only supply the keys that are not set, among them
    [scope] and [refresh_token] when the token has none. *)
Theorem GetTokenData_spec s ti st :
  let ext := (extension_fields s ti st).1 in
  ∃ data,
    GetTokenData s ti st = (Returns data, (extension_fields s ti st).2)
    ∧ data !! "access_token" = Some (VString (TokenInfo.GetAccess ti))
    ∧ data !! "token_type"
        = Some (VString (Config.TokenType (Server.Config s)))
    ∧ data !! "expires_in"
        = Some (VInt (TokenInfo.GetAccessExpiresIn ti `quot` time_Second))
    ∧ ((0 ≤ TokenInfo.GetAccessExpiresIn ti)%Z →
       (TokenInfo.GetAccessExpiresIn ti `quot` time_Second
        = TokenInfo.GetAccessExpiresIn ti `div` time_Second)%Z)
    ∧ data !! "scope"
        = (if bool_decide (TokenInfo.GetScope ti ≠ "")
           then Some (VString (TokenInfo.GetScope ti)) else ext !! "scope")
    ∧ data !! "refresh_token"
        = (if bool_decide (TokenInfo.GetRefresh ti ≠ "")
           then Some (VString (TokenInfo.GetRefresh ti))
           else ext !! "refresh_token")
    ∧ (∀ k, k ∉ ["access_token"; "token_type"; "expires_in"; "scope";
                 "refresh_token"] → data !! k = ext !! k)
    ∧ (Server.ExtensionFieldsHandler s = None →
       (is_Some (data !! "scope") ↔ TokenInfo.GetScope ti ≠ "")
       ∧ (is_Some (data !! "refresh_token") ↔ TokenInfo.GetRefresh ti ≠ "")).
Proof.
  intros ext. destruct (GetTokenData_lookup s ti st) as (data & Hrun & Hdata).
  fold ext in Hdata.
  assert (data !! "scope"
          = (if bool_decide (TokenInfo.GetScope ti ≠ "")
             then Some (VString (TokenInfo.GetScope ti)) else ext !! "scope"))
    as Hscope.
  { rewrite Hdata. unfold core_token_data.
    repeat case_bool_decide; destruct_and?; first [done | tauto]. }
  assert (data !! "refresh_token"
          = (if bool_decide (TokenInfo.GetRefresh ti ≠ "")
             then Some (VString (TokenInfo.GetRefresh ti))
             else ext !! "refresh_token")) as Hrefresh.
  { rewrite Hdata. unfold core_token_data.
    repeat case_bool_decide; destruct_and?; first [done | tauto]. }
  exists data. split; [exact Hrun |].
  split; [by rewrite Hdata |]. split; [by rewrite Hdata |].
  split; [by rewrite Hdata |].
  split; [intros Hpos; by apply Z.quot_div_nonneg |].
  split; [exact Hscope |]. split; [exact Hrefresh |]. split.
  - intros k Hk. rewrite Hdata. unfold core_token_data.
    rewrite !not_elem_of_cons in Hk.
    destruct Hk as (? & ? & ? & ? & ? & _).
    by rewrite !bool_decide_false by tauto.
  - intros Hnone. rewrite Hscope, Hrefresh. subst ext.
    unfold extension_fields. rewrite Hnone. simpl. rewrite !lookup_empty.
    split.
    + destruct (decide (TokenInfo.GetScope ti = "")) as [Hs|Hs].
      * rewrite bool_decide_false by tauto.
        split; [by intros []%is_Some_None | done].
      * by rewrite bool_decide_true.
    + destruct (decide (TokenInfo.GetRefresh ti = "")) as [Hs|Hs].
      * rewrite bool_decide_false by tauto.
        split; [by intros []%is_Some_None | done].
      * by rewrite bool_decide_true.
Qed.

(** C8, as the code has it.  For an error that can be the key of a map,
    [GetErrorData] resolves a response, lets the response-error handler
    change it when one is configured, and returns the fields, the status
    and the header of the outcome.  An error of the
    description table resolves to its description and status without a call
    of the internal-error handler, whatever the state; with no
    response-error handler the description and the status are returned as
    they are.  For another error the response of the internal-error handler
    is taken when there is one and it carries an error; otherwise the
    error, description and status are those of [ErrServerError].  The
    status is 500 unless the status code is positive. *)
Theorem GetErrorData_spec s err st :
  hashable err = true →
  let resolved := resolved_response s err st in
  let handled := handled_response s resolved.1 resolved.2 in
  ∃ out,
    GetErrorData s err st = (Returns out, handled.2)
    ∧ renders handled.1 out
    ∧ (∀ v, Descriptions err = Some v →
         resolved
           = (mkResponse err 0 v "" (default 0%Z (StatusCodes err)) ∅, st)
         ∧ (Server.ResponseErrorHandler s = None →
            handled.2 = st
            ∧ out.1.1 !! "error_description"
                = (if bool_decide (v = "") then None else Some (VString v))
            ∧ out.1.2
                = (if bool_decide (0 < default 0 (StatusCodes err))%Z
                   then default 0%Z (StatusCodes err) else 500%Z)))
    ∧ (Descriptions err = None →
       (∀ fn re e,
          Server.InternalErrorHandler s = Some fn →
          (fn err (world st)).1 = Some re → errors.Error re = Some e →
          resolved.1 = re)
       ∧ (∀ fn re,
            Server.InternalErrorHandler s = Some fn →
            (fn err (world st)).1 = Some re → errors.Error re = None →
            resolved.1 = as_server_error re)
       ∧ (Server.InternalErrorHandler s = None
          ∨ (∃ fn, Server.InternalErrorHandler s = Some fn
                   ∧ (fn err (world st)).1 = None) →
          resolved.1 = as_server_error zeroResponse)).
Proof.
  intros Hkey resolved handled.
  assert (∃ out, GetErrorData s err st = (Returns out, handled.2)
                 ∧ renders handled.1 out) as (out & Hrun & Hout).
  { subst handled resolved.
    unfold GetErrorData, resolved_response, handled_response, logged. run.
    rewrite Hkey. simpl.
    assert (∀ re,
      renders re
        (let data : gmap string value := ∅ in
         let data :=
           match errors.Error re with
           | Some err => <["error" := VString (ErrorText err)]> data
           | None => data
           end in
         let data :=
           if bool_decide (ErrorCode re ≠ 0%Z)
           then <["error_code" := VInt (ErrorCode re)]> data else data in
         let data :=
           if bool_decide (Description re ≠ "")
           then <["error_description" := VString (Description re)]> data
           else data in
         let data :=
           if bool_decide (URI re ≠ "")
           then <["error_uri" := VString (URI re)]> data else data in
         (data,
          if bool_decide (0 < StatusCode re)%Z then StatusCode re else 500%Z,
          errors.Header re))) as Hrender.
    { intros re. unfold renders. simpl.
      split; [| done]. intros k.
      destruct (errors.Error re);
        repeat case_bool_decide; simplify_map_eq; done. }
    assert (∀ re out st',
      (let data : gmap string value := ∅ in
       let data :=
         match errors.Error re with
         | Some err => <["error" := VString (ErrorText err)]> data
         | None => data
         end in
       let data :=
         if bool_decide (ErrorCode re ≠ 0%Z)
         then <["error_code" := VInt (ErrorCode re)]> data else data in
       let data :=
         if bool_decide (Description re ≠ "")
         then <["error_description" := VString (Description re)]> data
         else data in
       let data :=
         if bool_decide (URI re ≠ "")
         then <["error_uri" := VString (URI re)]> data else data in
       (data,
        if bool_decide (0 < StatusCode re)%Z then StatusCode re else 500%Z,
        errors.Header re)) = out →
      ∃ out', (Returns out, st') = (Returns out', st' : St World)
              ∧ renders re out') as Hdone.
    { intros re out st' <-. eexists. split; [done |]. apply Hrender. }
    destruct (Descriptions err) as [v|]; simpl.
    - destruct (Server.ResponseErrorHandler s) as [fn|]; simpl.
      + destruct (fn _ _) as [re w]. simpl. by apply Hdone.
      + by apply Hdone.
    - destruct (Server.InternalErrorHandler s) as [fi|]; simpl.
      + destruct (fi err (world st)) as [[re|] w]; simpl.
        * destruct (errors.Error re) as [e|] eqn:He; simpl;
            (destruct (Server.ResponseErrorHandler s) as [fn|]; simpl;
             [destruct (fn _ _) as [re' w']; simpl |]);
            apply Hdone; simpl; by rewrite ?He.
        * destruct (Server.ResponseErrorHandler s) as [fn|]; simpl;
            [destruct (fn _ _) as [re' w']; simpl |];
            by apply Hdone.
      + destruct (Server.ResponseErrorHandler s) as [fn|]; simpl;
          [destruct (fn _ _) as [re' w']; simpl |];
          by apply Hdone. }
  exists out. split; [exact Hrun |]. split; [exact Hout |]. split.
  - intros v Hv.
    assert (resolved
            = (mkResponse err 0 v "" (default 0%Z (StatusCodes err)) ∅, st))
      as Hres.
    { subst resolved. unfold resolved_response. by rewrite Hv. }
    split; [exact Hres |]. intros Hnone.
    subst handled. unfold handled_response in *.
    rewrite Hnone, Hres in *. simpl in *.
    split; [done |]. destruct Hout as (Hfields & Hstatus & _).
    split; [| exact Hstatus]. rewrite Hfields. simpl. done.
  - intros Hnot. subst resolved. unfold resolved_response. rewrite Hnot.
    split; [| split].
    + intros fn re e -> Hre He. simpl. by rewrite Hre, He.
    + intros fn re -> Hre He. simpl. by rewrite Hre, He.
    + intros [-> | (fn & -> & Hre)]; simpl; [done |]. by rewrite Hre.
Qed.

(** The parameters of [GetRedirectURI] are the collected ones. *)
Lemma collected_params_intro (req : AuthorizeRequest.t) (u : url.URL)
    (data : gmap string value) :
  collected_params req u data
    (map_fold (λ k v q, url.Values_Set k (Sprint v) q)
       (if bool_decide (AuthorizeRequest.State req ≠ "")
        then url.Values_Set "state" (AuthorizeRequest.State req)
               (if strings_Contains (AuthorizeRequest.RedirectURI req) "#"
                then ∅ else url.URL_Query u)
        else if strings_Contains (AuthorizeRequest.RedirectURI req) "#"
             then ∅ else url.URL_Query u)
       data).
Proof.
  intros k. rewrite set_params_lookup.
  destruct (data !! k) as [v|]; [done |].
  unfold url.Values_Set.
  destruct (decide (AuthorizeRequest.State req = "")) as [Hs|Hs].
  - rewrite !bool_decide_false by tauto.
    destruct (strings_Contains _ _); [by rewrite lookup_empty | done].
  - rewrite (bool_decide_true (_ ≠ _)) by done.
    destruct (decide (k = "state")) as [->|Hk].
    + rewrite lookup_insert_eq. by rewrite bool_decide_true.
    + rewrite lookup_insert_ne by done.
      rewrite bool_decide_false by tauto.
      destruct (strings_Contains _ _); [by rewrite lookup_empty | done].
Qed.

(** C6, as the code has it.  For the response type [Code] and a redirect
    URI that parses, the collected parameters hold every key of the data,
    and the state of the request when it is not empty and the data have no
    key [state]; each of them shows up in the encoded parameters.  The
    result is the URL with the encoded parameters as its query, or, when
    the redirect URI contains [#], the redirect URI followed by [?] and the
    encoded parameters, which then hold nothing of the query of the URI. *)
Theorem GetRedirectURI_code s req data u :
  url.Parse (AuthorizeRequest.RedirectURI req) = Ok u →
  AuthorizeRequest.ResponseType req = Code →
  ∃ q,
    collected_params req u data q
    ∧ GetRedirectURI s req data =
        Ok (if strings_Contains (AuthorizeRequest.RedirectURI req) "#"
            then AuthorizeRequest.RedirectURI req +:+ "?" +:+ url.Encode q
            else url.URL_String (url.set_RawQuery (url.Encode q) u))
    ∧ (∀ k v, data !! k = Some v →
         q !! k = Some [Sprint v]
         ∧ ∃ pre post,
             url.Encode q =
               pre +:+ (url.QueryEscape k +:+ "=" +:+
                        url.QueryEscape (Sprint v)) +:+ post)
    ∧ (AuthorizeRequest.State req ≠ "" → data !! "state" = None →
         q !! "state" = Some [AuthorizeRequest.State req]
         ∧ ∃ pre post,
             url.Encode q =
               pre +:+ (url.QueryEscape "state" +:+ "=" +:+
                        url.QueryEscape (AuthorizeRequest.State req))
                   +:+ post)
    ∧ (strings_Contains (AuthorizeRequest.RedirectURI req) "#" = true →
       ∀ k, data !! k = None →
            k ≠ "state" ∨ AuthorizeRequest.State req = "" →
            q !! k = None).
Proof.
  intros Hparse Hcode.
  eexists. split; [apply (collected_params_intro req u data) |].
  set (q := map_fold _ _ data).
  pose proof (collected_params_intro req u data) as Hq. fold q in Hq.
  split; [| split; [| split]].
  - unfold GetRedirectURI. rewrite Hparse. fold q.
    rewrite Hcode, (bool_decide_true (Code = Code)) by done.
    by destruct (strings_Contains _ _).
  - intros k v Hk.
    assert (q !! k = Some [Sprint v]) as Hqk by (by rewrite Hq, Hk).
    split; [exact Hqk |].
    apply (urlfacts.encode_with_contains url.QueryEscape q k (Sprint v)
             [Sprint v] Hqk). by left.
  - intros Hstate Hnone.
    assert (q !! "state" = Some [AuthorizeRequest.State req]) as Hqk.
    { rewrite Hq, Hnone. by rewrite bool_decide_true. }
    split; [exact Hqk |].
    apply (urlfacts.encode_with_contains url.QueryEscape q "state"
             (AuthorizeRequest.State req) [AuthorizeRequest.State req] Hqk).
    by left.
  - intros Hfrag k Hk Hstate. rewrite Hq, Hk, Hfrag.
    by rewrite bool_decide_false by tauto.
Qed.

Lemma GetAuthorizeData_token s ti st :
  Code ≠ Token → GetAuthorizeData s Token ti st = GetTokenData s ti st.
Proof.
  intros Hne. destruct (GetTokenData_lookup s ti st) as (data & Hrun & _).
  unfold GetAuthorizeData. run.
  rewrite (bool_decide_false (Token = Code)) by done. by rewrite Hrun.
Qed.

(** C7.  For the response type [Token] and a redirect URI that parses,
    the result is the URL with an empty query and with the unescaped
    encoding of the collected parameters as its fragment; the unescaping
    cannot fail, and gives the raw pairs.  With the data of an implicit
    grant the parameters hold the access token, the token type and the
    lifetime, and the fragment contains the access token. *)
Theorem GetRedirectURI_token s req data u :
  Code ≠ Token →
  url.Parse (AuthorizeRequest.RedirectURI req) = Ok u →
  AuthorizeRequest.ResponseType req = Token →
  ∃ q fragment,
    collected_params req u data q
    ∧ url.QueryUnescape (url.Encode q) = Ok fragment
    ∧ fragment = url.encode_with id q
    ∧ GetRedirectURI s req data =
        Ok (url.URL_String (url.set_Fragment fragment (url.set_RawQuery "" u)))
    ∧ url.RawQuery (url.set_Fragment fragment (url.set_RawQuery "" u)) = ""
    ∧ url.Fragment (url.set_Fragment fragment (url.set_RawQuery "" u))
        = fragment
    ∧ (∀ ti st st',
         GetAuthorizeData s Token ti st = (Returns data, st') →
         q !! "access_token" = Some [TokenInfo.GetAccess ti]
         ∧ q !! "token_type" = Some [Config.TokenType (Server.Config s)]
         ∧ q !! "expires_in"
             = Some [pretty (TokenInfo.GetAccessExpiresIn ti
                             `quot` time_Second)%Z]
         ∧ ∃ pre post,
             fragment =
               pre +:+ ("access_token" +:+ "=" +:+ TokenInfo.GetAccess ti)
                   +:+ post).
Proof.
  intros Hne Hparse Htoken.
  pose proof (collected_params_intro req u data) as Hq.
  set (q := map_fold _ _ data) in Hq.
  exists q, (url.encode_with id q).
  split; [exact Hq |].
  split; [apply urlfacts.QueryUnescape_Encode |].
  split; [done |]. split; [| split; [done | split; [done |]]].
  - unfold GetRedirectURI. rewrite Hparse. fold q.
    rewrite Htoken, (bool_decide_false (Token = Code)) by done.
    rewrite (bool_decide_true (Token = Token)) by done.
    by rewrite urlfacts.QueryUnescape_Encode.
  - intros ti st st' Hdata.
    rewrite GetAuthorizeData_token in Hdata by done.
    destruct (GetTokenData_lookup s ti st) as (data' & Hrun & Hlookup).
    rewrite Hrun in Hdata. injection Hdata as -> _.
    assert (q !! "access_token" = Some [TokenInfo.GetAccess ti]) as Ha.
    { by rewrite Hq, Hlookup. }
    split; [exact Ha |].
    split; [by rewrite Hq, Hlookup |]. split; [by rewrite Hq, Hlookup |].
    apply (urlfacts.encode_with_contains id q "access_token"
             (TokenInfo.GetAccess ti) [TokenInfo.GetAccess ti] Ha).
    by left.
Qed.

End Builders.

(** ** The properties on the concrete instance *)

Section Instances.

#[local] Existing Instance Example.constants.
#[local] Existing Instance Example.tables.
#[local] Existing Instance Example.package.

Lemma Example_grant_types_distinct :
  NoDup [AuthorizationCode; PasswordCredentials; ClientCredentials;
         Refreshing].
Proof. apply (bool_decide_unpack _). vm_compute. exact I. Defined.

(** A grant type outside the allow-list. *)
Lemma GetAccessToken_grant_type_not_allowed_witness :
  ("implicit" ∉ Config.AllowedGrantTypes (Server.Config Example.server))
  ∧ (∃ err,
       GetAccessToken Example.server "implicit" Example.code_request
         Example.st0 = (Returns (Err err), Example.st0)
       ∧ Cause err = ErrUnauthorizedClient).
Proof.
  assert ("implicit" ∉ Config.AllowedGrantTypes
            (Server.Config Example.server)) as Hnot.
  { apply (bool_decide_unpack _). vm_compute. exact I. }
  split; [exact Hnot |].
  exact (GetAccessToken_grant_type_not_allowed Example.server "implicit"
           Example.code_request Example.st0 Hnot).
Defined.


(** The authorization-code grant on the example manager. *)
Lemma GetAccessToken_authorization_code_witness :
  GetAccessToken Example.server AuthorizationCode Example.code_request
    Example.st0
  = (Returns (Ok Example.token1),
     mkSt 1%nat [call_GenerateAccessToken AuthorizationCode
                   Example.code_request]).
Proof.
  assert (AuthorizationCode ∈ Config.AllowedGrantTypes
            (Server.Config Example.server)) as Hallowed.
  { apply (bool_decide_unpack _). vm_compute. exact I. }
  exact (proj1 (GetAccessToken_authorization_code Example.server
                  Example.code_request Example.st0 Example.st0 Hallowed
                  eq_refl) Example.token1 eq_refl).
Defined.

(** An authorization request for the implicit flow on a server that allows
    the code flow only: validation fails and the request handler returns
    the error without a call. *)
Lemma ValidationAuthorizeRequest_witness :
  ValidationAuthorizeRequest Example.code_only
    (Example.form "GET" [("client_id", "c1"); ("response_type", "token")])
  = Err ErrUnauthorizedClient
  ∧ HandleAuthorizeRequest Example.header_set Example.write_header
      Example.code_only
      (Example.form "GET" [("client_id", "c1"); ("response_type", "token")])
      Example.st0
    = (Returns (Some ErrUnauthorizedClient), Example.st0).
Proof.
  destruct (ValidationAuthorizeRequest_spec Example.header_set
              Example.write_header Example.code_only
              (Example.form "GET" [("client_id", "c1");
                                   ("response_type", "token")]))
    as (_ & _ & Hnot & _ & Hhandle).
  assert (ValidationAuthorizeRequest Example.code_only
            (Example.form "GET" [("client_id", "c1");
                                 ("response_type", "token")])
          = Err ErrUnauthorizedClient) as Herr.
  { apply Hnot.
    - by left.
    - discriminate.
    - discriminate.
    - by right.
    - apply (bool_decide_unpack _). vm_compute. exact I. }
  split; [exact Herr |]. exact (Hhandle _ Example.st0 Herr).
Defined.

(** The password grant on a server without a permission-check handler. *)
Lemma ValidationTokenRequest_nil_CheckUserPermHandler_witness :
  Server.CheckUserPermHandler
    (Example.with_PasswordAuthorizationHandler Example.accept_user) = None
  ∧ ValidationTokenRequest
      (Example.with_PasswordAuthorizationHandler Example.accept_user)
      Example.password_request Example.st0
    = (Panics,
       mkSt 0%nat [call_ClientInfoHandler Example.password_request;
                   call_PasswordAuthorizationHandler "u" "p"]).
Proof.
  split; [reflexivity |].
  apply (ValidationTokenRequest_nil_CheckUserPermHandler
           (Example.with_PasswordAuthorizationHandler Example.accept_user)
           Example.password_request Example.st0 Example.basic_handler
           Example.accept_user ("c1", "secret") "u1" 0%nat 0%nat);
    first [reflexivity | discriminate].
Defined.

(** The bearer token of the header. *)
Lemma BearerAuth_witness :
  BearerAuth Example.server
    (http.mkRequest "GET" {[ "Authorization" := ["Bearer tok1"] ]} ∅)
  = ("tok1", true).
Proof.
  exact (proj1 (BearerAuth_spec Example.server
                  (http.mkRequest "GET"
                     {[ "Authorization" := ["Bearer tok1"] ]} ∅))
           "tok1" eq_refl).
Defined.

(** The code flow of the scenario: the code and the state end up in the
    query. *)
Lemma GetRedirectURI_code_witness :
  GetRedirectURI Example.server
    (Example.authorize "code" "https://app/cb" "xyz")
    {[ "code" := VString "abc123" ]}
  = Ok "https://app/cb?code=abc123&state=xyz".
Proof.
  assert (url.Parse "https://app/cb"
          = Ok (url.mkURL "https" "" None "app" "/cb" "" false false "" "" ""))
    as Hparse by (vm_compute; reflexivity).
  destruct (GetRedirectURI_code (consts := Example.constants)
              (net_url := Example.package) Example.server
              (Example.authorize "code" "https://app/cb" "xyz")
              {[ "code" := VString "abc123" ]} _ Hparse eq_refl)
    as (q & Hq & Hrun & _).
  rewrite Hrun. f_equal.
  assert (q = <["state" := ["xyz"]]> {[ "code" := ["abc123"] ]}) as ->.
  { apply map_eq. intros k. rewrite (Hq k).
    destruct (decide (k = "code")) as [->|Hcode]; [reflexivity |].
    rewrite lookup_singleton_ne by done.
    destruct (decide (k = "state")) as [->|Hstate]; [reflexivity |].
    rewrite bool_decide_false by tauto.
    by rewrite lookup_insert_ne, lookup_singleton_ne. }
  reflexivity.
Defined.

(** The implicit flow: the token data end up in the fragment and the query
    is empty. *)
Lemma GetRedirectURI_token_witness :
  ∃ fragment,
    GetRedirectURI Example.server
      (Example.authorize "token" "https://app/cb?x=1" "")
      {[ "access_token" := VString "tok1" ]}
    = Ok ("https://app/cb#" +:+ fragment)
    ∧ url.QueryUnescape
        (url.Encode (<["access_token" := ["tok1"]]> {[ "x" := ["1"] ]}))
      = Ok fragment.
Proof.
  assert (url.Parse "https://app/cb?x=1"
          = Ok (url.mkURL "https" "" None "app" "/cb" "" false false "x=1"
                  "" ""))
    as Hparse by (vm_compute; reflexivity).
  destruct (GetRedirectURI_token (consts := Example.constants)
              (net_url := Example.package) Example.server
              (Example.authorize "token" "https://app/cb?x=1" "")
              {[ "access_token" := VString "tok1" ]} _
              ltac:(discriminate) Hparse eq_refl)
    as (q & fragment & Hq & Hfragment & -> & Hrun & _).
  assert (q = <["access_token" := ["tok1"]]> {[ "x" := ["1"] ]}) as ->.
  { apply map_eq. intros k. rewrite (Hq k).
    destruct (decide (k = "access_token")) as [->|Haccess]; [reflexivity |].
    rewrite lookup_singleton_ne by done.
    rewrite bool_decide_false by (intros [_ Hstate]; by apply Hstate).
    rewrite lookup_insert_ne by done.
    destruct (decide (k = "x")) as [->|Hx]; [reflexivity |].
    rewrite lookup_singleton_ne by done.
    change (Example.parse_query "x=1" !! k = None).
    assert (Example.parse_query "x=1" = {[ "x" := ["1"] ]}) as ->
      by reflexivity.
    by rewrite lookup_singleton_ne. }
  eexists. split; [exact Hrun | exact Hfragment].
Defined.

(** An error of the table on the server [NewServer] builds. *)
Lemma GetErrorData_witness :
  ∃ data,
    GetErrorData Example.server (Some ErrInvalidScope) Example.st0
    = (Returns (data, 400%Z, ∅), Example.st0)
    ∧ data !! "error_description"
      = Some (VString "The requested scope is invalid").
Proof.
  destruct (GetErrorData_spec Example.server (Some ErrInvalidScope)
              Example.st0 eq_refl) as (out & Hrun & Hout & Htable & _).
  destruct (Htable _ eq_refl) as [_ Hplain].
  destruct (Hplain eq_refl) as (_ & Hdescription & Hstatus).
  destruct Hout as (_ & _ & Hheader).
  destruct out as [[data status] header]. simpl in *.
  exists data. subst status header. split; [exact Hrun | exact Hdescription].
Defined.

(** The token data of the example token. *)
Lemma GetTokenData_witness :
  ∃ data,
    GetTokenData Example.server Example.token1 Example.st0
    = (Returns data, Example.st0)
    ∧ data !! "expires_in" = Some (VInt 7200)
    ∧ data !! "scope" = None.
Proof.
  destruct (GetTokenData_spec Example.server Example.token1 Example.st0)
    as (data & Hrun & _ & _ & Hexpires & _ & Hscope & _).
  exists data. split; [exact Hrun |]. split; [exact Hexpires | exact Hscope].
Defined.

(** A redirect URI with a fragment delimiter: the parameters are appended
    to the string as it is, and the query it had is not encoded again. *)
Lemma GetRedirectURI_fragment_example :
  GetRedirectURI Example.server
    (Example.authorize "code" "https://app/cb?x=1#frag" "xyz")
    {[ "code" := VString "abc123" ]}
  = Ok "https://app/cb?x=1#frag?code=abc123&state=xyz".
Proof. vm_compute. reflexivity. Qed.

(** *** Where the code departs from the specification *)

(** C6.  The state of the request is not empty, yet the state parameter of
    the result is the one of the data: the data are set after the state. *)
Lemma GetRedirectURI_state_of_data :
  GetRedirectURI Example.server
    (Example.authorize "code" "https://app/cb" "xyz")
    {[ "state" := VString "other" ]}
  = Ok "https://app/cb?state=other"
  ∧ AuthorizeRequest.State (Example.authorize "code" "https://app/cb" "xyz")
    = "xyz".
Proof. split; [vm_compute |]; reflexivity. Qed.

(** C4.  A response type that is not empty and not in the allow-list, on
    a request with a method and a client: the validation answers
    [ErrUnsupportedResponseType], not [ErrUnauthorizedClient], because the
    response type is neither [Code] nor [Token]. *)
Lemma ValidationAuthorizeRequest_unknown_response_type :
  ValidationAuthorizeRequest Example.server
    (Example.form "GET" [("client_id", "c1"); ("response_type", "device")])
  = Err ErrUnsupportedResponseType
  ∧ http.FormValue
      (Example.form "GET" [("client_id", "c1"); ("response_type", "device")])
      "response_type" = "device"
  ∧ "device" ∉ Config.AllowedResponseTypes (Server.Config Example.server).
Proof.
  split; [vm_compute; reflexivity |]. split; [vm_compute; reflexivity |].
  apply (bool_decide_unpack _). vm_compute. exact I.
Qed.

(** C8.  The internal-error handler returns a response without an error:
    its description and status are not used, those of [ErrServerError]
    are.  And a response-error handler changes the description of an error
    of the table. *)
Lemma GetErrorData_response_not_used :
  (match GetErrorData (Example.with_InternalErrorHandler
                         Example.internal_custom)
           (Some (errorString "boom")) Example.st0 with
   | (Returns (data, status, _), _) =>
       (data !! "error_description", status)
   | _ => (None, 0%Z)
   end = (Some (VString "Unexpected condition"), 500%Z)
   ∧ Descriptions (Some (errorString "boom")) = None
   ∧ Example.internal_custom (Some (errorString "boom")) 0%nat
     = (Some (mkResponse None 0 "custom" "" 418 ∅), 0%nat))
  ∧ (match GetErrorData (Example.with_ResponseErrorHandler
                           Example.rewrite_description)
             (Some ErrInvalidScope) Example.st0 with
     | (Returns (data, _, _), _) => data !! "error_description"
     | _ => None
     end = Some (VString "rewritten")
     ∧ Descriptions (Some ErrInvalidScope)
       = Some "The requested scope is invalid").
Proof. repeat split; vm_compute; reflexivity. Qed.

(** C9.  A lifetime of minus one nanosecond gives zero seconds, not the
    floor, which is minus one.  And a token without a scope gets a [scope]
    key from the extension fields. *)
Lemma GetTokenData_not_floor_and_scope_of_extension :
  (match GetTokenData Example.server Example.expired_token Example.st0 with
   | (Returns data, _) => data !! "expires_in"
   | _ => None
   end = Some (VInt 0)
   ∧ (TokenInfo.GetAccessExpiresIn Example.expired_token `div` time_Second
      = -1)%Z)
  ∧ (match GetTokenData (Example.with_ExtensionFieldsHandler
                           Example.extension_scope)
             Example.token1 Example.st0 with
     | (Returns data, _) => data !! "scope"
     | _ => None
     end = Some (VString "all")
     ∧ TokenInfo.GetScope Example.token1 = "").
Proof. repeat split; vm_compute; reflexivity. Qed.

End Instances.

(** ** Further properties of the grant dispatch *)

Section MoreGrants.

Context {World : Type}.
Context {consts : oauth2.Constants}.

Implicit Types (s : Server.t World) (st : St World).

(** When the client-authorization step of [GetAuthorizeToken] passes, the
    body goes on in the state after the step. *)
Lemma client_allowed_passes s clientID gt st st1 :
  client_allowed s clientID gt st = Some st1 →
  match Server.ClientAuthorizedHandler s with
  | Some fn =>
      r <- invoke (call_ClientAuthorizedHandler clientID gt)
                  (fn clientID gt) ;;
      match r with
      | Err err => ret (Err err)
      | Ok allowed => when (negb allowed) (ret (Err ErrUnauthorizedClient))
      end
  | None => next tt
  end st = (Next tt, st1 : St World)
         :> flow (result TokenInfo.t) unit * St World.
Proof.
  unfold client_allowed. intros Hauth.
  destruct (Server.ClientAuthorizedHandler s) as [fn|]; run.
  - destruct (fn _ _ _) as [[[]|] w]; try discriminate.
    by injection Hauth as <-.
  - by injection Hauth as <-.
Qed.

(** The same for the client-scope step, which [GetAuthorizeToken] and
    [GetAccessToken] share. *)
Lemma scope_allowed_passes s clientID scope st st1 :
  scope_allowed s clientID scope st = Some st1 →
  match Server.ClientScopeHandler s with
  | Some fn =>
      r <- invoke (call_ClientScopeHandler clientID scope)
                  (fn clientID scope) ;;
      match r with
      | Err err => ret (Err err)
      | Ok allowed => when (negb allowed) (ret (Err ErrInvalidScope))
      end
  | None => next tt
  end st = (Next tt, st1 : St World)
         :> flow (result TokenInfo.t) unit * St World.
Proof.
  unfold scope_allowed. intros Hauth.
  destruct (Server.ClientScopeHandler s) as [fn|]; run.
  - destruct (fn _ _ _) as [[[]|] w]; try discriminate.
    by injection Hauth as <-.
  - by injection Hauth as <-.
Qed.

(** X1.  [GetAuthorizeToken] asks the client-authorization handler about
    the implicit grant when the response type is [Token] and about the
    authorization-code grant for any other response type.  When the handler
    refuses, the result is [ErrUnauthorizedClient]; when it fails, its
    error is returned as it is.  In both cases the handler is the only
    call: neither the scope handler nor the token manager is reached. *)
Theorem GetAuthorizeToken_client_refused s req fn st :
  Server.ClientAuthorizedHandler s = Some fn →
  let answer :=
    fn (AuthorizeRequest.ClientID req) (authorize_grant req) (world st) in
  let st1 :=
    logged st (call_ClientAuthorizedHandler (AuthorizeRequest.ClientID req)
                 (authorize_grant req)) answer.2 in
  (answer.1 = Ok false →
     GetAuthorizeToken s req st = (Returns (Err ErrUnauthorizedClient), st1))
  ∧ (∀ e, answer.1 = Err e →
       GetAuthorizeToken s req st = (Returns (Err e), st1)).
Proof.
  intros Hfn answer st1. subst answer st1.
  unfold GetAuthorizeToken, authorize_grant. rewrite Hfn. run.
  destruct (fn _ _ _) as [[allowed|e] w]; simpl.
  - split; [by intros [= ->] | discriminate].
  - split; [discriminate | by intros ? [= <-]].
Qed.

(** X2.  Once the client is authorized, a refusal of the client-scope
    handler makes [GetAuthorizeToken] fail with [ErrInvalidScope] and an
    error of the handler is returned as it is; the log ends with the
    handler, so no token was generated. *)
Theorem GetAuthorizeToken_scope_refused s req fn st st1 :
  client_allowed s (AuthorizeRequest.ClientID req) (authorize_grant req) st
    = Some st1 →
  Server.ClientScopeHandler s = Some fn →
  let answer :=
    fn (AuthorizeRequest.ClientID req) (AuthorizeRequest.Scope req)
       (world st1) in
  let st2 :=
    logged st1 (call_ClientScopeHandler (AuthorizeRequest.ClientID req)
                  (AuthorizeRequest.Scope req)) answer.2 in
  (answer.1 = Ok false →
     GetAuthorizeToken s req st = (Returns (Err ErrInvalidScope), st2))
  ∧ (∀ e, answer.1 = Err e →
       GetAuthorizeToken s req st = (Returns (Err e), st2)).
Proof.
  intros Hauth Hfn answer st2. subst answer st2.
  unfold GetAuthorizeToken, func.
  erewrite bind_next; [| by apply client_allowed_passes].
  rewrite Hfn. run.
  destruct (fn _ _ _) as [[allowed|e] w]; simpl.
  - split; [by intros [= ->] | discriminate].
  - split; [discriminate | by intros ? [= <-]].
Qed.

(** X3.  Once the client and the scope are allowed, [GetAuthorizeToken]
    calls [GenerateAuthToken] with the response type of the request and a
    token request that carries its client, user, redirect URI, scope,
    lifetime and HTTP request and nothing else, and returns what the
    manager returns, a token or an error, unchanged. *)
Theorem GetAuthorizeToken_delegates s req st st1 st2 :
  client_allowed s (AuthorizeRequest.ClientID req) (authorize_grant req) st
    = Some st1 →
  scope_allowed s (AuthorizeRequest.ClientID req) (AuthorizeRequest.Scope req)
    st1 = Some st2 →
  let generate :=
    Manager.GenerateAuthToken (Server.Manager s)
      (AuthorizeRequest.ResponseType req) (authorize_token_request req)
      (world st2) in
  GetAuthorizeToken s req st =
    (Returns generate.1,
     logged st2 (call_GenerateAuthToken (AuthorizeRequest.ResponseType req)
                   (authorize_token_request req)) generate.2).
Proof.
  intros Hauth Hscope generate. subst generate.
  unfold GetAuthorizeToken, func.
  erewrite bind_next; [| by apply client_allowed_passes].
  erewrite bind_next; [| by apply scope_allowed_passes].
  run. unfold authorize_token_request.
  by destruct (Manager.GenerateAuthToken _ _ _ _).
Qed.

(** X4.  For an allowed grant type, a refusal of the client-authorization
    handler makes [GetAccessToken] fail with an error whose root cause is
    [ErrUnauthorizedClient], and an error of the handler is returned
    wrapped, with its root cause kept.  The handler is the only call, for
    every grant type. *)
Theorem GetAccessToken_client_refused s gt tgr fn st :
  gt ∈ Config.AllowedGrantTypes (Server.Config s) →
  Server.ClientAuthorizedHandler s = Some fn →
  let answer := fn (TokenGenerateRequest.ClientID tgr) gt (world st) in
  let st1 :=
    logged st (call_ClientAuthorizedHandler
                 (TokenGenerateRequest.ClientID tgr) gt) answer.2 in
  (answer.1 = Ok false →
     ∃ err, GetAccessToken s gt tgr st = (Returns (Err err), st1)
            ∧ Cause err = ErrUnauthorizedClient)
  ∧ (∀ e, answer.1 = Err e →
       ∃ err, GetAccessToken s gt tgr st = (Returns (Err err), st1)
              ∧ Cause err = Cause e).
Proof.
  intros Hallowed Hfn answer st1. subst answer st1.
  apply CheckGrantType_allowed in Hallowed.
  unfold GetAccessToken. rewrite Hallowed, Hfn. run.
  destruct (fn _ _ _) as [[allowed|e] w]; simpl.
  - split; [| discriminate]. intros [= ->]. by eexists.
  - split; [discriminate |]. intros ? [= <-]. by eexists.
Qed.

(** X5.  The password and client-credentials grants, once the grant type
    is allowed and the client authorized.  A refusal of the client-scope
    handler gives [ErrInvalidScope] and an error of the handler is returned
    as it is, without a call of the manager.  When the scope is allowed the
    manager's [GenerateAccessToken] is called and its result is returned
    unchanged: an error of the manager is neither translated nor
    wrapped. *)
Theorem GetAccessToken_password_client_credentials s gt tgr st st1 :
  gt = PasswordCredentials ∨ gt = ClientCredentials →
  gt ≠ AuthorizationCode →
  gt ∈ Config.AllowedGrantTypes (Server.Config s) →
  client_authorized s gt tgr st = Some st1 →
  (∀ fn, Server.ClientScopeHandler s = Some fn →
     let answer :=
       fn (TokenGenerateRequest.ClientID tgr) (TokenGenerateRequest.Scope tgr)
          (world st1) in
     let st2 :=
       logged st1 (call_ClientScopeHandler (TokenGenerateRequest.ClientID tgr)
                     (TokenGenerateRequest.Scope tgr)) answer.2 in
     (answer.1 = Ok false →
        GetAccessToken s gt tgr st = (Returns (Err ErrInvalidScope), st2))
     ∧ (∀ e, answer.1 = Err e →
          GetAccessToken s gt tgr st = (Returns (Err e), st2)))
  ∧ (∀ st2,
       scope_allowed s (TokenGenerateRequest.ClientID tgr)
         (TokenGenerateRequest.Scope tgr) st1 = Some st2 →
       let generate :=
         Manager.GenerateAccessToken (Server.Manager s) gt tgr (world st2) in
       GetAccessToken s gt tgr st =
         (Returns generate.1,
          logged st2 (call_GenerateAccessToken gt tgr) generate.2)).
Proof.
  intros Hgt Hne Hallowed Hauth.
  apply CheckGrantType_allowed in Hallowed.
  assert (bool_decide (gt = PasswordCredentials)
          || bool_decide (gt = ClientCredentials) = true) as Hbranch.
  { apply orb_true_iff. rewrite !bool_decide_eq_true. exact Hgt. }
  split.
  - intros fn Hfn answer st2. subst answer st2.
    unfold GetAccessToken, func.
    erewrite bind_next; [| by rewrite Hallowed].
    erewrite bind_next; [| by apply client_authorized_passes].
    rewrite (bool_decide_false (gt = AuthorizationCode)) by done.
    rewrite Hbranch, Hfn. run.
    destruct (fn _ _ _) as [[allowed|e] w]; simpl.
    + split; [by intros [= ->] | discriminate].
    + split; [discriminate | by intros ? [= <-]].
  - intros st2 Hscope generate. subst generate.
    unfold GetAccessToken, func.
    erewrite bind_next; [| by rewrite Hallowed].
    erewrite bind_next; [| by apply client_authorized_passes].
    rewrite (bool_decide_false (gt = AuthorizationCode)) by done.
    rewrite Hbranch.
    erewrite bind_next; [| by apply scope_allowed_passes].
    run. by destruct (Manager.GenerateAccessToken _ _ _ _).
Qed.

(** X6.  A grant type of the allow-list that is none of the four grant
    types of the dispatch is refused with [ErrUnsupportedGrantType] after
    the client-authorization step, without a call of the manager. *)
Theorem GetAccessToken_unsupported_grant_type s gt tgr st st1 :
  gt ∉ [AuthorizationCode; PasswordCredentials; ClientCredentials;
        Refreshing] →
  gt ∈ Config.AllowedGrantTypes (Server.Config s) →
  client_authorized s gt tgr st = Some st1 →
  GetAccessToken s gt tgr st = (Returns (Err ErrUnsupportedGrantType), st1).
Proof.
  intros Hnone Hallowed Hauth.
  apply CheckGrantType_allowed in Hallowed.
  apply not_elem_of_cons in Hnone as [Hn1 Hnone].
  apply not_elem_of_cons in Hnone as [Hn2 Hnone].
  apply not_elem_of_cons in Hnone as [Hn3 Hnone].
  apply not_elem_of_cons in Hnone as [Hn4 _].
  unfold GetAccessToken, func.
  erewrite bind_next; [| by rewrite Hallowed].
  erewrite bind_next; [| by apply client_authorized_passes].
  by rewrite !bool_decide_false by done.
Qed.

(** X7.  The refreshing grant without a scope check, that is, with an
    empty scope or without a refreshing-scope handler: the refresh token
    is not loaded, [RefreshAccessToken] is the only call of the manager,
    and its invalid and expired refresh-token errors are reported as
    [ErrInvalidGrant]. *)
Theorem GetAccessToken_refreshing_unchecked s tgr st st1 :
  NoDup [AuthorizationCode; PasswordCredentials; ClientCredentials;
         Refreshing] →
  Refreshing ∈ Config.AllowedGrantTypes (Server.Config s) →
  client_authorized s Refreshing tgr st = Some st1 →
  TokenGenerateRequest.Scope tgr = ""
  ∨ Server.RefreshingScopeHandler s = None →
  let refresh :=
    Manager.RefreshAccessToken (Server.Manager s) tgr (world st1) in
  GetAccessToken s Refreshing tgr st =
    (Returns (match refresh.1 with
              | Ok ti => Ok ti
              | Err e => Err (as_invalid_grant e)
              end),
     logged st1 (call_RefreshAccessToken tgr) refresh.2).
Proof.
  intros Hdistinct Hallowed Hauth Hunchecked refresh. subst refresh.
  apply CheckGrantType_allowed in Hallowed.
  assert (Refreshing ≠ AuthorizationCode ∧ Refreshing ≠ PasswordCredentials
          ∧ Refreshing ≠ ClientCredentials) as (Hne1 & Hne2 & Hne3).
  { apply NoDup_cons in Hdistinct as [Ha Hdistinct].
    apply NoDup_cons in Hdistinct as [Hp Hdistinct].
    apply NoDup_cons in Hdistinct as [Hc _].
    repeat split; intros Heq;
      [apply Ha | apply Hp | apply Hc]; rewrite <- Heq; repeat constructor. }
  unfold GetAccessToken, func.
  erewrite bind_next; [| by rewrite Hallowed].
  erewrite bind_next; [| by apply client_authorized_passes].
  rewrite (bool_decide_false (Refreshing = AuthorizationCode)) by done.
  rewrite (bool_decide_false (Refreshing = PasswordCredentials)) by done.
  rewrite (bool_decide_false (Refreshing = ClientCredentials)) by done.
  rewrite (bool_decide_true (Refreshing = Refreshing)) by done.
  assert (∀ e, (if bool_decide (e = ErrInvalidRefreshToken)
                   || bool_decide (e = ErrExpiredRefreshToken)
                then ErrInvalidGrant else e) = as_invalid_grant e) as Htr.
  { intros e. unfold as_invalid_grant.
    destruct (decide (e = ErrInvalidRefreshToken)) as [->|]; [done |].
    destruct (decide (e = ErrExpiredRefreshToken)) as [->|]; [done |].
    by rewrite !bool_decide_false by tauto. }
  destruct (Server.RefreshingScopeHandler s) as [fn|].
  - destruct Hunchecked as [Hs | ?]; [| done]. rewrite Hs. run.
    destruct (Manager.RefreshAccessToken _ _ _) as [[ti|e] w]; simpl;
      [done |].
    rewrite <- Htr. by destruct (_ || _).
  - run.
    destruct (Manager.RefreshAccessToken _ _ _) as [[ti|e] w]; simpl;
      [done |].
    rewrite <- Htr. by destruct (_ || _).
Qed.

End MoreGrants.

(** ** Further properties of the token request validation *)

Section MoreValidation.

Context {World : Type}.
Context {consts : oauth2.Constants}.

Implicit Types (s : Server.t World) (st : St World) (r : http.Request).

Lemma token_request_admitted_checks s r :
  token_request_admitted s r →
  negb (bool_decide (http.Method r = "POST")
        || (Config.AllowGetAccessRequest (Server.Config s)
            && bool_decide (http.Method r = "GET"))) = false
  ∧ bool_decide (GrantType_String (http.FormValue r "grant_type") = "")
    = false.
Proof.
  intros [Hmethod Hgt]. split; [| by apply bool_decide_eq_false].
  apply negb_false_iff, orb_true_iff.
  destruct Hmethod as [Hpost | [Hget Hm]].
  - left. by apply bool_decide_eq_true.
  - right. rewrite Hget. by apply bool_decide_eq_true.
Qed.

(** The first steps of [ValidationTokenRequest] on an admitted request
    whose client-info handler is [Hfn] and answers [Hci]. *)
Ltac admitted_request Hadm Hfn Hci :=
  unfold ValidationTokenRequest;
  destruct (token_request_admitted_checks _ _ Hadm) as [-> ->];
  rewrite Hfn; run; run; rewrite Hci; simpl.

(** X8.  The refusals of [ValidationTokenRequest] before the fields of the
    grant type are read.  A method that is not POST, nor GET on a server
    that allows it, gives an error whose root cause is [ErrInvalidRequest].
    With an accepted method, a grant type that is empty or is none of the
    four grant types gives root cause [ErrUnsupportedGrantType]; the
    implicit grant is among those.  In both cases the state is the initial
    one: the client-info handler was not consulted.  On an admitted request
    an error of the client-info handler is returned wrapped with a stack,
    so its root cause is kept. *)
Theorem ValidationTokenRequest_rejected_early s r st :
  let method_ok :=
    http.Method r = "POST"
    ∨ (Config.AllowGetAccessRequest (Server.Config s) = true
       ∧ http.Method r = "GET") in
  let gt := http.FormValue r "grant_type" in
  (¬ method_ok →
     ∃ err, ValidationTokenRequest s r st = (Returns (Err err), st)
            ∧ Cause err = ErrInvalidRequest)
  ∧ (method_ok →
     gt = "" ∨ gt ∉ [AuthorizationCode; PasswordCredentials;
                     ClientCredentials; Refreshing] →
       ∃ err, ValidationTokenRequest s r st = (Returns (Err err), st)
              ∧ Cause err = ErrUnsupportedGrantType)
  ∧ (∀ fn e w1,
       token_request_admitted s r →
       Server.ClientInfoHandler s = Some fn →
       fn r (world st) = (Err e, w1) →
       ValidationTokenRequest s r st
         = (Returns (Err (WithStack e)),
            logged st (call_ClientInfoHandler r) w1)
       ∧ Cause (WithStack e) = Cause e).
Proof.
  intros method_ok gt. split; [| split].
  - intros Hbad. unfold ValidationTokenRequest.
    assert (bool_decide (http.Method r = "POST")
            || (Config.AllowGetAccessRequest (Server.Config s)
                && bool_decide (http.Method r = "GET")) = false) as ->.
    { apply not_true_is_false. intros Ht. apply Hbad.
      apply orb_true_iff in Ht as [Ht | Ht].
      - left. by apply bool_decide_eq_true in Ht.
      - apply andb_true_iff in Ht as [Ha Ht]. right.
        split; [done |]. by apply bool_decide_eq_true in Ht. }
    by eexists.
  - intros Hok Hgt. unfold ValidationTokenRequest.
    assert (negb (bool_decide (http.Method r = "POST")
                  || (Config.AllowGetAccessRequest (Server.Config s)
                      && bool_decide (http.Method r = "GET"))) = false) as ->.
    { apply negb_false_iff, orb_true_iff.
      destruct Hok as [Hpost | [Hget Hm]].
      - left. by apply bool_decide_eq_true.
      - right. rewrite Hget. by apply bool_decide_eq_true. }
    assert (GrantType_String gt = "") as Hstring.
    { destruct Hgt as [Hgt | Hgt]; [| by apply GrantType_String_unknown].
      rewrite Hgt. unfold GrantType_String. by case_bool_decide. }
    fold gt. rewrite Hstring. by eexists.
  - intros fn e w1 Hadm Hfn Hci. split; [| done].
    by admitted_request Hadm Hfn Hci.
Qed.

(** X9.  The authorization-code grant needs a redirect URI and a code:
    without one of them the request is refused with root cause
    [ErrInvalidRequest]; with both, the token request carries the client of
    the handler, the redirect URI and the code, and no scope, whatever the
    form says. *)
Theorem ValidationTokenRequest_authorization_code
    s r st fn clientID clientSecret w1 :
  token_request_admitted s r →
  http.FormValue r "grant_type" = AuthorizationCode →
  Server.ClientInfoHandler s = Some fn →
  fn r (world st) = (Ok (clientID, clientSecret), w1) →
  let st1 := logged st (call_ClientInfoHandler r) w1 in
  (http.FormValue r "redirect_uri" = "" ∨ http.FormValue r "code" = "" →
     ∃ err, ValidationTokenRequest s r st = (Returns (Err err), st1)
            ∧ Cause err = ErrInvalidRequest)
  ∧ (http.FormValue r "redirect_uri" ≠ "" → http.FormValue r "code" ≠ "" →
       ValidationTokenRequest s r st =
         (Returns
            (Ok (AuthorizationCode,
                 TokenGenerateRequest.mk clientID clientSecret ""
                   (http.FormValue r "redirect_uri") (http.FormValue r "code")
                   "" "" 0 (Some r))), st1)).
Proof.
  intros Hadm Hgt Hfn Hci st1. subst st1. split.
  - intros Hmissing. admitted_request Hadm Hfn Hci.
    rewrite Hgt, (bool_decide_true (AuthorizationCode = AuthorizationCode))
      by done. run.
    assert (bool_decide (http.FormValue r "redirect_uri" = "")
            || bool_decide (http.FormValue r "code" = "") = true) as ->.
    { apply orb_true_iff. by rewrite !bool_decide_eq_true. }
    by eexists.
  - intros Huri Hcode. admitted_request Hadm Hfn Hci.
    rewrite Hgt, (bool_decide_true (AuthorizationCode = AuthorizationCode))
      by done. run.
    by rewrite !bool_decide_false by done.
Qed.

(** X10.  The refreshing grant needs a refresh token: without it the
    request is refused with [ErrInvalidRequest]; with it, the token request
    carries the refresh token and the scope of the form. *)
Theorem ValidationTokenRequest_refreshing
    s r st fn clientID clientSecret w1 :
  NoDup [AuthorizationCode; PasswordCredentials; ClientCredentials;
         Refreshing] →
  token_request_admitted s r →
  http.FormValue r "grant_type" = Refreshing →
  Server.ClientInfoHandler s = Some fn →
  fn r (world st) = (Ok (clientID, clientSecret), w1) →
  let st1 := logged st (call_ClientInfoHandler r) w1 in
  (http.FormValue r "refresh_token" = "" →
     ValidationTokenRequest s r st = (Returns (Err ErrInvalidRequest), st1))
  ∧ (http.FormValue r "refresh_token" ≠ "" →
       ValidationTokenRequest s r st =
         (Returns
            (Ok (Refreshing,
                 TokenGenerateRequest.mk clientID clientSecret "" "" ""
                   (http.FormValue r "refresh_token")
                   (http.FormValue r "scope") 0 (Some r))), st1)).
Proof.
  intros Hdistinct Hadm Hgt Hfn Hci st1. subst st1.
  assert (Refreshing ≠ AuthorizationCode ∧ Refreshing ≠ PasswordCredentials
          ∧ Refreshing ≠ ClientCredentials) as (Hne1 & Hne2 & Hne3).
  { apply NoDup_cons in Hdistinct as [Ha Hdistinct].
    apply NoDup_cons in Hdistinct as [Hp Hdistinct].
    apply NoDup_cons in Hdistinct as [Hc _].
    repeat split; intros Heq;
      [apply Ha | apply Hp | apply Hc]; rewrite <- Heq; repeat constructor. }
  split; intros Hrefresh; admitted_request Hadm Hfn Hci; rewrite Hgt;
    rewrite (bool_decide_false (Refreshing = AuthorizationCode)) by done;
    rewrite (bool_decide_false (Refreshing = PasswordCredentials)) by done;
    rewrite (bool_decide_false (Refreshing = ClientCredentials)) by done;
    rewrite (bool_decide_true (Refreshing = Refreshing)) by done; run.
  - by rewrite Hrefresh.
  - by rewrite bool_decide_false by done.
Qed.

(** X11.  The client-credentials grant needs no field: the validation
    succeeds whenever the client-info handler does, and the token request
    carries the client and the scope of the form. *)
Theorem ValidationTokenRequest_client_credentials
    s r st fn clientID clientSecret w1 :
  token_request_admitted s r →
  Server.ClientInfoHandler s = Some fn →
  fn r (world st) = (Ok (clientID, clientSecret), w1) →
  http.FormValue r "grant_type" = ClientCredentials →
  ClientCredentials ≠ AuthorizationCode →
  ClientCredentials ≠ PasswordCredentials →
  ValidationTokenRequest s r st =
    (Returns
       (Ok (ClientCredentials,
            TokenGenerateRequest.mk clientID clientSecret "" "" "" ""
              (http.FormValue r "scope") 0 (Some r))),
     logged st (call_ClientInfoHandler r) w1).
Proof.
  intros Hadm Hfn Hci Hgt Hne1 Hne2. admitted_request Hadm Hfn Hci.
  rewrite Hgt.
  rewrite (bool_decide_false (ClientCredentials = AuthorizationCode)) by done.
  rewrite (bool_decide_false (ClientCredentials = PasswordCredentials))
    by done.
  by rewrite (bool_decide_true (ClientCredentials = ClientCredentials))
    by done.
Qed.

(** X12.  The password grant on a server with a permission-check
    handler.  Without a user name or a password the request is refused
    with [ErrInvalidRequest] before the password handler is called.  An
    error of the password handler is returned as it is, and an empty user
    gives [ErrInvalidGrant] without a call of the permission check.  The
    permission check receives the user and the [client_id] of the form, not
    the client of the client-info handler; its error is returned as it is,
    and when it passes the token request carries the scope of the form and
    the user. *)
Theorem ValidationTokenRequest_password
    s r st fn clientID clientSecret w1 passwordAuth checkPerm :
  token_request_admitted s r →
  http.FormValue r "grant_type" = PasswordCredentials →
  PasswordCredentials ≠ AuthorizationCode →
  Server.ClientInfoHandler s = Some fn →
  fn r (world st) = (Ok (clientID, clientSecret), w1) →
  Server.PasswordAuthorizationHandler s = Some passwordAuth →
  Server.CheckUserPermHandler s = Some checkPerm →
  let username := http.FormValue r "username" in
  let password := http.FormValue r "password" in
  let st1 := logged st (call_ClientInfoHandler r) w1 in
  (username = "" ∨ password = "" →
     ValidationTokenRequest s r st = (Returns (Err ErrInvalidRequest), st1))
  ∧ (username ≠ "" → password ≠ "" →
       let auth := passwordAuth username password (world st1) in
       let st2 :=
         logged st1 (call_PasswordAuthorizationHandler username password)
           auth.2 in
       (∀ e, auth.1 = Err e →
          ValidationTokenRequest s r st = (Returns (Err e), st2))
       ∧ (auth.1 = Ok "" →
          ValidationTokenRequest s r st
            = (Returns (Err ErrInvalidGrant), st2))
       ∧ (∀ userID, auth.1 = Ok userID → userID ≠ "" →
            let perm :=
              checkPerm userID (http.FormValue r "client_id") (world st2) in
            let st3 :=
              logged st2 (call_CheckUserPermHandler userID
                            (http.FormValue r "client_id")) perm.2 in
            (∀ e, perm.1 = Some e →
               ValidationTokenRequest s r st = (Returns (Err e), st3))
            ∧ (perm.1 = None →
               ValidationTokenRequest s r st =
                 (Returns
                    (Ok (PasswordCredentials,
                         TokenGenerateRequest.mk clientID clientSecret userID
                           "" "" "" (http.FormValue r "scope") 0 (Some r))),
                  st3)))).
Proof.
  intros Hadm Hgt Hne Hfn Hci Hpa Hperm username password st1.
  subst st1. split.
  - intros Hmissing. admitted_request Hadm Hfn Hci. rewrite Hgt.
    rewrite (bool_decide_false (PasswordCredentials = AuthorizationCode))
      by done.
    rewrite (bool_decide_true (PasswordCredentials = PasswordCredentials))
      by done. run.
    assert (bool_decide (http.FormValue r "username" = "")
            || bool_decide (http.FormValue r "password" = "") = true) as ->.
    { apply orb_true_iff. by rewrite !bool_decide_eq_true. }
    done.
  - intros Hu Hp auth st2. subst st2 auth.
    assert (∀ out st',
      (let auth := passwordAuth username password w1 in
       let st2 :=
         mkSt auth.2
           ((calls st ++ [call_ClientInfoHandler r]) ++
            [call_PasswordAuthorizationHandler username password]) in
       match auth.1 with
       | Err e => (Returns (Err e), st2)
       | Ok userID =>
           if bool_decide (userID = "")
           then (Returns (Err ErrInvalidGrant), st2)
           else
             let perm :=
               checkPerm userID (http.FormValue r "client_id") auth.2 in
             let st3 :=
               mkSt perm.2
                 (calls st2 ++
                  [call_CheckUserPermHandler userID
                     (http.FormValue r "client_id")]) in
             match perm.1 with
             | Some e => (Returns (Err e), st3)
             | None =>
                 (Returns
                    (Ok (PasswordCredentials,
                         TokenGenerateRequest.mk clientID clientSecret userID
                           "" "" "" (http.FormValue r "scope") 0 (Some r))),
                  st3)
             end
       end) = (out, st') →
      ValidationTokenRequest s r st = (out, st')) as Hrun.
    { intros out st' <-. admitted_request Hadm Hfn Hci. rewrite Hgt, Hpa, Hperm.
      rewrite (bool_decide_false (PasswordCredentials = AuthorizationCode))
        by done.
      rewrite (bool_decide_true (PasswordCredentials = PasswordCredentials))
        by done. run.
      fold username password.
      rewrite (bool_decide_false (username = "")) by done.
      rewrite (bool_decide_false (password = "")) by done. run.
      destruct (passwordAuth username password w1) as [[userID|e] w2]; simpl;
        [| done].
      case_bool_decide; simpl; [done |].
      by destruct (checkPerm _ _ _) as [[e|] w3]. }
    unfold logged. simpl.
    split; [| split].
    + intros e He. apply Hrun. simpl. by rewrite He.
    + intros He. apply Hrun. simpl. by rewrite He.
    + intros userID He Hne'. split.
      * intros e Hpe. apply Hrun. simpl. rewrite He.
        rewrite bool_decide_false by done. by rewrite Hpe.
      * intros Hpe. apply Hrun. simpl. rewrite He.
        rewrite bool_decide_false by done. by rewrite Hpe.
Qed.

(** X13.  A server as [NewServer] builds it denies the password grant:
    with a user name and a password, the default password handler answers
    [ErrAccessDenied], which is returned.  The missing permission-check
    handler is not reached, so this path does not panic. *)
Theorem ValidationTokenRequest_NewServer_denies_password
    (ClientBasicHandler :
       http.Request → World → result (string * string) * World)
    (cfg : Config.t) (manager : Manager.t World)
    r st clientID clientSecret w1 :
  let s := NewServer ClientBasicHandler cfg manager in
  token_request_admitted s r →
  http.FormValue r "grant_type" = PasswordCredentials →
  PasswordCredentials ≠ AuthorizationCode →
  ClientBasicHandler r (world st) = (Ok (clientID, clientSecret), w1) →
  http.FormValue r "username" ≠ "" →
  http.FormValue r "password" ≠ "" →
  ValidationTokenRequest s r st =
    (Returns (Err ErrAccessDenied),
     mkSt w1 (calls st ++
              [call_ClientInfoHandler r;
               call_PasswordAuthorizationHandler
                 (http.FormValue r "username") (http.FormValue r "password")])).
Proof.
  intros s Hadm Hgt Hne Hci Hu Hp.
  unfold ValidationTokenRequest.
  destruct (token_request_admitted_checks _ _ Hadm) as [-> ->].
  subst s. run. run. rewrite Hci. simpl. rewrite Hgt.
  rewrite (bool_decide_false (PasswordCredentials = AuthorizationCode))
    by done.
  rewrite (bool_decide_true (PasswordCredentials = PasswordCredentials))
    by done. run.
  rewrite (bool_decide_false (http.FormValue r "username" = "")) by done.
  rewrite (bool_decide_false (http.FormValue r "password" = "")) by done.
  run. by rewrite <- app_assoc.
Qed.



(** X15.  What passes the validation is a request of one of the four
    grant types: the grant type returned is the one of the form, it is not
    empty, it is one of the four, and the token request carries the HTTP
    request.  So the token endpoint never hands [GetAccessToken] a grant
    type that its dispatch does not know. *)
Theorem ValidationTokenRequest_grant_type s r st gt tgr st' :
  ValidationTokenRequest s r st = (Returns (Ok (gt, tgr)), st') →
  gt = http.FormValue r "grant_type"
  ∧ gt ≠ ""
  ∧ gt ∈ [AuthorizationCode; PasswordCredentials; ClientCredentials;
          Refreshing]
  ∧ TokenGenerateRequest.Request tgr = Some r.
Proof.
  unfold ValidationTokenRequest. run.
  destruct (negb _); simpl; [done |].
  case_bool_decide as Hstring; simpl; [done |].
  assert (http.FormValue r "grant_type" ≠ ""
          ∧ http.FormValue r "grant_type"
            ∈ [AuthorizationCode; PasswordCredentials; ClientCredentials;
               Refreshing]) as [Hne Hfour].
  { split.
    - intros Hempty. apply Hstring. rewrite Hempty.
      unfold GrantType_String. by case_bool_decide.
    - destruct (decide (http.FormValue r "grant_type"
                        ∈ [AuthorizationCode; PasswordCredentials;
                           ClientCredentials; Refreshing])) as [|Hnot];
        [done |].
      by apply GrantType_String_unknown in Hnot. }
  assert (∀ tgr0 st0,
    TokenGenerateRequest.Request tgr0 = Some r →
    (Returns (Ok (http.FormValue r "grant_type", tgr0)), st0)
    = (Returns (Ok (gt, tgr)), st') →
    gt = http.FormValue r "grant_type"
    ∧ gt ≠ ""
    ∧ gt ∈ [AuthorizationCode; PasswordCredentials; ClientCredentials;
            Refreshing]
    ∧ TokenGenerateRequest.Request tgr = Some r) as Hok.
  { by intros tgr0 st0 Hreq [= <- <- <-]. }
  destruct (Server.ClientInfoHandler s) as [fn|]; simpl; [| done].
  run. destruct (fn r (world st)) as [[[clientID clientSecret]|e] w1]; simpl;
    [| done].
  destruct (bool_decide (_ = AuthorizationCode)); simpl.
  { run. destruct (_ || _); simpl; [done | by apply Hok]. }
  destruct (bool_decide (_ = PasswordCredentials)); simpl.
  { run. destruct (_ || _); simpl; [done |].
    destruct (Server.PasswordAuthorizationHandler s) as [pa|]; simpl;
      [| done].
    run. destruct (pa _ _ _) as [[userID|e] w2]; simpl; [| done].
    destruct (bool_decide (userID = "")); simpl; [done |].
    destruct (Server.CheckUserPermHandler s) as [perm|]; simpl; [| done].
    run. destruct (perm _ _ _) as [[e|] w3]; simpl; [done | by apply Hok]. }
  destruct (bool_decide (_ = ClientCredentials)); simpl; [by apply Hok |].
  destruct (bool_decide (_ = Refreshing)); simpl; [| by apply Hok].
  run. destruct (bool_decide (_ = "")); simpl; [done | by apply Hok].
Qed.

(** X16.  [ValidationBearerToken] looks the token of the Authorization
    header up when the header starts with "Bearer " and a token follows,
    whatever the form says; a header that is just "Bearer " gives
    [ErrInvalidAccessToken] even when the form holds an access token.
    Without such a header the [access_token] of the form is looked up, and
    an empty one gives [ErrInvalidAccessToken].  The manager's
    [LoadAccessToken] is the only call and its result is returned
    unchanged; a refusal makes no call. *)
Theorem ValidationBearerToken_spec s r st :
  let header := http.Header_Get (http.Header r) "Authorization" in
  let load token :=
    (Returns (Manager.LoadAccessToken (Server.Manager s) token (world st)).1,
     logged st (call_LoadAccessToken token)
       (Manager.LoadAccessToken (Server.Manager s) token (world st)).2) in
  (∀ token, header = "Bearer " +:+ token → token ≠ "" →
     ValidationBearerToken s r st = load token)
  ∧ (header = "Bearer " →
     ValidationBearerToken s r st = (Returns (Err ErrInvalidAccessToken), st))
  ∧ ((∀ rest, header ≠ "Bearer " +:+ rest) →
     (http.FormValue r "access_token" = "" →
      ValidationBearerToken s r st
        = (Returns (Err ErrInvalidAccessToken), st))
     ∧ (http.FormValue r "access_token" ≠ "" →
        ValidationBearerToken s r st
          = load (http.FormValue r "access_token"))).
Proof.
  intros header load. subst load.
  unfold ValidationBearerToken, BearerAuth. fold header.
  split; [| split].
  - intros token -> Htoken.
    rewrite strings_HasPrefix_app, (string_from_app "Bearer " token).
    rewrite (bool_decide_true ("Bearer " +:+ token ≠ "")) by done. simpl.
    rewrite (bool_decide_true (token ≠ "")) by done. run.
    by destruct (Manager.LoadAccessToken _ _ _).
  - intros ->. by vm_compute.
  - intros Hno.
    assert ((bool_decide (header ≠ "") && strings_HasPrefix header "Bearer ")
            = false) as ->.
    { destruct (strings_HasPrefix header "Bearer ") eqn:Hp;
        [| by rewrite andb_false_r].
      apply strings_HasPrefix_inv in Hp as [rest Hp]. by destruct (Hno rest). }
    split; intros Hform.
    + rewrite Hform. done.
    + rewrite (bool_decide_true (_ ≠ "")) by done. run.
      by destruct (Manager.LoadAccessToken _ _ _).
Qed.

End MoreValidation.

(** ** Further properties of the authorization flow *)

Section MoreAuthorize.

Context {World : Type}.
Context {consts : oauth2.Constants} {tables : errors.Tables}
  {net_url : url.Package}.
Variable ResponseWriter_Header_Set : string → string → World → World.
Variable ResponseWriter_WriteHeader : Z → World → World.

Implicit Types (s : Server.t World) (st : St World) (r : http.Request).

Local Abbreviation redirected :=
  (redirected ResponseWriter_Header_Set ResponseWriter_WriteHeader).
Local Abbreviation redirect :=
  (redirect ResponseWriter_Header_Set ResponseWriter_WriteHeader).
Local Abbreviation redirectError :=
  (redirectError ResponseWriter_Header_Set ResponseWriter_WriteHeader).
Local Abbreviation HandleAuthorizeRequest :=
  (HandleAuthorizeRequest ResponseWriter_Header_Set
     ResponseWriter_WriteHeader).

(** For the response type [Code] the authorization data hold the code and
    nothing else, and the state is untouched. *)
Lemma GetAuthorizeData_code s rt ti st :
  rt = Code →
  GetAuthorizeData s rt ti st
    = (Returns {[ "code" := VString (TokenInfo.GetCode ti) ]}, st).
Proof. intros ->. unfold GetAuthorizeData. run. by rewrite bool_decide_true. Qed.

(** [GetAuthorizeData] always returns. *)
Lemma GetAuthorizeData_returns s rt ti st :
  ∃ data st', GetAuthorizeData s rt ti st = (Returns data, st').
Proof.
  destruct (GetTokenData_lookup s ti st) as (data & Hrun & _).
  unfold GetAuthorizeData. run. case_bool_decide; simpl; [by eexists _, _ |].
  rewrite Hrun. by eexists _, _.
Qed.

(** X17.  [GetRedirectURI] fails exactly when the redirect URI does not
    parse, and then with the error of the parser: no state and no data
    make it fail.  For a response type that is neither [Code] nor [Token]
    the result is the parsed URL printed back: the state and the data are
    dropped. *)
Theorem GetRedirectURI_fails_iff_parse_fails s req data :
  (∀ e, GetRedirectURI s req data = Err e
        ↔ url.Parse (AuthorizeRequest.RedirectURI req) = Err e)
  ∧ (∀ u, url.Parse (AuthorizeRequest.RedirectURI req) = Ok u →
          AuthorizeRequest.ResponseType req ≠ Code →
          AuthorizeRequest.ResponseType req ≠ Token →
          GetRedirectURI s req data = Ok (url.URL_String u)).
Proof.
  unfold GetRedirectURI. split.
  - intros e.
    destruct (url.Parse (AuthorizeRequest.RedirectURI req)) as [u|e'];
      [| split; intros [= ->]; reflexivity].
    rewrite urlfacts.QueryUnescape_Encode.
    repeat case_bool_decide; repeat case_match; split; discriminate.
  - intros u -> Hc Ht.
    rewrite (bool_decide_false (_ = Code)) by done.
    by rewrite (bool_decide_false (_ = Token)) by done.
Qed.

(** A redirect URI that parses always gives a redirect URI. *)
Lemma GetRedirectURI_parsed s req data u :
  url.Parse (AuthorizeRequest.RedirectURI req) = Ok u →
  ∃ uri, GetRedirectURI s req data = Ok uri.
Proof.
  intros Hu. unfold GetRedirectURI. rewrite Hu.
  rewrite urlfacts.QueryUnescape_Encode.
  repeat case_bool_decide; repeat case_match; by eexists.
Qed.

(** [redirect] on a redirect URI that parses, and on one that does not. *)
Lemma redirect_run s req data st :
  match GetRedirectURI s req data with
  | Err e =>
      redirect s req data st = (Returns (Some e), st)
  | Ok uri =>
      redirect s req data st = (Returns None, redirected st uri)
  end.
Proof.
  unfold redirect, redirected. run.
  destruct (GetRedirectURI s req data); simpl; [| done].
  by rewrite <- app_assoc.
Qed.

(** X18.  [redirect] writes all or nothing.  When the redirect URI of the
    request does not parse, the parser's error is returned and nothing is
    written.  Otherwise the Location header is set to the URI that
    [GetRedirectURI] builds, then the status 302 is written, and nil is
    returned. *)
Theorem redirect_spec s req data st :
  (∀ e, url.Parse (AuthorizeRequest.RedirectURI req) = Err e →
     redirect s req data st = (Returns (Some e), st))
  ∧ (∀ u, url.Parse (AuthorizeRequest.RedirectURI req) = Ok u →
       ∃ uri,
         GetRedirectURI s req data = Ok uri
         ∧ redirect s req data st = (Returns None, redirected st uri)).
Proof.
  pose proof (redirect_run s req data st) as Hrun. split.
  - intros e He. unfold GetRedirectURI in Hrun. by rewrite He in Hrun.
  - intros u Hu. destruct (GetRedirectURI_parsed s req data u Hu) as [uri Huri].
    rewrite Huri in Hrun. by exists uri.
Qed.

(** *** The authorization endpoint *)

(** A function that returns what a call returns is that call. *)
Lemma call_ret {R : Type} (m : M World R) st :
  func (e <- call m ;; ret e) st = m st.
Proof. run. by destruct (m st) as [[]]. Qed.

(** [GetErrorData] returns for every error that can be the key of a
    map. *)
Lemma GetErrorData_returns s err st :
  hashable err = true →
  ∃ res st', GetErrorData s err st = (Returns res, st').
Proof.
  intros Hkey. unfold GetErrorData. run. rewrite Hkey. simpl.
  destruct (Descriptions err); simpl.
  - destruct (Server.ResponseErrorHandler s) as [fn|]; simpl;
      [destruct (fn _ _) |]; by eexists _, _.
  - destruct (Server.InternalErrorHandler s) as [fi|]; simpl;
      [destruct (fi _ _) |];
      (destruct (Server.ResponseErrorHandler s) as [fn|]; simpl;
       [destruct (fn _ _) |]); by eexists _, _.
Qed.

(** Without error handlers [GetErrorData] calls nothing. *)
Lemma GetErrorData_no_handlers s err st :
  hashable err = true →
  Server.InternalErrorHandler s = None →
  Server.ResponseErrorHandler s = None →
  ∃ res, GetErrorData s err st = (Returns res, st).
Proof.
  intros Hkey Hi Hr. unfold GetErrorData. rewrite Hi, Hr. run.
  rewrite Hkey. simpl.
  destruct (Descriptions err); simpl; by eexists.
Qed.

(** The lookup of an error that is not comparable panics, before any
    handler is called. *)
Lemma GetErrorData_panics s e st :
  comparable e = false → GetErrorData s (Some e) st = (Panics, st).
Proof. intros Hkey. unfold GetErrorData. run. by rewrite Hkey. Qed.

(** [redirectError] with a request is the redirect that carries the data
    of the error. *)
Lemma redirectError_run s req e st data code header st' :
  GetErrorData s (Some e) st = (Returns (data, code, header), st') →
  redirectError s (Some req) e st = redirect s req data st'.
Proof.
  intros Hdata. unfold redirectError. run. rewrite Hdata. simpl.
  by destruct (redirect s req data st') as [[]].
Qed.

Lemma redirectError_panics s req e st :
  comparable e = false → redirectError s (Some req) e st = (Panics, st).
Proof.
  intros Hkey. unfold redirectError. run.
  by rewrite (GetErrorData_panics s e st Hkey).
Qed.

(** X19.  [HandleAuthorizeRequest] calls the user-authorization handler
    without a nil check: on a request that passes the validation, a server
    without the handler panics before anything is called.  When the handler
    gives an empty user ID and no error, nil is returned and nothing else
    happens: the handler is the only call, so it is the handler that has to
    write the response. *)
Theorem HandleAuthorizeRequest_user_handler s r st req :
  ValidationAuthorizeRequest s r = Ok req →
  (Server.UserAuthorizationHandler s = None →
     HandleAuthorizeRequest s r st = (Panics, st))
  ∧ (∀ fn w,
       Server.UserAuthorizationHandler s = Some fn →
       fn r (world st) = (Ok "", w) →
       HandleAuthorizeRequest s r st
       = (Returns None, logged st (call_UserAuthorizationHandler r) w)).
Proof.
  intros Hreq. unfold HandleAuthorizeRequest. rewrite Hreq. split.
  - intros ->. by run.
  - intros fn w -> Hfn. run. run. by rewrite Hfn.
Qed.

(** X20.  The error of the user-authorization handler.  An error whose text
    is "no permission to the app" sends the browser to the 403 page: the
    Location header is "/ui/403?no permission to the app", the status is
    302 and nil is returned.  Any other error is sent to the client: the
    response is the redirect of the validated request with the data that
    [GetErrorData] gives for the error.  When the error is a value that is
    not comparable, the lookup of the error panics and nothing is
    written. *)
Theorem HandleAuthorizeRequest_user_error s r st req fn e w :
  ValidationAuthorizeRequest s r = Ok req →
  Server.UserAuthorizationHandler s = Some fn →
  fn r (world st) = (Err e, w) →
  let st1 := logged st (call_UserAuthorizationHandler r) w in
  (ErrorText e = "no permission to the app" →
     HandleAuthorizeRequest s r st
     = (Returns None, redirected st1 "/ui/403?no permission to the app"))
  ∧ (ErrorText e ≠ "no permission to the app" → comparable e = true →
     ∃ data code header st2,
       GetErrorData s (Some e) st1 = (Returns (data, code, header), st2)
       ∧ HandleAuthorizeRequest s r st = redirect s req data st2)
  ∧ (ErrorText e ≠ "no permission to the app" → comparable e = false →
     HandleAuthorizeRequest s r st = (Panics, st1)).
Proof.
  intros Hreq Hh Hfn st1.
  unfold HandleAuthorizeRequest. rewrite Hreq, Hh. run. run.
  rewrite Hfn. simpl. split; [| split].
  - intros Htext. rewrite Htext. simpl.
    unfold st1, redirected, logged. simpl.
    by rewrite <- app_assoc.
  - intros Htext Hkey. rewrite bool_decide_false by done. simpl.
    destruct (GetErrorData_returns s (Some e) st1 Hkey)
      as ([[data code] header] & st2 & Hdata).
    exists data, code, header, st2. split; [done |].
    pose proof (redirectError_run s req e st1 data code header st2 Hdata)
      as Hrun.
    unfold st1, logged in Hrun. rewrite Hrun.
    by destruct (redirect s req data st2) as [[]].
  - intros Htext Hkey. rewrite bool_decide_false by done. simpl.
    pose proof (redirectError_panics s req e st1 Hkey) as Hrun.
    unfold st1, logged in Hrun. by rewrite Hrun.
Qed.

(** The calls a state added to the log of an earlier one. *)
Lemma new_calls_app st w (cs : list Call) :
  new_calls st (mkSt w (calls st ++ cs)%list) = cs.
Proof. unfold new_calls. simpl. by rewrite drop_app_length. Qed.

Lemma new_calls_refl st : new_calls st st = [].
Proof. unfold new_calls. by rewrite drop_all. Qed.

(** X21.  A server as [NewServer] builds it never issues an authorization
    code or a token: whatever the request, [HandleAuthorizeRequest] returns
    without a panic and without a call of the token manager.  Its only user
    handler denies the access, so the handlers have to be replaced before
    the endpoint grants anything. *)
Theorem HandleAuthorizeRequest_NewServer
    (ClientBasicHandler : http.Request → World
                          → result (string * string) * World)
    (cfg : Config.t) (manager : Manager.t World) r st :
  ∃ e st',
    HandleAuthorizeRequest (NewServer ClientBasicHandler cfg manager) r st
      = (Returns e, st')
    ∧ Forall (λ c, is_manager_call c = false) (new_calls st st').
Proof.
  set (s := NewServer ClientBasicHandler cfg manager).
  unfold HandleAuthorizeRequest.
  destruct (ValidationAuthorizeRequest s r) as [req|err]; simpl;
    [| eexists _, _; split; [done |]; by rewrite new_calls_refl].
  run. run. case_bool_decide; simpl.
  { eexists _, _. split; [done |].
    rewrite <- !app_assoc, new_calls_app. by repeat constructor. }
  set (st1 := mkSt _ _).
  destruct (GetErrorData_no_handlers s (Some ErrAccessDenied) st1 eq_refl
              eq_refl eq_refl) as ([[data code] header] & Hdata).
  pose proof (redirectError_run s req ErrAccessDenied st1 data code header
                st1 Hdata) as Hrun.
  unfold st1 in Hrun |- *. rewrite Hrun.
  pose proof (redirect_run s req data st1) as Hred. unfold st1 in Hred.
  destruct (GetRedirectURI s req data) as [uri|e]; rewrite Hred; simpl.
  - eexists _, _. split; [done |]. unfold redirected. simpl.
    rewrite <- !app_assoc, new_calls_app. by repeat constructor.
  - eexists _, _. split; [done |].
    rewrite new_calls_app. by repeat constructor.
Qed.

(** X22.  The errors of the scope handler and of the expiry handler are
    not sent to the client: once the user is authorized, an error of
    [AuthorizeScopeHandler], or of [AccessTokenExpHandler] after the scope
    step, is returned as it is, and the handler is the last call: no
    response is written and the token manager is not reached. *)
Theorem HandleAuthorizeRequest_scope_or_expiry_error s r st req userID st1 :
  ValidationAuthorizeRequest s r = Ok req →
  user_authorized s r st = Some (userID, st1) →
  (∀ fn e w,
     Server.AuthorizeScopeHandler s = Some fn →
     fn r (world st1) = (Err e, w) →
     HandleAuthorizeRequest s r st
     = (Returns (Some e), logged st1 (call_AuthorizeScopeHandler r) w))
  ∧ (∀ req1 st2 fn e w,
       scope_specified s r (AuthorizeRequest.set_UserID userID req) st1
         = Some (req1, st2) →
       Server.AccessTokenExpHandler s = Some fn →
       fn r (world st2) = (Err e, w) →
       HandleAuthorizeRequest s r st
       = (Returns (Some e), logged st2 (call_AccessTokenExpHandler r) w)).
Proof.
  intros Hreq Hu. unfold HandleAuthorizeRequest. rewrite Hreq.
  unfold user_authorized in Hu.
  destruct (Server.UserAuthorizationHandler s) as [fu|]; [| done].
  destruct (fu r (world st)) as [[uid|eu] wu] eqn:Hfu; [| done].
  case_bool_decide as Huid; [done |]. injection Hu as <- <-.
  run. run. rewrite Hfu. simpl. rewrite (bool_decide_false _ Huid). simpl.
  split.
  - intros fn e w -> Hfn. run. simpl in Hfn. by rewrite Hfn.
  - intros req1 st2 fn e w Hs -> Hfn. unfold scope_specified in Hs.
    destruct (Server.AuthorizeScopeHandler s) as [fs|].
    + run. simpl in Hs.
      destruct (fs r wu) as [[scope|es] ws]; [| done].
      injection Hs as <- <-. simpl in Hfn |- *. by rewrite Hfn.
    + injection Hs as <- <-. run. simpl in Hfn. by rewrite Hfn.
Qed.

(** [HandleAuthorizeRequest] on a request that passed the validation and
    the steps of the user, of the scope and of the expiry. *)
Lemma HandleAuthorizeRequest_prepared s r st req st3 :
  authorize_request_prepared s r st req st3 →
  HandleAuthorizeRequest s r st =
    match GetAuthorizeToken s req st3 with
    | (Panics, st4) => (Panics, st4)
    | (Returns (Err e), st4) => redirectError s (Some req) e st4
    | (Returns (Ok ti), st4) =>
        if bool_decide (AuthorizeRequest.RedirectURI req = "") then
          match Manager.GetClient (Server.Manager s)
                  (AuthorizeRequest.ClientID req) (world st4) with
          | (Err e, w) =>
              (Returns (Some e),
               logged st4 (call_GetClient (AuthorizeRequest.ClientID req)) w)
          | (Ok client, w) =>
              match GetAuthorizeData s (AuthorizeRequest.ResponseType req) ti
                      (logged st4
                         (call_GetClient (AuthorizeRequest.ClientID req)) w)
              with
              | (Returns data, st5) =>
                  redirect s
                    (AuthorizeRequest.set_RedirectURI
                       (ClientInfo.GetDomain client) req) data st5
              | (Panics, st5) => (Panics, st5)
              end
          end
        else
          match GetAuthorizeData s (AuthorizeRequest.ResponseType req) ti st4
          with
          | (Returns data, st5) => redirect s req data st5
          | (Panics, st5) => (Panics, st5)
          end
    end.
Proof.
  intros (req0 & userID & st1 & req1 & st2 & Hreq & Hu & Hs & He).
  unfold HandleAuthorizeRequest. rewrite Hreq.
  unfold user_authorized in Hu.
  destruct (Server.UserAuthorizationHandler s) as [fu|]; [| done].
  destruct (fu r (world st)) as [[uid|eu] wu] eqn:Hfu; [| done].
  case_bool_decide as Huid; [done |]. injection Hu as <- <-.
  run. run. rewrite Hfu. simpl. rewrite (bool_decide_false _ Huid). simpl.
  unfold scope_specified in Hs. unfold expiry_specified in He.
  destruct (Server.AuthorizeScopeHandler s) as [fs|]; simpl in Hs |- *;
    [destruct (fs r wu) as [[scope|es] ws]; [| done] |];
    injection Hs as <- <-; simpl;
    (destruct (Server.AccessTokenExpHandler s) as [fx|]; simpl in He |- *;
     [destruct (fx r _) as [[exp|ex] wx]; [| done] |];
     injection He as <- <-; simpl);
    (destruct (GetAuthorizeToken s _ _) as [[[ti|e]|] st4]; simpl;
     [| by destruct (redirectError _ _ _ _) as [[]] | done]);
    (case_bool_decide; simpl;
     [destruct (Manager.GetClient _ _ _) as [[client|e] w]; simpl; [| done] |]);
    (destruct (GetAuthorizeData _ _ _ _) as [[data|] st5]; simpl; [| done]);
    by destruct (redirect _ _ _ _) as [[]].
Qed.

(** X23.  A granted authorization is answered by one redirect.  When the
    request passed the validation and the steps of the user, of the scope
    and of the expiry, the token was generated and the redirect URI of the
    request is not empty, the response is the redirect of the final
    request with the data of [GetAuthorizeData], and the client is not
    looked up.  For the response type [Code] the data are the code alone
    and nothing is called after the generation. *)
Theorem HandleAuthorizeRequest_granted s r st req st3 ti st4 :
  authorize_request_prepared s r st req st3 →
  GetAuthorizeToken s req st3 = (Returns (Ok ti), st4) →
  AuthorizeRequest.RedirectURI req ≠ "" →
  (∃ data st5,
     GetAuthorizeData s (AuthorizeRequest.ResponseType req) ti st4
       = (Returns data, st5)
     ∧ HandleAuthorizeRequest s r st = redirect s req data st5)
  ∧ (AuthorizeRequest.ResponseType req = Code →
     HandleAuthorizeRequest s r st
     = redirect s req {[ "code" := VString (TokenInfo.GetCode ti) ]} st4).
Proof.
  intros Hprep Htoken Huri.
  rewrite (HandleAuthorizeRequest_prepared s r st req st3 Hprep), Htoken.
  rewrite (bool_decide_false _ Huri). split.
  - destruct (GetAuthorizeData_returns s (AuthorizeRequest.ResponseType req)
                ti st4) as (data & st5 & Hdata).
    exists data, st5. by rewrite Hdata.
  - intros Hcode. by rewrite GetAuthorizeData_code.
Qed.

(** X24.  A refused authorization is reported to the client, not to the
    caller.  When the request passed the validation and the steps of the
    user, of the scope and of the expiry and [GetAuthorizeToken] fails, the
    response is the redirect of the request with the data that
    [GetErrorData] gives for the error.  This happens before the default
    redirect URI is looked up: the client is not asked for its domain, also
    when the redirect URI of the request is empty.  When the error is a
    value that is not comparable, the lookup of the error panics and
    nothing is written. *)
Theorem HandleAuthorizeRequest_refused s r st req st3 e st4 :
  authorize_request_prepared s r st req st3 →
  GetAuthorizeToken s req st3 = (Returns (Err e), st4) →
  (comparable e = true →
     ∃ data code header st5,
       GetErrorData s (Some e) st4 = (Returns (data, code, header), st5)
       ∧ HandleAuthorizeRequest s r st = redirect s req data st5)
  ∧ (comparable e = false → HandleAuthorizeRequest s r st = (Panics, st4)).
Proof.
  intros Hprep Htoken.
  rewrite (HandleAuthorizeRequest_prepared s r st req st3 Hprep), Htoken.
  split.
  - intros Hkey.
    destruct (GetErrorData_returns s (Some e) st4 Hkey)
      as ([[data code] header] & st5 & Hdata).
    exists data, code, header, st5. split; [done |].
    by apply (redirectError_run s req e st4 data code header st5).
  - intros Hkey. by apply redirectError_panics.
Qed.

(** X25.  The default redirect URI.  When the redirect URI of a granted
    request is empty, the client is looked up after the token was
    generated.  An error of the lookup is returned as it is, with the
    lookup as the last call: the token is generated, and no response is
    written.  Otherwise the response is the redirect to the domain of the
    client, with the data of [GetAuthorizeData]. *)
Theorem HandleAuthorizeRequest_default_redirect_uri s r st req st3 ti st4 :
  authorize_request_prepared s r st req st3 →
  GetAuthorizeToken s req st3 = (Returns (Ok ti), st4) →
  AuthorizeRequest.RedirectURI req = "" →
  let clientID := AuthorizeRequest.ClientID req in
  (∀ e w,
     Manager.GetClient (Server.Manager s) clientID (world st4) = (Err e, w) →
     HandleAuthorizeRequest s r st
     = (Returns (Some e), logged st4 (call_GetClient clientID) w))
  ∧ (∀ client w,
       Manager.GetClient (Server.Manager s) clientID (world st4)
         = (Ok client, w) →
       ∃ data st5,
         GetAuthorizeData s (AuthorizeRequest.ResponseType req) ti
           (logged st4 (call_GetClient clientID) w) = (Returns data, st5)
         ∧ HandleAuthorizeRequest s r st
           = redirect s
               (AuthorizeRequest.set_RedirectURI (ClientInfo.GetDomain client)
                  req) data st5).
Proof.
  intros Hprep Htoken Huri clientID.
  rewrite (HandleAuthorizeRequest_prepared s r st req st3 Hprep), Htoken.
  rewrite (bool_decide_true _ Huri). fold clientID. split.
  - intros e w Hclient. by rewrite Hclient.
  - intros client w Hclient. rewrite Hclient.
    destruct (GetAuthorizeData_returns s (AuthorizeRequest.ResponseType req)
                ti (logged st4 (call_GetClient clientID) w))
      as (data & st5 & Hdata).
    exists data, st5. by rewrite Hdata.
Qed.

End MoreAuthorize.

(** ** Properties of the token endpoint *)

Section MoreToken.

Context {World : Type}.
Context {consts : oauth2.Constants} {tables : errors.Tables}.
Variable ResponseWriter_Header_Set : string → string → World → World.
Variable ResponseWriter_WriteHeader : Z → World → World.
Variable json_Encode : gmap string value → World → option error * World.
Variable CanonicalMIMEHeaderKey : string → string.
Variable range_keys : gmap string (list string) → list string.

Implicit Types (s : Server.t World) (st : St World) (r : http.Request).

Local Abbreviation token :=
  (token ResponseWriter_Header_Set ResponseWriter_WriteHeader json_Encode
     CanonicalMIMEHeaderKey range_keys).
Local Abbreviation tokenError :=
  (tokenError ResponseWriter_Header_Set ResponseWriter_WriteHeader json_Encode
     CanonicalMIMEHeaderKey range_keys).
Local Abbreviation HandleTokenRequest :=
  (HandleTokenRequest ResponseWriter_Header_Set ResponseWriter_WriteHeader
     json_Encode CanonicalMIMEHeaderKey range_keys).
Local Abbreviation json_response :=
  (json_response ResponseWriter_Header_Set ResponseWriter_WriteHeader
     json_Encode).
Local Abbreviation forwarded_headers :=
  (forwarded_headers CanonicalMIMEHeaderKey range_keys).

(** A loop whose body sets one header sets the headers in the order of the
    loop. *)
Lemma for_range_Header_Set {R A : Type} (l : list A) (kv : A → string * string)
    st :
  for_range (R:=R) l
    (λ a, invoke (call_Header_Set (kv a).1 (kv a).2)
            (λ w, (tt, ResponseWriter_Header_Set (kv a).1 (kv a).2 w))) st
  = (Next tt,
     mkSt (foldl (λ w p, ResponseWriter_Header_Set p.1 p.2 w) (world st)
             (map kv l))
          (calls st ++ map (λ p, call_Header_Set p.1 p.2) (map kv l))%list).
Proof.
  revert st. induction l as [| a l IH]; intros st.
  - simpl. unfold next. destruct st. simpl. by rewrite app_nil_r.
  - simpl. unfold bind at 1. unfold invoke at 1. simpl. rewrite IH. simpl.
    by rewrite <- app_assoc.
Qed.

(** [token] writes one JSON response. *)
Lemma token_run s data header statusCode st :
  let status :=
    match statusCode with
    | c :: _ => if bool_decide (0 < c)%Z then c else 200%Z
    | [] => 200%Z
    end in
  let res :=
    json_response st (json_headers ++ forwarded_headers header)%list status
      data in
  token s data header statusCode st = (Returns res.1, res.2).
Proof.
  intros status res. unfold token. unfold func, bind at 1 2 3.
  unfold invoke at 1 2 3. simpl.
  unfold bind at 1.
  rewrite (for_range_Header_Set (range_keys header)
             (λ key, (key, http.Header_Get header
                             (CanonicalMIMEHeaderKey key)))).
  fold status. unfold res, json_response, forwarded_headers. run.
  unfold effect. simpl.
  destruct (json_Encode data _) as [e w']. simpl.
  by rewrite <- !app_assoc.
Qed.

(** The status code of [GetErrorData] is positive. *)
Lemma GetErrorData_status s err st data code header st1 :
  GetErrorData s err st = (Returns (data, code, header), st1) →
  (0 < code)%Z.
Proof.
  unfold GetErrorData. run. intros Hrun.
  destruct (hashable err); simpl in Hrun; [| done].
  destruct (Descriptions err); simpl in Hrun.
  - destruct (Server.ResponseErrorHandler s) as [fn|]; simpl in Hrun;
      [destruct (fn _ _) |]; injection Hrun as _ <- _ _; case_bool_decide; lia.
  - destruct (Server.InternalErrorHandler s) as [fi|]; simpl in Hrun;
      [destruct (fi _ _) |];
      (destruct (Server.ResponseErrorHandler s) as [fn|]; simpl in Hrun;
       [destruct (fn _ _) |]); injection Hrun as _ <- _ _; case_bool_decide; lia.
Qed.

(** [tokenError] is the JSON response of the error data. *)
Lemma tokenError_run s err st data code header st1 :
  GetErrorData s (Some err) st = (Returns (data, code, header), st1) →
  let res :=
    json_response st1 (json_headers ++ forwarded_headers header)%list code
      data in
  tokenError s err st = (Returns res.1, res.2).
Proof.
  intros Hdata res. unfold tokenError. run. rewrite Hdata. simpl.
  rewrite (token_run s data header [code] st1). simpl.
  by rewrite (bool_decide_true _ (GetErrorData_status _ _ _ _ _ _ _ Hdata)).
Qed.

(** [tokenError] returns for an error that is comparable, and panics
    before it writes anything for one that is not. *)
Lemma tokenError_returns s err st :
  comparable err = true →
  ∃ e st', tokenError s err st = (Returns e, st').
Proof.
  intros Hkey.
  destruct (GetErrorData_returns s (Some err) st Hkey)
    as ([[data code] header] & st1 & Hdata).
  rewrite (tokenError_run s err st data code header st1 Hdata).
  by eexists _, _.
Qed.

Lemma tokenError_panics s err st :
  comparable err = false → tokenError s err st = (Panics, st).
Proof.
  intros Hkey. unfold tokenError. run.
  by rewrite (GetErrorData_panics s err st Hkey).
Qed.

(** X26.  [token] writes one JSON response and returns the error of the
    encoder: the three fixed headers are set first, then one header for
    every key of [header] in the order of the loop, then the status, then
    the body.  The status is the first status code when it is positive and
    200 otherwise, so it is always positive.  A forwarded header carries
    the value found under the canonical form of its key. *)
Theorem token_spec s data header statusCode st :
  let status :=
    match statusCode with
    | c :: _ => if bool_decide (0 < c)%Z then c else 200%Z
    | [] => 200%Z
    end in
  let res :=
    json_response st (json_headers ++ forwarded_headers header)%list status
      data in
  (0 < status)%Z
  ∧ token s data header statusCode st = (Returns res.1, res.2).
Proof.
  intros status res. split; [| apply token_run].
  unfold status. destruct statusCode as [| c ?]; [lia |].
  case_bool_decide; lia.
Qed.

(** X27.  [tokenError] answers with the data, the headers and the status
    code that [GetErrorData] gives for the error.  The status code is
    positive, so the status of an error response is never the default
    200.  For an error that is not comparable the lookup of the error
    panics, and nothing is written. *)
Theorem tokenError_spec s err st :
  (∀ data code header st1,
     GetErrorData s (Some err) st = (Returns (data, code, header), st1) →
     let res :=
       json_response st1 (json_headers ++ forwarded_headers header)%list code
         data in
     (0 < code)%Z
     ∧ tokenError s err st = (Returns res.1, res.2))
  ∧ (comparable err = true →
     ∃ res st1, GetErrorData s (Some err) st = (Returns res, st1))
  ∧ (comparable err = false → tokenError s err st = (Panics, st)).
Proof.
  split; [| split].
  - intros data code header st1 Hdata res. split.
    + exact (GetErrorData_status _ _ _ _ _ _ _ Hdata).
    + by apply tokenError_run.
  - intros Hkey. by apply GetErrorData_returns.
  - apply tokenError_panics.
Qed.

(** X28.  A token request that fails the validation.  When the text of the
    error is "no permission to the app", the error is returned as it is and
    nothing is written to the response.  Otherwise the response is the
    error response of the root cause of the error, and the error returned
    is the one of writing that response: the validation error itself is
    not returned.  The access token is empty in both cases.  When the root
    cause is a value that is not comparable, its lookup panics. *)
Theorem HandleTokenRequest_validation_error s r st err st1 :
  ValidationTokenRequest s r st = (Returns (Err err), st1) →
  (ErrorText err = "no permission to the app" →
     HandleTokenRequest s r st = (Returns ("", Some err), st1))
  ∧ (ErrorText err ≠ "no permission to the app" →
     comparable (Cause err) = true →
     ∃ e st2,
       tokenError s (Cause err) st1 = (Returns e, st2)
       ∧ HandleTokenRequest s r st = (Returns ("", e), st2))
  ∧ (ErrorText err ≠ "no permission to the app" →
     comparable (Cause err) = false →
     HandleTokenRequest s r st = (Panics, st1)).
Proof.
  intros Hval. unfold HandleTokenRequest. run. rewrite Hval. simpl.
  split; [| split].
  - intros Htext. by rewrite (bool_decide_true _ Htext).
  - intros Htext Hkey. rewrite (bool_decide_false _ Htext). simpl.
    destruct (tokenError_returns s (Cause err) st1 Hkey) as (e & st2 & Hrun).
    exists e, st2. split; [done |]. by rewrite Hrun.
  - intros Htext Hkey. rewrite (bool_decide_false _ Htext). simpl.
    by rewrite (tokenError_panics s (Cause err) st1 Hkey).
Qed.

(** X29.  A token request that passes the validation and is refused by
    [GetAccessToken].  The response is the error response of the root
    cause of the error, whatever the text of the error: the text
    "no permission to the app" is not treated apart here.  The access
    token is empty and the error returned is the one of writing the
    response.  When the root cause is a value that is not comparable, its
    lookup panics. *)
Theorem HandleTokenRequest_grant_error s r st gt tgr st1 err st2 :
  ValidationTokenRequest s r st = (Returns (Ok (gt, tgr)), st1) →
  GetAccessToken s gt tgr st1 = (Returns (Err err), st2) →
  (comparable (Cause err) = true →
     ∃ e st3,
       tokenError s (Cause err) st2 = (Returns e, st3)
       ∧ HandleTokenRequest s r st = (Returns ("", e), st3))
  ∧ (comparable (Cause err) = false →
     HandleTokenRequest s r st = (Panics, st2)).
Proof.
  intros Hval Htoken. unfold HandleTokenRequest. run.
  rewrite Hval. simpl. rewrite Htoken. simpl. split.
  - intros Hkey.
    destruct (tokenError_returns s (Cause err) st2 Hkey) as (e & st3 & Hrun).
    exists e, st3. split; [done |]. by rewrite Hrun.
  - intros Hkey. by rewrite (tokenError_panics s (Cause err) st2 Hkey).
Qed.

(** X30.  A granted token request.  The access token of the generated
    token is returned, with the error of the encoder.  The response has
    the three fixed headers and no other, the status 200, and the token
    data of [GetTokenData] as its body.  The loop over the nil header map
    visits no key. *)
Theorem HandleTokenRequest_granted s r st gt tgr st1 ti st2 :
  range_keys ∅ = [] →
  ValidationTokenRequest s r st = (Returns (Ok (gt, tgr)), st1) →
  GetAccessToken s gt tgr st1 = (Returns (Ok ti), st2) →
  ∃ data st3,
    GetTokenData s ti st2 = (Returns data, st3)
    ∧ let res := json_response st3 json_headers 200 data in
      HandleTokenRequest s r st
      = (Returns (TokenInfo.GetAccess ti, res.1), res.2).
Proof.
  intros Hnil Hval Htoken.
  destruct (GetTokenData_lookup s ti st2) as (data & Hdata & _).
  exists data, (extension_fields s ti st2).2. split; [done |].
  unfold HandleTokenRequest. run.
  rewrite Hval. simpl. rewrite Htoken. simpl. rewrite Hdata. simpl.
  rewrite (token_run s data ∅ [] (extension_fields s ti st2).2). simpl.
  unfold forwarded_headers. by rewrite Hnil.
Qed.

End MoreToken.

(** ** The further properties on the scenarios *)

Section MoreInstances.

#[local] Existing Instance Example.constants.
#[local] Existing Instance Example.tables.
#[local] Existing Instance Example.package.

(** The client-authorization handler refuses the code grant. *)
Lemma GetAuthorizeToken_client_refused_witness :
  GetAuthorizeToken
    (Scenario.authorizing (Some Scenario.refuse_client) None
       (Scenario.user "u1") None)
    (Example.authorize "code" "https://app/cb" "xyz") Example.st0
  = (Returns (Err ErrUnauthorizedClient),
     mkSt 1%nat [call_ClientAuthorizedHandler "c1" AuthorizationCode]).
Proof.
  exact (proj1 (GetAuthorizeToken_client_refused
                  (Scenario.authorizing (Some Scenario.refuse_client) None
                     (Scenario.user "u1") None)
                  (Example.authorize "code" "https://app/cb" "xyz")
                  Scenario.refuse_client Example.st0 eq_refl) eq_refl).
Defined.

(** The client-scope handler refuses, for the implicit grant. *)
Lemma GetAuthorizeToken_scope_refused_witness :
  GetAuthorizeToken
    (Scenario.authorizing None (Some Scenario.refuse_scope)
       (Scenario.user "u1") None)
    (Example.authorize "token" "https://app/cb" "xyz") Example.st0
  = (Returns (Err ErrInvalidScope),
     mkSt 1%nat [call_ClientScopeHandler "c1" ""]).
Proof.
  exact (proj1 (GetAuthorizeToken_scope_refused
                  (Scenario.authorizing None (Some Scenario.refuse_scope)
                     (Scenario.user "u1") None)
                  (Example.authorize "token" "https://app/cb" "xyz")
                  Scenario.refuse_scope Example.st0 Example.st0 eq_refl
                  eq_refl) eq_refl).
Defined.

(** Without handlers the manager generates the code. *)
Lemma GetAuthorizeToken_delegates_witness :
  GetAuthorizeToken Example.server
    (Example.authorize "code" "https://app/cb" "xyz") Example.st0
  = (Returns (Ok Example.token1),
     mkSt 1%nat
       [call_GenerateAuthToken Code
          (TokenGenerateRequest.mk "c1" "" "" "https://app/cb" "" "" "" 0
             None)]).
Proof.
  exact (GetAuthorizeToken_delegates Example.server
           (Example.authorize "code" "https://app/cb" "xyz") Example.st0
           Example.st0 Example.st0 eq_refl eq_refl).
Defined.

(** The client-authorization handler refuses the code grant of the token
    endpoint. *)
Lemma GetAccessToken_client_refused_witness :
  ∃ err,
    GetAccessToken
      (Scenario.authorizing (Some Scenario.refuse_client) None
         (Scenario.user "u1") None)
      AuthorizationCode Example.code_request Example.st0
    = (Returns (Err err),
       mkSt 1%nat [call_ClientAuthorizedHandler "c1" AuthorizationCode])
    ∧ Cause err = ErrUnauthorizedClient.
Proof.
  assert (AuthorizationCode ∈ Config.AllowedGrantTypes
            (Server.Config
               (Scenario.authorizing (Some Scenario.refuse_client) None
                  (Scenario.user "u1") None))) as Hallowed.
  { apply (bool_decide_unpack _). vm_compute. exact I. }
  exact (proj1 (GetAccessToken_client_refused
                  (Scenario.authorizing (Some Scenario.refuse_client) None
                     (Scenario.user "u1") None)
                  AuthorizationCode Example.code_request
                  Scenario.refuse_client Example.st0 Hallowed eq_refl)
           eq_refl).
Defined.

(** The client-credentials grant on the example manager. *)
Lemma GetAccessToken_password_client_credentials_witness :
  GetAccessToken Example.server ClientCredentials Example.refresh_request
    Example.st0
  = (Returns (Ok Example.token1),
     mkSt 1%nat [call_GenerateAccessToken ClientCredentials
                   Example.refresh_request]).
Proof.
  assert (ClientCredentials ∈ Config.AllowedGrantTypes
            (Server.Config Example.server)) as Hallowed.
  { apply (bool_decide_unpack _). vm_compute. exact I. }
  assert (ClientCredentials ≠ AuthorizationCode) as Hne by discriminate.
  exact (proj2 (GetAccessToken_password_client_credentials Example.server
                  ClientCredentials Example.refresh_request Example.st0
                  Example.st0 (or_intror eq_refl) Hne Hallowed eq_refl)
           Example.st0 eq_refl).
Defined.

(** A grant type of the allow-list that the dispatch does not know. *)
Lemma GetAccessToken_unsupported_grant_type_witness :
  GetAccessToken Scenario.with_device_grant "device_code"
    Example.code_request Example.st0
  = (Returns (Err ErrUnsupportedGrantType), Example.st0).
Proof.
  assert ("device_code" ∉ [AuthorizationCode; PasswordCredentials;
                           ClientCredentials; Refreshing]) as Hnone.
  { apply (bool_decide_unpack _). vm_compute. exact I. }
  assert ("device_code" ∈ Config.AllowedGrantTypes
            (Server.Config Scenario.with_device_grant)) as Hallowed.
  { apply (bool_decide_unpack _). vm_compute. exact I. }
  exact (GetAccessToken_unsupported_grant_type Scenario.with_device_grant
           "device_code" Example.code_request Example.st0 Example.st0 Hnone
           Hallowed eq_refl).
Defined.

(** The refreshing grant on a server without a refreshing-scope handler. *)
Lemma GetAccessToken_refreshing_unchecked_witness :
  GetAccessToken Example.server Refreshing Example.refresh_request
    Example.st0
  = (Returns (Ok Example.token1),
     mkSt 1%nat [call_RefreshAccessToken Example.refresh_request]).
Proof.
  assert (Refreshing ∈ Config.AllowedGrantTypes
            (Server.Config Example.server)) as Hallowed.
  { apply (bool_decide_unpack _). vm_compute. exact I. }
  exact (GetAccessToken_refreshing_unchecked Example.server
           Example.refresh_request Example.st0 Example.st0
           Example_grant_types_distinct Hallowed eq_refl
           (or_intror eq_refl)).
Defined.

(** Closed facts about the scenarios are settled by evaluation. *)
Ltac by_evaluation := apply (bool_decide_unpack _); vm_compute; exact I.

Lemma Scenario_token_requests_admitted :
  token_request_admitted Scenario.without_client Scenario.token_code
  ∧ token_request_admitted Example.server Scenario.token_code
  ∧ token_request_admitted Example.server Scenario.token_refresh
  ∧ token_request_admitted Example.server Scenario.token_client_credentials
  ∧ token_request_admitted Example.server Example.password_request
  ∧ token_request_admitted
      (Scenario.with_password Example.accept_user Scenario.permit)
      Example.password_request.
Proof.
  repeat split; first [by left | intros H; vm_compute in H; discriminate H].
Defined.

(** A token request for the implicit grant is refused before the
    client-info handler is consulted; and a client-info handler that
    fails. *)
Lemma ValidationTokenRequest_rejected_early_witness :
  (∃ err,
     ValidationTokenRequest Example.server Scenario.token_implicit
       Example.st0 = (Returns (Err err), Example.st0)
     ∧ Cause err = ErrUnsupportedGrantType)
  ∧ ValidationTokenRequest Scenario.without_client Scenario.token_code
      Example.st0
    = (Returns (Err (WithStack ErrAccessDenied)),
       mkSt 0%nat [call_ClientInfoHandler Scenario.token_code]).
Proof.
  assert (http.FormValue Scenario.token_implicit "grant_type"
          ∉ [AuthorizationCode; PasswordCredentials; ClientCredentials;
             Refreshing]) as Hnone.
  { apply (bool_decide_unpack _). vm_compute. exact I. }
  split.
  - exact (proj1 (proj2 (ValidationTokenRequest_rejected_early
                           Example.server Scenario.token_implicit
                           Example.st0))
             (or_introl eq_refl) (or_intror Hnone)).
  - exact (proj1 (proj2 (proj2 (ValidationTokenRequest_rejected_early
                                  Scenario.without_client
                                  Scenario.token_code Example.st0))
                    (λ r, Example.deny (string * string)) ErrAccessDenied
                    0%nat (proj1 Scenario_token_requests_admitted) eq_refl
                    eq_refl)).
Defined.

(** A complete request of the authorization-code grant. *)
Lemma ValidationTokenRequest_authorization_code_witness :
  ValidationTokenRequest Example.server Scenario.token_code Example.st0
  = (Returns
       (Ok (AuthorizationCode,
            TokenGenerateRequest.mk "c1" "secret" "" "https://app/cb"
              "abc123" "" "" 0 (Some Scenario.token_code))),
     mkSt 0%nat [call_ClientInfoHandler Scenario.token_code]).
Proof.
  assert (http.FormValue Scenario.token_code "redirect_uri" ≠ "") as Huri
    by by_evaluation.
  assert (http.FormValue Scenario.token_code "code" ≠ "") as Hcode
    by by_evaluation.
  exact (proj2 (ValidationTokenRequest_authorization_code Example.server
                  Scenario.token_code Example.st0 Example.basic_handler
                  "c1" "secret" 0%nat
                  (proj1 (proj2 Scenario_token_requests_admitted))
                  eq_refl eq_refl eq_refl) Huri Hcode).
Defined.

(** A complete request of the refreshing grant. *)
Lemma ValidationTokenRequest_refreshing_witness :
  ValidationTokenRequest Example.server Scenario.token_refresh Example.st0
  = (Returns
       (Ok (Refreshing,
            TokenGenerateRequest.mk "c1" "secret" "" "" "" "r1" "read" 0
              (Some Scenario.token_refresh))),
     mkSt 0%nat [call_ClientInfoHandler Scenario.token_refresh]).
Proof.
  assert (http.FormValue Scenario.token_refresh "refresh_token" ≠ "")
    as Hrefresh by by_evaluation.
  exact (proj2 (ValidationTokenRequest_refreshing Example.server
                  Scenario.token_refresh Example.st0 Example.basic_handler
                  "c1" "secret" 0%nat Example_grant_types_distinct
                  (proj1 (proj2 (proj2 Scenario_token_requests_admitted)))
                  eq_refl eq_refl eq_refl) Hrefresh).
Defined.

(** A request of the client-credentials grant. *)
Lemma ValidationTokenRequest_client_credentials_witness :
  ValidationTokenRequest Example.server Scenario.token_client_credentials
    Example.st0
  = (Returns
       (Ok (ClientCredentials,
            TokenGenerateRequest.mk "c1" "secret" "" "" "" "" "read" 0
              (Some Scenario.token_client_credentials))),
     mkSt 0%nat [call_ClientInfoHandler Scenario.token_client_credentials]).
Proof.
  assert (ClientCredentials ≠ AuthorizationCode) as Hne1 by discriminate.
  assert (ClientCredentials ≠ PasswordCredentials) as Hne2 by discriminate.
  exact (ValidationTokenRequest_client_credentials Example.server
           Scenario.token_client_credentials Example.st0
           Example.basic_handler "c1" "secret" 0%nat
           (proj1 (proj2 (proj2 (proj2 Scenario_token_requests_admitted))))
           eq_refl eq_refl eq_refl Hne1 Hne2).
Defined.

(** The grant type of a validated refresh request. *)
Lemma ValidationTokenRequest_grant_type_witness :
  Refreshing = http.FormValue Scenario.token_refresh "grant_type"
  ∧ Refreshing ≠ ""
  ∧ Refreshing
    ∈ [AuthorizationCode; PasswordCredentials; ClientCredentials; Refreshing]
  ∧ TokenGenerateRequest.Request
      (TokenGenerateRequest.mk "c1" "secret" "" "" "" "r1" "read" 0
         (Some Scenario.token_refresh))
    = Some Scenario.token_refresh.
Proof.
  exact (ValidationTokenRequest_grant_type Example.server
           Scenario.token_refresh Example.st0 Refreshing
           (TokenGenerateRequest.mk "c1" "secret" "" "" "" "r1" "read" 0
              (Some Scenario.token_refresh))
           (mkSt 0%nat [call_ClientInfoHandler Scenario.token_refresh])
           eq_refl).
Defined.

(** The password grant with a user the permission check lets pass. *)
Lemma ValidationTokenRequest_password_witness :
  ValidationTokenRequest
    (Scenario.with_password Example.accept_user Scenario.permit)
    Example.password_request Example.st0
  = (Returns
       (Ok (PasswordCredentials,
            TokenGenerateRequest.mk "c1" "secret" "u1" "" "" "" "" 0
              (Some Example.password_request))),
     mkSt 1%nat [call_ClientInfoHandler Example.password_request;
                 call_PasswordAuthorizationHandler "u" "p";
                 call_CheckUserPermHandler "u1" ""]).
Proof.
  assert (PasswordCredentials ≠ AuthorizationCode) as Hne by discriminate.
  assert (http.FormValue Example.password_request "username" ≠ "") as Hu
    by by_evaluation.
  assert (http.FormValue Example.password_request "password" ≠ "") as Hp
    by by_evaluation.
  assert ("u1" ≠ "") as Huser by discriminate.
  pose proof (proj2 (ValidationTokenRequest_password
                       (Scenario.with_password Example.accept_user
                          Scenario.permit)
                       Example.password_request Example.st0
                       Example.basic_handler "c1" "secret" 0%nat
                       Example.accept_user Scenario.permit
                       (proj2 (proj2 (proj2 (proj2 (proj2
                          Scenario_token_requests_admitted)))))
                       eq_refl Hne eq_refl eq_refl eq_refl eq_refl) Hu Hp)
    as (_ & _ & Hpass).
  exact (proj2 (Hpass "u1" eq_refl Huser) eq_refl).
Defined.

(** The password grant on the server [NewServer] builds. *)
Lemma ValidationTokenRequest_NewServer_denies_password_witness :
  ValidationTokenRequest Example.server Example.password_request Example.st0
  = (Returns (Err ErrAccessDenied),
     mkSt 0%nat [call_ClientInfoHandler Example.password_request;
                 call_PasswordAuthorizationHandler "u" "p"]).
Proof.
  assert (PasswordCredentials ≠ AuthorizationCode) as Hne by discriminate.
  assert (http.FormValue Example.password_request "username" ≠ "") as Hu
    by by_evaluation.
  assert (http.FormValue Example.password_request "password" ≠ "") as Hp
    by by_evaluation.
  exact (ValidationTokenRequest_NewServer_denies_password
           Example.basic_handler Example.config Example.manager
           Example.password_request Example.st0 "c1" "secret" 0%nat
           (proj1 (proj2 (proj2 (proj2 (proj2
              Scenario_token_requests_admitted)))))
           eq_refl Hne eq_refl Hu Hp).
Defined.

(** The user handler writes the login page itself and gives no user. *)
Lemma HandleAuthorizeRequest_user_handler_witness :
  HandleAuthorizeRequest Example.header_set Example.write_header
    (Scenario.authorizing None None (Scenario.user "") None)
    Scenario.authorize_code Example.st0
  = (Returns None,
     mkSt 1%nat [call_UserAuthorizationHandler Scenario.authorize_code]).
Proof.
  exact (proj2 (HandleAuthorizeRequest_user_handler Example.header_set
                  Example.write_header
                  (Scenario.authorizing None None (Scenario.user "") None)
                  Scenario.authorize_code Example.st0 _ eq_refl)
           (Scenario.user "") 1%nat eq_refl eq_refl).
Defined.

(** The user has no permission to the application. *)
Lemma HandleAuthorizeRequest_user_error_witness :
  HandleAuthorizeRequest Example.header_set Example.write_header
    (Scenario.authorizing None None Scenario.forbid None)
    Scenario.authorize_code Example.st0
  = (Returns None,
     mkSt 3%nat
       [call_UserAuthorizationHandler Scenario.authorize_code;
        call_Header_Set "Location" "/ui/403?no permission to the app";
        call_WriteHeader 302]).
Proof.
  exact (proj1 (HandleAuthorizeRequest_user_error Example.header_set
                  Example.write_header
                  (Scenario.authorizing None None Scenario.forbid None)
                  Scenario.authorize_code Example.st0 _ Scenario.forbid
                  (errorString "no permission to the app") 1%nat
                  eq_refl eq_refl eq_refl) eq_refl).
Defined.

(** The scope handler fails after the user was authorized. *)
Lemma HandleAuthorizeRequest_scope_or_expiry_error_witness :
  HandleAuthorizeRequest Example.header_set Example.write_header
    (Scenario.authorizing None None (Scenario.user "u1")
       (Some Scenario.failing_scope))
    Scenario.authorize_code Example.st0
  = (Returns (Some (errorString "scope unavailable")),
     mkSt 2%nat [call_UserAuthorizationHandler Scenario.authorize_code;
                 call_AuthorizeScopeHandler Scenario.authorize_code]).
Proof.
  exact (proj1 (HandleAuthorizeRequest_scope_or_expiry_error
                  Example.header_set Example.write_header
                  (Scenario.authorizing None None (Scenario.user "u1")
                     (Some Scenario.failing_scope))
                  Scenario.authorize_code Example.st0 _ "u1"
                  (mkSt 1%nat
                     [call_UserAuthorizationHandler Scenario.authorize_code])
                  eq_refl eq_refl)
           Scenario.failing_scope (errorString "scope unavailable") 2%nat
           eq_refl eq_refl).
Defined.

(** The requests of the scenarios after the user "u1" was authorized. *)
Lemma Scenario_authorize_code_prepared clientAuthorized :
  authorize_request_prepared
    (Scenario.authorizing clientAuthorized None (Scenario.user "u1") None)
    Scenario.authorize_code Example.st0
    (AuthorizeRequest.mk "code" "c1" "" "https://app/cb" "xyz" "u1" 0
       (Some Scenario.authorize_code))
    (mkSt 1%nat [call_UserAuthorizationHandler Scenario.authorize_code]).
Proof.
  eexists _, _, _, _, _.
  split; [reflexivity |]. split; [reflexivity |]. split; reflexivity.
Defined.

Lemma Scenario_authorize_code_default_prepared :
  authorize_request_prepared
    (Scenario.authorizing None None (Scenario.user "u1") None)
    Scenario.authorize_code_default Example.st0
    (AuthorizeRequest.mk "code" "c1" "" "" "" "u1" 0
       (Some Scenario.authorize_code_default))
    (mkSt 1%nat
       [call_UserAuthorizationHandler Scenario.authorize_code_default]).
Proof.
  eexists _, _, _, _, _.
  split; [reflexivity |]. split; [reflexivity |]. split; reflexivity.
Defined.

(** The code flow from the request to the redirect. *)
Lemma HandleAuthorizeRequest_granted_witness :
  HandleAuthorizeRequest Example.header_set Example.write_header
    (Scenario.authorizing None None (Scenario.user "u1") None)
    Scenario.authorize_code Example.st0
  = (Returns None,
     mkSt 4%nat
       [call_UserAuthorizationHandler Scenario.authorize_code;
        call_GenerateAuthToken Code
          (TokenGenerateRequest.mk "c1" "" "u1" "https://app/cb" "" "" "" 0
             (Some Scenario.authorize_code));
        call_Header_Set "Location" "https://app/cb?code=abc123&state=xyz";
        call_WriteHeader 302]).
Proof.
  assert ("https://app/cb" ≠ "") as Huri by discriminate.
  rewrite (proj2 (HandleAuthorizeRequest_granted
                    (consts := Example.constants) Example.header_set
                    Example.write_header
                    (Scenario.authorizing None None (Scenario.user "u1")
                       None)
                    Scenario.authorize_code Example.st0 _ _ Example.token1
                    _ (Scenario_authorize_code_prepared None) eq_refl Huri)
             eq_refl).
  reflexivity.
Defined.

(** The client may not use the code grant: the error goes to the client
    in the redirect. *)
Lemma HandleAuthorizeRequest_refused_witness :
  HandleAuthorizeRequest Example.header_set Example.write_header
    (Scenario.authorizing (Some Scenario.refuse_client) None
       (Scenario.user "u1") None)
    Scenario.authorize_code Example.st0
  = (Returns None,
     mkSt 4%nat
       [call_UserAuthorizationHandler Scenario.authorize_code;
        call_ClientAuthorizedHandler "c1" AuthorizationCode;
        call_Header_Set "Location"
          ("https://app/cb?error=unauthorized_client"
           +:+ "&error_description=The+client+is+not+authorized&state=xyz");
        call_WriteHeader 302]).
Proof.
  destruct (proj1 (HandleAuthorizeRequest_refused Example.header_set
                     Example.write_header
                     (Scenario.authorizing (Some Scenario.refuse_client)
                        None (Scenario.user "u1") None)
                     Scenario.authorize_code Example.st0 _ _
                     ErrUnauthorizedClient _
                     (Scenario_authorize_code_prepared
                        (Some Scenario.refuse_client)) eq_refl) eq_refl)
    as (data & code & header & st5 & Hdata & ->).
  injection Hdata as <- _ _ <-. reflexivity.
Defined.

(** Without a redirect URI the domain of the client is used. *)
Lemma HandleAuthorizeRequest_default_redirect_uri_witness :
  HandleAuthorizeRequest Example.header_set Example.write_header
    (Scenario.authorizing None None (Scenario.user "u1") None)
    Scenario.authorize_code_default Example.st0
  = (Returns None,
     mkSt 5%nat
       [call_UserAuthorizationHandler Scenario.authorize_code_default;
        call_GenerateAuthToken Code
          (TokenGenerateRequest.mk "c1" "" "u1" "" "" "" "" 0
             (Some Scenario.authorize_code_default));
        call_GetClient "c1";
        call_Header_Set "Location" "https://app?code=abc123";
        call_WriteHeader 302]).
Proof.
  destruct (proj2 (HandleAuthorizeRequest_default_redirect_uri
                     Example.header_set Example.write_header
                     (Scenario.authorizing None None (Scenario.user "u1")
                        None)
                     Scenario.authorize_code_default Example.st0 _ _
                     Example.token1 _
                     Scenario_authorize_code_default_prepared eq_refl
                     eq_refl)
              (ClientInfo.mk "https://app") 3%nat eq_refl)
    as (data & st5 & Hdata & ->).
  injection Hdata as <- <-. reflexivity.
Defined.

(** The error response of an invalid scope. *)
Lemma tokenError_witness :
  tokenError Example.header_set Example.write_header Scenario.json_encode
    Scenario.canonical Scenario.range_keys Example.server ErrInvalidScope
    Example.st0
  = (Returns None,
     mkSt 5%nat
       [call_Header_Set "Content-Type" "application/json;charset=UTF-8";
        call_Header_Set "Cache-Control" "no-store";
        call_Header_Set "Pragma" "no-cache";
        call_WriteHeader 400]).
Proof.
  destruct (GetErrorData_returns Example.server (Some ErrInvalidScope)
              Example.st0 eq_refl) as ([[data code] header] & st1 & Hdata).
  pose proof (f_equal (λ p, (match p.1 with
                             | Returns out => Some (out.1.2, out.2)
                             | Panics => None
                             end, p.2)) Hdata) as Hrest.
  vm_compute in Hrest. injection Hrest as <- <- <-.
  exact (proj2 (proj1 (tokenError_spec Example.header_set
                         Example.write_header Scenario.json_encode
                         Scenario.canonical Scenario.range_keys
                         Example.server ErrInvalidScope Example.st0)
                  data 400%Z ∅ Example.st0 Hdata)).
Defined.

(** A token request with the method GET on a server that does not allow
    it. *)
Lemma HandleTokenRequest_validation_error_witness :
  HandleTokenRequest Example.header_set Example.write_header
    Scenario.json_encode Scenario.canonical Scenario.range_keys
    Example.server (Example.form "GET" []) Example.st0
  = (Returns ("", None),
     mkSt 5%nat
       [call_Header_Set "Content-Type" "application/json;charset=UTF-8";
        call_Header_Set "Cache-Control" "no-store";
        call_Header_Set "Pragma" "no-cache";
        call_WriteHeader 400]).
Proof.
  assert (ErrorText (withStack (withMessage ErrInvalidRequest
                                  "invalid request method"))
          ≠ "no permission to the app") as Htext by by_evaluation.
  destruct (proj1 (proj2 (HandleTokenRequest_validation_error
                            Example.header_set Example.write_header
                            Scenario.json_encode Scenario.canonical
                            Scenario.range_keys Example.server
                            (Example.form "GET" []) Example.st0 _
                            Example.st0 eq_refl)) Htext eq_refl)
    as (e & st2 & Hwritten & ->).
  vm_compute in Hwritten. by injection Hwritten as <- <-.
Defined.

(** The client may not use the client-credentials grant. *)
Lemma HandleTokenRequest_grant_error_witness :
  HandleTokenRequest Example.header_set Example.write_header
    Scenario.json_encode Scenario.canonical Scenario.range_keys
    (Scenario.authorizing (Some Scenario.refuse_client) None
       (Scenario.user "u1") None)
    Scenario.token_client_credentials Example.st0
  = (Returns ("", None),
     mkSt 6%nat
       [call_ClientInfoHandler Scenario.token_client_credentials;
        call_ClientAuthorizedHandler "c1" ClientCredentials;
        call_Header_Set "Content-Type" "application/json;charset=UTF-8";
        call_Header_Set "Cache-Control" "no-store";
        call_Header_Set "Pragma" "no-cache";
        call_WriteHeader 401]).
Proof.
  destruct (proj1 (HandleTokenRequest_grant_error
                     (consts := Example.constants)
                     (tables := Example.tables) Example.header_set
                     Example.write_header Scenario.json_encode
                     Scenario.canonical Scenario.range_keys
                     (Scenario.authorizing (Some Scenario.refuse_client)
                        None (Scenario.user "u1") None)
                     Scenario.token_client_credentials Example.st0 _ _ _ _ _
                     eq_refl eq_refl) eq_refl)
    as (e & st3 & Hwritten & ->).
  vm_compute in Hwritten. by injection Hwritten as <- <-.
Defined.

(** The client-credentials grant from the request to the response. *)
Lemma HandleTokenRequest_granted_witness :
  HandleTokenRequest Example.header_set Example.write_header
    Scenario.json_encode Scenario.canonical Scenario.range_keys
    Example.server Scenario.token_client_credentials Example.st0
  = (Returns ("tok1", None),
     mkSt 6%nat
       [call_ClientInfoHandler Scenario.token_client_credentials;
        call_GenerateAccessToken ClientCredentials
          (TokenGenerateRequest.mk "c1" "secret" "" "" "" "" "read" 0
             (Some Scenario.token_client_credentials));
        call_Header_Set "Content-Type" "application/json;charset=UTF-8";
        call_Header_Set "Cache-Control" "no-store";
        call_Header_Set "Pragma" "no-cache";
        call_WriteHeader 200]).
Proof.
  destruct (HandleTokenRequest_granted (consts := Example.constants)
              (tables := Example.tables) Example.header_set
              Example.write_header Scenario.json_encode Scenario.canonical
              Scenario.range_keys Example.server
              Scenario.token_client_credentials Example.st0 _ _ _
              Example.token1 _ eq_refl eq_refl eq_refl)
    as (data & st3 & Hdata & Hrun).
  rewrite Hrun. apply (f_equal snd) in Hdata.
  vm_compute in Hdata. by subst st3.
Defined.

End MoreInstances.
